(** * fast-ai: tool-calling loop, structured output and streaming

    A shallow embedding of the chat helpers of the repository.  The
    repository carries the same functions in several shapes; each is
    embedded in a module of its own, named after the file it comes from:

    - [Fastai]: [src/fastai.ts], the [OpenAI] class with its [chat] loop,
      [createOpenAI], [generateText], [generateObject], [createTool];
    - [FastaiClient]: the function-style build ([createOpenAI] returning
      a model builder, [generateText] with a tool map, [generateObject]
      with [prompt]/[system], [createTool] wrapping [execute]);
    - [FastaiStream]: the [OpenAI] class that also has [stream], with its
      own [generateToolsJsonSchema].

    JavaScript effects are explicit: arrays of messages live in a heap and
    are referred to by location, so that aliasing between the caller's
    array and the loop's history is visible; every request, observer
    notification, registry lookup, tool execution and stream callback is
    recorded, in order, in a trace. *)

From Stdlib Require Import Ascii String ZArith List.
From stdpp Require Import gmap strings list pretty.

Local Open Scope string_scope.
Local Open Scope list_scope.
Set Warnings "-register-all".

(** ** JSON values

    The result of [JSON.parse] and the argument of [JSON.stringify].
    Numbers are kept as integers: the code never computes with them. *)

Inductive json :=
| JNull
| JBool (b : bool)
| JNum (n : Z)
| JStr (s : string)
| JArr (items : list json)
| JObj (fields : list (string * json)).

(** A JavaScript object literal before serialisation: a field whose value
    is [undefined] is [None]. *)
Definition js_object := list (string * option json).

(** [JSON.stringify] of an object literal: fields that are [undefined]
    are left out, [null] is kept. *)
Definition JSON_stringify (o : js_object) : json :=
  JObj (omap (fun kv => match snd kv with
                        | Some v => Some (fst kv, v)
                        | None => None
                        end) o).

(** The keys that appear in a serialised object. *)
Definition keys (j : json) : list string :=
  match j with
  | JObj fields => map fst fields
  | _ => []
  end.

(** Property read on a parsed object: the last occurrence of a key wins. *)
Fixpoint field (k : string) (fields : list (string * json)) : option json :=
  match fields with
  | [] => None
  | (k', v) :: rest =>
      match field k rest with
      | Some v' => Some v'
      | None => if String.eqb k' k then Some v else None
      end
  end.

Module Js.

(** Truthiness of a value that may be [undefined]. *)
Definition truthy (v : option json) : bool :=
  match v with
  | None => false
  | Some JNull => false
  | Some (JBool b) => b
  | Some (JNum n) => negb (Z.eqb n 0)
  | Some (JStr s) => negb (String.eqb s "")
  | Some (JArr _) => true
  | Some (JObj _) => true
  end.

(** [v.k] for a value that is neither [undefined] nor [null], for the
    keys the code reads ([choices], [delta], [content]): only objects have
    them. *)
Definition member (v : json) (k : string) : option json :=
  match v with
  | JObj fields => field k fields
  | _ => None
  end.

(** [v[0]] for a value that is neither [undefined] nor [null]. *)
Definition index0 (v : json) : option json :=
  match v with
  | JArr items => head items
  | JStr (String c _) => Some (JStr (String c EmptyString))
  | JObj fields => field "0" fields
  | _ => None
  end.

(** Optional chaining [v?.f]: [undefined] and [null] short-circuit. *)
Definition optchain (v : option json) (f : json -> option json) : option json :=
  match v with
  | None => None
  | Some JNull => None
  | Some x => f x
  end.

(** [a || b] on strings that may be [undefined]. *)
Definition or_else (a : option string) (b : string) : string :=
  match a with
  | Some s => if String.eqb s "" then b else s
  | None => b
  end.

(** [a || b] where [b] may be [undefined] too. *)
Definition or_opt (a b : option string) : option string :=
  match a with
  | Some s => if String.eqb s "" then b else Some s
  | None => b
  end.

(** [a ?? b]. *)
Definition nullish (a : option string) (b : string) : string :=
  match a with
  | Some s => s
  | None => b
  end.

(** [s.slice(n)] for [n >= 0]. *)
Fixpoint slice (n : nat) (s : string) : string :=
  match n, s with
  | 0, _ => s
  | S n', String _ s' => slice n' s'
  | S _, EmptyString => EmptyString
  end.

(** [s.endsWith(suffix)], by length. *)
Definition endsWith (suffix s : string) : bool :=
  let n := String.length s in
  let m := String.length suffix in
  if Nat.leb m n then String.eqb (slice (n - m) s) suffix else false.

(** [s.replace(/suffix$/, '')] for a literal suffix. *)
Definition strip_suffix (suffix s : string) : string :=
  if endsWith suffix s
  then String.substring 0 (String.length s - String.length suffix) s
  else s.

(** [s.split('\n')]: never empty. *)
Fixpoint split_nl (s : string) : list string :=
  match s with
  | EmptyString => [EmptyString]
  | String c s' =>
      if Ascii.eqb c "010"%char then EmptyString :: split_nl s'
      else match split_nl s' with
           | [] => [String c EmptyString]
           | l :: ls => String c l :: ls
           end
  end.

(** White space removed by [trim] (within ASCII). *)
Definition is_space (c : ascii) : bool :=
  let n := nat_of_ascii c in
  orb (Nat.eqb n 32) (andb (Nat.leb 9 n) (Nat.leb n 13)).

Fixpoint trimStart (s : string) : string :=
  match s with
  | String c s' => if is_space c then trimStart s' else s
  | EmptyString => EmptyString
  end.

Fixpoint trimEnd (s : string) : string :=
  match s with
  | EmptyString => EmptyString
  | String c s' =>
      match trimEnd s' with
      | EmptyString => if is_space c then EmptyString else String c EmptyString
      | t => String c t
      end
  end.

Definition trim (s : string) : string := trimEnd (trimStart s).

End Js.

(** ** Exceptions and promises *)

Inductive exn :=
| Error (message : string)       (* [new Error(message)] *)
| TypeError                      (* property access on [undefined] or [null] *)
| SyntaxError                    (* [JSON.parse] *)
| ZodError                       (* [schema.parse] *)
| Rejection (reason : string).   (* a rejected promise from outside: network, tool *)

(** [`${e}`]. *)
Definition exn_text (e : exn) : string :=
  match e with
  | Error m => "Error: " +:+ m
  | TypeError => "TypeError"
  | SyntaxError => "SyntaxError"
  | ZodError => "ZodError"
  | Rejection r => r
  end.

(** What a synchronous function does: it returns or it throws. *)
Inductive result (A : Type) :=
| Ok (a : A)
| Raise (e : exn).
Arguments Ok {A} a.
Arguments Raise {A} e.

(** A settled promise. *)
Inductive promise (A : Type) :=
| Resolved (a : A)
| Rejected (e : exn).
Arguments Resolved {A} a.
Arguments Rejected {A} e.

(** What a function typed [Promise<string> | string] does when called. *)
Inductive sync_or_async :=
| Sync (s : string)              (* returns a string *)
| Async (p : promise string)     (* returns a promise *)
| Thrown (e : exn).              (* throws *)

(** ** Data model *)

Inductive Role := user | assistant | system | tool.

Definition Role_eqb (a b : Role) : bool :=
  match a, b with
  | user, user | assistant, assistant | system, system | tool, tool => true
  | _, _ => false
  end.

Definition Role_text (r : Role) : string :=
  match r with
  | user => "user"
  | assistant => "assistant"
  | system => "system"
  | tool => "tool"
  end.

Record ToolCall := {
  tc_index : Z;
  tc_id : string;
  tc_type : string;
  fn_name : string;        (* [function.name] *)
  fn_arguments : string    (* [function.arguments], raw JSON text *)
}.

(** [content] is [None] when the service sends [null]. *)
Record ChatMessage := {
  role : Role;
  content : option string;
  tool_calls : option (list ToolCall);
  tool_call_id : option string
}.

(** [type ChatRespose]: [choices] may be missing, and so may a choice's
    [message]. *)
Record ChatRespose := {
  choices : option (list (option ChatMessage))
}.

(** A zod schema, seen through the two things done with it:
    [schema.parse(value)] and [zodToJsonSchema(schema)]. *)
Record Schema := {
  parse : json -> option json;    (* [None]: throws a ZodError *)
  zodToJsonSchema : json
}.

Record Tool := {
  name : string;
  description : option string;
  parameters : Schema;
  execute : json -> promise string
}.

(** Callbacks are known by identity; what a call does is its entry in the
    trace. *)
Definition callback := nat.

Record Request := {
  url : string;
  authorization : string;    (* the [Authorization] header *)
  body : json                (* [JSON.stringify] of the body object *)
}.

Definition ToolCall_json (c : ToolCall) : json :=
  JObj [("index", JNum (tc_index c)); ("id", JStr (tc_id c));
        ("type", JStr (tc_type c));
        ("function", JObj [("name", JStr (fn_name c));
                           ("arguments", JStr (fn_arguments c))])].

Definition ChatMessage_json (m : ChatMessage) : json :=
  JSON_stringify
    [("role", Some (JStr (Role_text (role m))));
     ("content", Some (match content m with Some s => JStr s | None => JNull end));
     ("tool_calls", option_map (fun cs => JArr (map ToolCall_json cs)) (tool_calls m));
     ("tool_call_id", option_map JStr (tool_call_id m))].

(** One entry of the [tools] field of a request. *)
Definition tool_descriptor (t : Tool) : json :=
  JSON_stringify
    [("type", Some (JStr "function"));
     ("function", Some (JSON_stringify
        [("name", Some (JStr (name t)));
         ("description", option_map JStr (description t));
         ("parameters", Some (zodToJsonSchema (parameters t)))]))].

(** ** Effects *)

Definition loc := positive.

Inductive event :=
| EvFetch (r : Request)                       (* a request is issued *)
| EvObserve (cb : callback) (toolName : string)   (* [onToolCall(toolName)] *)
| EvLookup (toolName : string)                (* the registry is searched *)
| EvExecute (toolName : string) (args : json) (* [tool.execute(args)] *)
| EvOnMsg (cb : callback) (msg : json) (isStop : bool)  (* [onMsg(msg, isStop)] *)
| EvConsoleError                              (* [console.error] *)
| EvRead                                      (* [reader.read()] *)
| EvReleaseLock.                              (* [reader.releaseLock()] *)

Record world := {
  heap : gmap loc (list ChatMessage);   (* the arrays of messages *)
  trace : list event;                   (* what happened, oldest first *)
  requests : nat                        (* requests issued so far *)
}.

Inductive outcome (A : Type) :=
| Returned (a : A)
| Threw (e : exn)
| Pending.   (* still looping when the bound on rounds ran out *)
Arguments Returned {A} a.
Arguments Threw {A} e.
Arguments Pending {A}.

Definition M (A : Type) := world -> outcome A * world.

Definition ret {A} (a : A) : M A := fun w => (Returned a, w).
Definition throw {A} (e : exn) : M A := fun w => (Threw e, w).
Definition pending {A} : M A := fun w => (Pending, w).

Definition bind {A B} (m : M A) (k : A -> M B) : M B :=
  fun w =>
    match m w with
    | (Returned a, w') => k a w'
    | (Threw e, w') => (Threw e, w')
    | (Pending, w') => (Pending, w')
    end.

Notation "'do' x <- m ; k" := (bind m (fun x => k))
  (at level 10, x name, m at level 100, k at level 200).
Notation "m ;; k" := (bind m (fun _ => k))
  (at level 100, right associativity).

(** [try { m } finally { f }] with [f] a plain effect. *)
Definition finally {A} (m : M A) (f : M unit) : M A :=
  fun w =>
    match m w with
    | (r, w') => (r, snd (f w'))
    end.

(** [try { m } catch (e) { h e }]. *)
Definition catch {A} (m : M A) (h : exn -> M A) : M A :=
  fun w =>
    match m w with
    | (Threw e, w') => h e w'
    | r => r
    end.

Definition emit (e : event) : M unit :=
  fun w => (Returned tt,
            {| heap := heap w; trace := trace w ++ [e]; requests := requests w |}).

Definition await {A} (p : promise A) : M A :=
  match p with
  | Resolved a => ret a
  | Rejected e => throw e
  end.

(** [await v] for a value that may or may not be a promise. *)
Definition await_value (v : sync_or_async) : M string :=
  match v with
  | Sync s => ret s
  | Async p => await p
  | Thrown e => throw e
  end.

(** A new array. *)
Definition alloc (a : list ChatMessage) : M loc :=
  fun w =>
    let l := fresh (dom (heap w)) in
    (Returned l,
     {| heap := <[l := a]> (heap w); trace := trace w; requests := requests w |}).

(** The elements of an array. *)
Definition read (l : loc) : M (list ChatMessage) :=
  fun w =>
    match heap w !! l with
    | Some a => (Returned a, w)
    | None => (Threw TypeError, w)
    end.

(** [array.push(m)]. *)
Definition push (l : loc) (m : ChatMessage) : M unit :=
  fun w =>
    match heap w !! l with
    | Some a =>
        (Returned tt,
         {| heap := <[l := a ++ [m]]> (heap w); trace := trace w;
            requests := requests w |})
    | None => (Threw TypeError, w)
    end.

(** [calls.forEach(call => cb(call.function.name))]. *)
Fixpoint notify (cb : callback) (names : list string) : M unit :=
  match names with
  | [] => ret tt
  | n :: rest => emit (EvObserve cb n) ;; notify cb rest
  end.

(** The transport: [fetch(url, init).then(r => r.json())], answering the
    [n]-th request of a call. *)
Definition transport := nat -> Request -> promise ChatRespose.

Definition post (fetch : transport) (r : Request) : M ChatRespose :=
  fun w =>
    let w' := {| heap := heap w; trace := trace w ++ [EvFetch r];
                 requests := S (requests w) |} in
    await (fetch (requests w) r) w'.

(** [res.choices?.[0]?.message]. *)
Definition first_message (res : ChatRespose) : option ChatMessage :=
  match choices res with
  | Some (c :: _) => c
  | _ => None
  end.

Definition tool_message (result : string) (call : ToolCall) : ChatMessage :=
  {| role := tool; content := Some result; tool_calls := None;
     tool_call_id := Some (tc_id call) |}.

Definition user_message (text : string) : ChatMessage :=
  {| role := user; content := Some text; tool_calls := None;
     tool_call_id := None |}.

Definition system_message (text : string) : ChatMessage :=
  {| role := system; content := Some text; tool_calls := None;
     tool_call_id := None |}.

(** ** [src/fastai.ts] *)

Module Fastai.

(** [createTool(options: Tool<T>): Tool<T>]. *)
Definition createTool (options : Tool) : Tool := options.

Record CreateOpenAIOptions := {
  opt_baseURL : option string;
  opt_apiKey : option string;
  opt_model : option string
}.

(** The three variables read from [process.env]. *)
Record ProcessEnv := {
  OPENAI_BASE_URL : option string;
  OPENAI_MODEL : option string;
  OPENAI_API_KEY : option string
}.

(** [class OpenAI].  [messages] and [tools] have no initialiser. *)
Record OpenAI := {
  _baseURL : string;
  apiKey : string;
  endpoint : string;
  model : string;
  messages : option loc;
  tools : option (list Tool);
  onToolCall : option callback
}.

(** [set baseURL(baseURL)]: one trailing slash is dropped. *)
Definition set_baseURL (baseURL : string) : string * string :=
  let b := Js.strip_suffix "/" baseURL in
  (b, b +:+ "/chat/completions").

Definition createOpenAI (env : ProcessEnv) (options : CreateOpenAIOptions) : OpenAI :=
  let '(b, e) :=
    set_baseURL (Js.or_else (Js.or_opt (opt_baseURL options) (OPENAI_BASE_URL env))
                            "https://api.openai.com/v1") in
  {| _baseURL := b;
     endpoint := e;
     model := Js.or_else (Js.or_opt (opt_model options) (OPENAI_MODEL env)) "";
     apiKey := Js.or_else (Js.or_opt (opt_apiKey options) (OPENAI_API_KEY env)) "";
     messages := None;
     tools := None;
     onToolCall := None |}.

(** [createOpenAI()] with its default argument [{}]. *)
Definition no_options : CreateOpenAIOptions :=
  {| opt_baseURL := None; opt_apiKey := None; opt_model := None |}.

Definition generateToolsJsonSchema (tools : list Tool) : list json :=
  map tool_descriptor tools.

(** [options.openai || createOpenAI()]. *)
Definition client_or_default (env : ProcessEnv) (given : option OpenAI) : OpenAI :=
  match given with
  | Some o => o
  | None => createOpenAI env no_options
  end.

(** [openai.messages = m; openai.tools = ts]: the array itself is stored,
    not a copy of it. *)
Definition assign (openai : OpenAI) (m : loc) (ts : list Tool) : OpenAI :=
  {| _baseURL := _baseURL openai; apiKey := apiKey openai;
     endpoint := endpoint openai; model := model openai;
     messages := Some m;
     tools := Some ts;
     onToolCall := onToolCall openai |}.

(** The body of a request of [chat]. *)
Definition chat_body (o : OpenAI) (history : option (list ChatMessage)) : json :=
  JSON_stringify
    [("model", Some (JStr (model o)));
     ("messages", option_map (fun h => JArr (map ChatMessage_json h)) history);
     ("tools", Some (JArr (generateToolsJsonSchema
                             (match tools o with Some ts => ts | None => [] end))))].

Definition chat_request (o : OpenAI) (history : option (list ChatMessage)) : Request :=
  {| url := endpoint o;
     authorization := "Bearer " +:+ apiKey o;
     body := chat_body o history |}.

(** [this.tools?.find(t => t.name === wanted)]. *)
Definition find_tool (o : OpenAI) (wanted : string) : option Tool :=
  match tools o with
  | Some ts => find (fun t => String.eqb (name t) wanted) ts
  | None => None
  end.

(** The elements of [this.messages], when it is set. *)
Definition history_of (o : OpenAI) : M (option (list ChatMessage)) :=
  match messages o with
  | Some l => do h <- read l; ret (Some h)
  | None => ret None
  end.

(** [this.messages.push(m)]. *)
Definition push_message (o : OpenAI) (m : ChatMessage) : M unit :=
  match messages o with
  | Some l => push l m
  | None => throw TypeError
  end.

Section Chat.

Variable JSON_parse : string -> option json.   (* [None]: throws a SyntaxError *)
Variable fetch : transport.

(** [for (const call of tool_calls) { ... }]; [Some r] when the body
    returns [r] from [chat], [None] when the loop runs to its end. *)
Fixpoint for_calls (o : OpenAI) (generateObject : bool) (calls : list ToolCall)
  : M (option string) :=
  match calls with
  | [] => ret None
  | call :: rest =>
      emit (EvLookup (fn_name call)) ;;
      match find_tool o (fn_name call) with
      | None => throw (Error ("Tool " +:+ fn_name call +:+ " not found"))
      | Some t =>
          if generateObject then ret (Some (fn_arguments call))
          else
            match JSON_parse (fn_arguments call) with
            | None => throw SyntaxError
            | Some raw =>
                match parse (parameters t) raw with
                | None => throw ZodError
                | Some args =>
                    emit (EvExecute (name t) args) ;;
                    do result <- await (execute t args);
                    push_message o (tool_message result call) ;;
                    for_calls o generateObject rest
                end
            end
      end
  end.

(** One turn of [while (true)]. *)
Definition round (o : OpenAI) (generateObject : bool) : M (option string) :=
  do history <- history_of o;
  do res <- post fetch (chat_request o history);
  match first_message res with
  | None => throw (Error "No assistant message returned")
  | Some reply =>
      push_message o reply ;;
      match tool_calls reply with
      | None | Some [] => ret (Some (Js.or_else (content reply) ""))
      | Some calls =>
          match onToolCall o with
          | Some cb => notify cb (map fn_name calls)
          | None => ret tt
          end ;;
          for_calls o generateObject calls
      end
  end.

(** [while (true)], for at most [n] turns. *)
Fixpoint loop (n : nat) (o : OpenAI) (generateObject : bool) : M string :=
  match n with
  | 0 => pending
  | S n' =>
      do r <- round o generateObject;
      match r with
      | Some text => ret text
      | None => loop n' o generateObject
      end
  end.

(** [async chat(msg?: string, generateObject = false)]. *)
Definition chat (n : nat) (o : OpenAI) (msg : option string) (generateObject : bool)
  : M string :=
  match msg with
  | Some (String c s) => push_message o (user_message (String c s))
  | _ => ret tt
  end ;;
  loop n o generateObject.

Record GenerateTextOptions := {
  gt_openai : option OpenAI;
  gt_messages : loc;
  gt_tools : option (list Tool);
  gt_onToolCall : option callback
}.

(** [generateText(options)]. *)
Definition generateText (env : ProcessEnv) (n : nat) (options : GenerateTextOptions)
  : M string :=
  let openai := client_or_default env (gt_openai options) in
  let openai :=
    assign openai (gt_messages options)
           (match gt_tools options with Some ts => ts | None => [] end) in
  chat n openai None false.

Record GenerateObjectOptions := {
  go_openai : option OpenAI;
  go_messages : loc;
  go_schema : Schema
}.

Definition system_preamble : string :=
  "You are a structured output assistant. Understand what the user wants, and then respond by calling the tool `submit_object` once, with the parameter being the JSON data that the user wants.".

Definition submit_object (schema : Schema) : Tool :=
  createTool
    {| name := "submit_object";
       description := Some "Submit the final structured object that matches the required schema.";
       parameters := schema;
       execute := fun _ => Resolved "Object submitted." |}.

(** [generateObject(options)]. *)
Definition generateObject (env : ProcessEnv) (n : nat) (options : GenerateObjectOptions)
  : M json :=
  let openai := client_or_default env (go_openai options) in
  do current <- read (go_messages options);
  match find (fun m => Role_eqb (role m) system) current with
  | Some _ => ret tt
  | None => push (go_messages options) (system_message system_preamble)
  end ;;
  let openai :=
    assign openai (go_messages options) [submit_object (go_schema options)] in
  do res <- chat n openai None true;
  match res with
  | String _ _ =>
      match JSON_parse res with
      | None =>
          emit EvConsoleError ;;
          throw (Error ("Failed to parse generated object: " +:+ exn_text SyntaxError))
      | Some obj =>
          match parse (go_schema options) obj with
          | None =>
              emit EvConsoleError ;;
              throw (Error ("Failed to parse generated object: " +:+ exn_text ZodError))
          | Some parsed => ret parsed
          end
      end
  | EmptyString =>
      throw (Error "Model did not return a structured object. Ensure the model supports tool calling.")
  end.

End Chat.

End Fastai.

(** ** The function-style build: [createOpenAI] returns a model builder,
    [generateText] keeps its own history and a tool map *)

Module FastaiClient.

Record CreateToolOptions := {
  ct_name : string;
  ct_description : option string;
  ct_parameters : Schema;
  ct_execute : json -> sync_or_async    (* [Promise<string> | string] *)
}.

(** [async (args) => Promise.resolve(options.execute(args))]. *)
Definition wrappedExecute (options : CreateToolOptions) (args : json) : promise string :=
  match ct_execute options args with
  | Sync s => Resolved s
  | Async p => p
  | Thrown e => Rejected e
  end.

Definition createTool (options : CreateToolOptions) : Tool :=
  {| name := ct_name options;
     description := ct_description options;
     parameters := ct_parameters options;
     execute := wrappedExecute options |}.

Record CreateOpenAIOptions := {
  opt_baseURL : option string;
  opt_apiKey : option string
}.

Record ChatModelRef := {
  endpoint : string;
  model : string;
  ref_apiKey : string
}.

(** The builder returned by [createOpenAI], with its two properties. *)
Record OpenAIClient := {
  baseURL : string;
  apiKey : string
}.

(** [client(modelName)], also [client.chat(modelName)]. *)
Definition model_ref (c : OpenAIClient) (modelName : string) : ChatModelRef :=
  {| endpoint := baseURL c +:+ "/chat/completions";
     model := modelName;
     ref_apiKey := apiKey c |}.

Definition default_baseURL : string := "https://api-inference.modelscope.cn/v1".

Definition createOpenAI (options : CreateOpenAIOptions) : result OpenAIClient :=
  let base := Js.strip_suffix "/" (Js.nullish (opt_baseURL options) default_baseURL) in
  match opt_apiKey options with
  | Some (String c k) => Ok {| baseURL := base; apiKey := String c k |}
  | _ => Raise (Error "apiKey is required")
  end.

(** The two calling conventions of [generateText] and [generateObject]. *)
Inductive Target :=
| ByModelRef (m : ChatModelRef)                        (* [{ model: ChatModelRef }] *)
| ByClient (c : OpenAIClient) (modelName : string).    (* [{ client, model: string }] *)

(** [tools]: an array, or an object whose entries are listed in the order
    of [Object.entries]. *)
Inductive ToolsInput :=
| ToolsArray (ts : list Tool)
| ToolsRecord (entries : list (string * Tool)).

(** A [Map]: setting a key that is present keeps its place. *)
Fixpoint map_set (k : string) (t : Tool) (m : list (string * Tool)) : list (string * Tool) :=
  match m with
  | [] => [(k, t)]
  | (k', t') :: rest =>
      if String.eqb k' k then (k, t) :: rest else (k', t') :: map_set k t rest
  end.

Fixpoint map_get (k : string) (m : list (string * Tool)) : option Tool :=
  match m with
  | [] => None
  | (k', t) :: rest => if String.eqb k' k then Some t else map_get k rest
  end.

Definition toolMap_of (toolsInput : option ToolsInput) : list (string * Tool) :=
  match toolsInput with
  | Some (ToolsArray ts) => fold_left (fun m t => map_set (name t) t m) ts []
  | Some (ToolsRecord entries) => fold_left (fun m e => map_set (fst e) (snd e) m) entries []
  | None => []
  end.

(** [toolMap.size ? Array.from(toolMap.values()).map(...) : undefined]. *)
Definition toolsJsonSchema_of (toolMap : list (string * Tool)) : option json :=
  match toolMap with
  | [] => None
  | _ => Some (JArr (map (fun e => tool_descriptor (snd e)) toolMap))
  end.

Definition endpoint_of (t : Target) : string :=
  let baseURL :=
    Js.strip_suffix "/"
      match t with
      | ByClient c _ => baseURL c
      | ByModelRef m => Js.strip_suffix "/chat/completions" (endpoint m)
      end in
  baseURL +:+ "/chat/completions".

Definition apiKey_of (t : Target) : string :=
  match t with
  | ByClient c _ => apiKey c
  | ByModelRef m => ref_apiKey m
  end.

Definition modelName_of (t : Target) : string :=
  match t with
  | ByClient _ modelName => modelName
  | ByModelRef m => model m
  end.

Record GenerateTextOptions := {
  gt_target : Target;
  gt_messages : loc;
  gt_tools : option ToolsInput;
  gt_onToolCall : option callback
}.

Definition request_of (t : Target) (history : list ChatMessage) (tools : option json)
  : Request :=
  {| url := endpoint_of t;
     authorization := "Bearer " +:+ apiKey_of t;
     body := JSON_stringify
               [("model", Some (JStr (modelName_of t)));
                ("messages", Some (JArr (map ChatMessage_json history)));
                ("tools", tools)] |}.

Section Loop.

Variable JSON_parse : string -> option json.
Variable fetch : transport.

(** [for (const call of tool_calls) { ... }]. *)
Fixpoint for_calls (toolMap : list (string * Tool)) (messageHistory : loc)
  (calls : list ToolCall) : M unit :=
  match calls with
  | [] => ret tt
  | call :: rest =>
      emit (EvLookup (fn_name call)) ;;
      match map_get (fn_name call) toolMap with
      | None => throw (Error ("Tool " +:+ fn_name call +:+ " not found"))
      | Some t =>
          match JSON_parse (fn_arguments call) with
          | None => throw SyntaxError
          | Some raw =>
              match parse (parameters t) raw with
              | None => throw ZodError
              | Some args =>
                  emit (EvExecute (name t) args) ;;
                  do result <- await (execute t args);
                  push messageHistory (tool_message result call) ;;
                  for_calls toolMap messageHistory rest
              end
          end
      end
  end.

(** One turn of [while (true)]; [Some text] when [generateText] returns
    [{ text }]. *)
Definition round (options : GenerateTextOptions) (toolMap : list (string * Tool))
  (messageHistory : loc) : M (option (option string)) :=
  do history <- read messageHistory;
  do res <- post fetch (request_of (gt_target options) history (toolsJsonSchema_of toolMap));
  match first_message res with
  | None => throw (Error "No message returned")
  | Some reply =>
      push messageHistory reply ;;
      match tool_calls reply with
      | None | Some [] => ret (Some (content reply))
      | Some calls =>
          match gt_onToolCall options with
          | Some cb => notify cb (map fn_name calls)
          | None => ret tt
          end ;;
          for_calls toolMap messageHistory calls ;;
          ret None
      end
  end.

Fixpoint loop (n : nat) (options : GenerateTextOptions) (toolMap : list (string * Tool))
  (messageHistory : loc) : M (option string) :=
  match n with
  | 0 => pending
  | S n' =>
      do r <- round options toolMap messageHistory;
      match r with
      | Some text => ret text
      | None => loop n' options toolMap messageHistory
      end
  end.

(** [generateText(options)]: the result is the [text] field, [None] when
    the service sent [null]. *)
Definition generateText (n : nat) (options : GenerateTextOptions) : M (option string) :=
  do messages <- read (gt_messages options);
  do messageHistory <- alloc messages;
  loop n options (toolMap_of (gt_tools options)) messageHistory.

Record GenerateObjectOptions := {
  go_target : Target;
  go_schema : Schema;
  go_prompt : string;
  go_system : option string
}.

Definition default_preamble : string :=
  "You are a structured-output assistant. Always respond by calling the tool `submit_object` exactly once with the final JSON object. Do not include any other text.".

(** The [messages] array of [generateObject]. *)
Definition object_messages (options : GenerateObjectOptions) : list ChatMessage :=
  [system_message (Js.nullish (go_system options) default_preamble);
   user_message (go_prompt options)].

Definition object_tools (schema : Schema) : json :=
  JArr [JObj [("type", JStr "function");
              ("function", JObj
                 [("name", JStr "submit_object");
                  ("description", JStr "Submit the final structured object that matches the required schema.");
                  ("parameters", zodToJsonSchema schema)])]].

(** The endpoint of [generateObject]:
    [replace(/\/(?:chat\/completions)?$/, '')] removes [/chat/completions]
    at the end, or else a slash at the end. *)
Definition object_endpoint (t : Target) : string :=
  let baseURL :=
    Js.strip_suffix "/"
      match t with
      | ByClient c _ => baseURL c
      | ByModelRef m =>
          if Js.endsWith "/chat/completions" (endpoint m)
          then Js.strip_suffix "/chat/completions" (endpoint m)
          else Js.strip_suffix "/" (endpoint m)
      end in
  baseURL +:+ "/chat/completions".

Definition object_request (options : GenerateObjectOptions) : Request :=
  {| url := object_endpoint (go_target options);
     authorization := "Bearer " +:+ apiKey_of (go_target options);
     body := JSON_stringify
               [("model", Some (JStr (modelName_of (go_target options))));
                ("messages", Some (JArr (map ChatMessage_json (object_messages options))));
                ("tools", Some (object_tools (go_schema options)))] |}.

(** [generateObject(options)]: one request, no loop. *)
Definition generateObject (options : GenerateObjectOptions) : M json :=
  let schema := go_schema options in
  do res <- post fetch (object_request options);
  match first_message res with
  | None => throw (Error "No message returned")
  | Some reply =>
      let toolCalls := match tool_calls reply with Some cs => cs | None => [] end in
      match find (fun c => String.eqb (fn_name c) "submit_object") toolCalls with
      | Some submitCall =>
          let rawArgs :=
            match fn_arguments submitCall with
            | EmptyString => "{}"
            | a => a
            end in
          match JSON_parse rawArgs with
          | None => throw SyntaxError
          | Some parsed =>
              match parse schema parsed with
              | None => throw ZodError
              | Some validated => ret validated
              end
          end
      | None =>
          let structured_error :=
            throw (Error "Model did not return a structured object. Ensure the model supports tool calling.") in
          match content reply with
          | Some (String c s) =>
              match JSON_parse (String c s) with
              | None => structured_error
              | Some fallback =>
                  match parse schema fallback with
                  | None => structured_error
                  | Some validated => ret validated
                  end
              end
          | _ => structured_error
          end
      end
  end.

End Loop.

End FastaiClient.

(** ** The [OpenAI] class with [stream] *)

Module FastaiStream.

(** [generateToolsJsonSchema(tools)]: [null] for no tools. *)
Definition generateToolsJsonSchema (tools : option (list Tool)) : json :=
  match tools with
  | None => JNull
  | Some [] => JNull
  | Some ts => JArr (map tool_descriptor ts)
  end.

(** The body of a request of [stream]. *)
Definition stream_body (o : Fastai.OpenAI) (history : option (list ChatMessage)) : json :=
  JSON_stringify
    [("model", Some (JStr (Fastai.model o)));
     ("messages", option_map (fun h => JArr (map ChatMessage_json h)) history);
     ("tools", Some (generateToolsJsonSchema
                       (Some (match Fastai.tools o with Some ts => ts | None => [] end))));
     ("stream", Some (JBool true))].

Definition stream_request (o : Fastai.OpenAI) (history : option (list ChatMessage))
  : Request :=
  {| url := Fastai.endpoint o;
     authorization := "Bearer " +:+ Fastai.apiKey o;
     body := stream_body o history |}.

(** What [fetch] resolves to: [ok], [status], and the body as the texts
    the decoder yields for its chunks. *)
Record Response := {
  ok : bool;
  status : Z;
  response_body : option (list string)
}.

Section Stream.

Variable JSON_parse : string -> option json.
Variable fetch : Request -> promise Response.

(** [data.choices?.[0]?.delta]. *)
Definition delta_of (data : json) : M (option json) :=
  match data with
  | JNull => throw TypeError
  | _ =>
      ret (Js.optchain (Js.optchain (Js.member data "choices") Js.index0)
                       (fun first => Js.member first "delta"))
  end.

(** The [try { ... } catch (e) { console.error(...) }] of one line. *)
Definition on_data (onMsg : callback) (dataStr : string) : M unit :=
  catch
    (match JSON_parse dataStr with
     | None => throw SyntaxError
     | Some data =>
         do delta <- delta_of data;
         match delta with
         | Some d =>
             if Js.truthy (Some d) && Js.truthy (Js.member d "content")
             then match Js.member d "content" with
                  | Some text => emit (EvOnMsg onMsg text false)
                  | None => ret tt
                  end
             else ret tt
         | None => ret tt
         end
     end)
    (fun _ => emit EvConsoleError).

(** [for (const line of lines) { ... }]; [true] when the body returns
    from [stream]. *)
Fixpoint for_lines (onMsg : callback) (lines : list string) : M bool :=
  match lines with
  | [] => ret false
  | line :: rest =>
      if negb (String.prefix "data: " line) then for_lines onMsg rest
      else
        let dataStr := Js.slice 6 line in
        if String.eqb dataStr "[DONE]"
        then emit (EvOnMsg onMsg (JStr "") true) ;; ret true
        else on_data onMsg dataStr ;; for_lines onMsg rest
  end.

(** [while (true) { const { done, value } = await reader.read(); ... }]
    over the chunks that are still to come. *)
Fixpoint read_loop (onMsg : callback) (chunks : list string) (buffer : string) : M unit :=
  emit EvRead ;;
  match chunks with
  | [] =>
      match Js.trim buffer with
      | EmptyString => ret tt
      | rest => emit (EvOnMsg onMsg (JStr rest) true)
      end
  | chunk :: later =>
      let buffer := buffer +:+ chunk in
      let lines := Js.split_nl buffer in
      let buffer := List.last lines "" in
      do stop <- for_lines onMsg (List.removelast lines);
      if stop then ret tt else read_loop onMsg later buffer
  end.

(** [async stream(prompt, onMsg)]. *)
Definition stream (o : Fastai.OpenAI) (prompt : string) (onMsg : callback) : M unit :=
  Fastai.push_message o (user_message prompt) ;;
  do history <- Fastai.history_of o;
  emit (EvFetch (stream_request o history)) ;;
  do response <- await (fetch (stream_request o history));
  if negb (ok response)
  then throw (Error ("HTTP error! status: " +:+ pretty (status response)))
  else
    match response_body response with
    | None => throw (Error "Response body is null")
    | Some chunks => finally (read_loop onMsg chunks "") (emit EvReleaseLock)
    end.

End Stream.

End FastaiStream.

(** ** The build whose [generateText] and [generateObject] work on the
    caller's options directly, with the transport-only [OpenAI] class *)

Module FastaiDirect.

(** The body and the request of both functions: the client gives the
    endpoint, the key and the model, the options give the rest. *)
Definition request_of (openai : Fastai.OpenAI) (history : list ChatMessage)
  (tools : list Tool) : Request :=
  {| url := Fastai.endpoint openai;
     authorization := "Bearer " +:+ Fastai.apiKey openai;
     body := JSON_stringify
               [("model", Some (JStr (Fastai.model openai)));
                ("messages", Some (JArr (map ChatMessage_json history)));
                ("tools", Some (JArr (Fastai.generateToolsJsonSchema tools)))] |}.

Section Direct.

Variable JSON_parse : string -> option json.
Variable JSON_text : json -> string.    (* [JSON.stringify(value)] as text *)
Variable fetch : transport.

(** [for (const call of tool_calls) { ... }] of [generateText]. *)
Fixpoint for_calls (options : Fastai.GenerateTextOptions) (calls : list ToolCall)
  : M unit :=
  match calls with
  | [] => ret tt
  | call :: rest =>
      emit (EvLookup (fn_name call)) ;;
      match match Fastai.gt_tools options with
            | Some ts => find (fun t => String.eqb (name t) (fn_name call)) ts
            | None => None
            end with
      | None => throw (Error ("Tool " +:+ fn_name call +:+ " not found"))
      | Some t =>
          match JSON_parse (fn_arguments call) with
          | None => throw SyntaxError
          | Some raw =>
              match parse (parameters t) raw with
              | None => throw ZodError
              | Some args =>
                  emit (EvExecute (name t) args) ;;
                  do result <- await (execute t args);
                  push (Fastai.gt_messages options) (tool_message result call) ;;
                  for_calls options rest
              end
          end
      end
  end.

(** One turn of [while (true)] of [generateText]. *)
Definition round (openai : Fastai.OpenAI) (options : Fastai.GenerateTextOptions)
  : M (option string) :=
  do history <- read (Fastai.gt_messages options);
  do res <- post fetch (request_of openai history
                          (match Fastai.gt_tools options with Some ts => ts | None => [] end));
  match first_message res with
  | None => throw (Error "No assistant message returned")
  | Some reply =>
      push (Fastai.gt_messages options) reply ;;
      match tool_calls reply with
      | None | Some [] => ret (Some (Js.or_else (content reply) ""))
      | Some calls =>
          match Fastai.gt_onToolCall options with
          | Some cb => notify cb (map fn_name calls)
          | None => ret tt
          end ;;
          for_calls options calls ;;
          ret None
      end
  end.

Fixpoint loop (n : nat) (openai : Fastai.OpenAI) (options : Fastai.GenerateTextOptions)
  : M string :=
  match n with
  | 0 => pending
  | S n' =>
      do r <- round openai options;
      match r with
      | Some text => ret text
      | None => loop n' openai options
      end
  end.

(** [generateText(options)]. *)
Definition generateText (env : Fastai.ProcessEnv) (n : nat)
  (options : Fastai.GenerateTextOptions) : M string :=
  loop n (Fastai.client_or_default env (Fastai.gt_openai options)) options.

(** The [submit_object] tool of this [generateObject]. *)
Definition submit_object (schema : Schema) : Tool :=
  Fastai.createTool
    {| name := "submit_object";
       description := Some "Submit the final structured object that matches the required schema.";
       parameters := schema;
       execute := fun args => Resolved (JSON_text args) |}.

(** [generateObject(options)]: one request, the reply is not pushed. *)
Definition generateObject (env : Fastai.ProcessEnv) (options : Fastai.GenerateObjectOptions)
  : M json :=
  let openai := Fastai.client_or_default env (Fastai.go_openai options) in
  do current <- read (Fastai.go_messages options);
  match find (fun m => Role_eqb (role m) system) current with
  | Some _ => ret tt
  | None => push (Fastai.go_messages options) (system_message Fastai.system_preamble)
  end ;;
  do history <- read (Fastai.go_messages options);
  do res <- post fetch (request_of openai history
                          [submit_object (Fastai.go_schema options)]);
  match first_message res with
  | None => throw (Error "No assistant message returned")
  | Some reply =>
      let toolCalls := match tool_calls reply with Some cs => cs | None => [] end in
      match find (fun c => String.eqb (fn_name c) "submit_object") toolCalls with
      | Some submitCall =>
          match JSON_parse (fn_arguments submitCall) with
          | None => throw SyntaxError
          | Some parsed =>
              match parse (Fastai.go_schema options) parsed with
              | None => throw ZodError
              | Some object => ret object
              end
          end
      | None =>
          throw (Error "Model did not return a structured object. Ensure the model supports tool calling.")
      end
  end.

End Direct.

End FastaiDirect.

(** * Properties *)

(** ** Vocabulary *)

(** The requests recorded in a trace, oldest first. *)
Definition fetches (t : list event) : list Request :=
  omap (fun e => match e with EvFetch r => Some r | _ => None end) t.

(** The observer notifications recorded in a trace. *)
Definition observed (t : list event) : list (callback * string) :=
  omap (fun e => match e with EvObserve cb n => Some (cb, n) | _ => None end) t.

(** The stream callbacks recorded in a trace. *)
Definition delivered (t : list event) : list (callback * json * bool) :=
  omap (fun e => match e with EvOnMsg cb m s => Some (cb, m, s) | _ => None end) t.

(** Events that the loop over the tool calls of one response can emit. *)
Definition of_tool_loop (e : event) : bool :=
  match e with
  | EvLookup _ | EvExecute _ _ => true
  | _ => false
  end.

(** The world after some more events and with a new heap. *)
Definition evolve (w : world) (h : gmap loc (list ChatMessage)) (evs : list event)
  (sent : nat) : world :=
  {| heap := h; trace := trace w ++ evs; requests := requests w + sent |}.

(** The spec's error for a tool that is not registered. *)
Definition ToolNotFoundError (toolName : string) : exn :=
  Error ("Tool " +:+ toolName +:+ " not found").

(** The spec's error for a missing key. *)
Definition ConfigError : exn := Error "apiKey is required".

(** The content of a reply as [chat] returns it. *)
Definition text_of (reply : ChatMessage) : string :=
  match content reply with
  | Some s => s
  | None => ""
  end.

(** A reply that asks for no tool. *)
Definition tool_free (reply : ChatMessage) : Prop :=
  tool_calls reply = None \/ tool_calls reply = Some [].

(** The client [Fastai.generateText] runs [chat] on. *)
Definition conversation (env : Fastai.ProcessEnv) (options : Fastai.GenerateTextOptions)
  : Fastai.OpenAI :=
  Fastai.assign (Fastai.client_or_default env (Fastai.gt_openai options))
                (Fastai.gt_messages options)
                (match Fastai.gt_tools options with Some ts => ts | None => [] end).

(** What one call comes to when its tool is registered, its arguments
    parse and validate, and its [execute] resolves: the tool, the validated
    arguments and the result. *)
Definition answer (JSON_parse : string -> option json) (lookup : string -> option Tool)
  (call : ToolCall) : option (Tool * json * string) :=
  match lookup (fn_name call) with
  | None => None
  | Some t =>
      match JSON_parse (fn_arguments call) with
      | None => None
      | Some raw =>
          match parse (parameters t) raw with
          | None => None
          | Some args =>
              match execute t args with
              | Resolved result => Some (t, args, result)
              | Rejected _ => None
              end
          end
      end
  end.

(** The tool-role messages for a batch of calls that are all answered. *)
Fixpoint tool_messages (JSON_parse : string -> option json) (lookup : string -> option Tool)
  (calls : list ToolCall) : list ChatMessage :=
  match calls with
  | [] => []
  | call :: rest =>
      match answer JSON_parse lookup call with
      | Some (_, _, result) => tool_message result call :: tool_messages JSON_parse lookup rest
      | None => []
      end
  end.

(** The events of the loop over a batch of calls that are all answered. *)
Fixpoint tool_events (JSON_parse : string -> option json) (lookup : string -> option Tool)
  (calls : list ToolCall) : list event :=
  match calls with
  | [] => []
  | call :: rest =>
      match answer JSON_parse lookup call with
      | Some (t, args, _) =>
          EvLookup (fn_name call) :: EvExecute (name t) args
            :: tool_events JSON_parse lookup rest
      | None => []
      end
  end.

(** The error one call ends with when it is not answered: the
    tool-not-found error for a tool that is not registered, the parser's
    error for arguments that are no JSON, the schema's error for arguments
    it rejects, the rejection of [execute]. *)
Definition call_error (JSON_parse : string -> option json) (lookup : string -> option Tool)
  (call : ToolCall) : option exn :=
  match lookup (fn_name call) with
  | None => Some (ToolNotFoundError (fn_name call))
  | Some t =>
      match JSON_parse (fn_arguments call) with
      | None => Some SyntaxError
      | Some raw =>
          match parse (parameters t) raw with
          | None => Some ZodError
          | Some args =>
              match execute t args with
              | Resolved _ => None
              | Rejected e => Some e
              end
          end
      end
  end.

(** The error of the first call of a batch that is not answered. *)
Fixpoint first_error (JSON_parse : string -> option json) (lookup : string -> option Tool)
  (calls : list ToolCall) : option exn :=
  match calls with
  | [] => None
  | call :: rest =>
      match call_error JSON_parse lookup call with
      | Some e => Some e
      | None => first_error JSON_parse lookup rest
      end
  end.

(** The world after [k] turns of the loop of [chat] that each ran the
    tools of a response to the end, so that the loop goes on; [None] when
    one of these turns returns or throws. *)
Fixpoint after_turns (JSON_parse : string -> option json) (fetch : transport)
  (o : Fastai.OpenAI) (k : nat) (w : world) : option world :=
  match k with
  | 0 => Some w
  | S k' =>
      match Fastai.round JSON_parse fetch o false w with
      | (Returned None, w1) => after_turns JSON_parse fetch o k' w1
      | _ => None
      end
  end.

(** ** The effect monad *)

Lemma read_ok (l : loc) (w : world) (h : list ChatMessage) :
  heap w !! l = Some h -> read l w = (Returned h, w).
Proof. intros H. unfold read. now rewrite H. Qed.

Lemma push_ok (l : loc) (m : ChatMessage) (w : world) (h : list ChatMessage) :
  heap w !! l = Some h ->
  push l m w = (Returned tt, evolve w (<[l := h ++ [m]]> (heap w)) [] 0).
Proof.
  intros H. unfold push, evolve. rewrite H.
  now rewrite app_nil_r, Nat.add_0_r.
Qed.

Lemma post_ok (fetch : transport) (r : Request) (w : world) (res : ChatRespose) :
  fetch (requests w) r = Resolved res ->
  post fetch r w = (Returned res, evolve w (heap w) [EvFetch r] 1).
Proof.
  intros H. unfold post, evolve. rewrite H. simpl.
  now rewrite Nat.add_1_r.
Qed.

Lemma emit_ok (e : event) (w : world) :
  emit e w = (Returned tt, evolve w (heap w) [e] 0).
Proof. unfold emit, evolve. now rewrite Nat.add_0_r. Qed.

Lemma evolve_evolve (w : world) h1 h2 (e1 e2 : list event) (n1 n2 : nat) :
  evolve (evolve w h1 e1 n1) h2 e2 n2 = evolve w h2 (e1 ++ e2) (n1 + n2).
Proof. unfold evolve; simpl. now rewrite app_assoc, Nat.add_assoc. Qed.

Lemma evolve_id (w : world) : evolve w (heap w) [] 0 = w.
Proof. destruct w; unfold evolve; simpl. now rewrite app_nil_r, Nat.add_0_r. Qed.

Lemma notify_ok (cb : callback) (names : list string) (w : world) :
  notify cb names w = (Returned tt, evolve w (heap w) (map (EvObserve cb) names) 0).
Proof.
  revert w. induction names as [|n names IH]; intros w; simpl.
  - unfold ret. now rewrite evolve_id.
  - unfold bind. rewrite emit_ok, IH, evolve_evolve. reflexivity.
Qed.

Lemma or_else_empty (c : option string) :
  Js.or_else c "" = match c with Some s => s | None => "" end.
Proof.
  destruct c as [s|]; simpl; [|reflexivity].
  destruct (String.eqb_spec s ""); congruence.
Qed.

(** ** The loop of [src/fastai.ts] *)

Section FastaiLoop.

Variable JSON_parse : string -> option json.
Variable fetch : transport.

(** A batch whose calls are all answered runs to its end: one tool-role
    message per call, in the order of the calls. *)
Lemma Fastai_for_calls_answered (o : Fastai.OpenAI) (l : loc) (calls : list ToolCall) :
  Fastai.messages o = Some l ->
  Forall (fun c => is_Some (answer JSON_parse (Fastai.find_tool o) c)) calls ->
  forall (w : world) (h : list ChatMessage),
    heap w !! l = Some h ->
    Fastai.for_calls JSON_parse o false calls w =
      (Returned None,
       evolve w (<[l := h ++ tool_messages JSON_parse (Fastai.find_tool o) calls]> (heap w))
              (tool_events JSON_parse (Fastai.find_tool o) calls) 0).
Proof.
  intros Hl Hall. induction Hall as [|call rest Hcall _ IH]; intros w h Hh.
  - simpl. unfold ret. rewrite app_nil_r, insert_id by exact Hh.
    now rewrite evolve_id.
  - destruct Hcall as [[[t args] result] Hans].
    simpl. rewrite Hans. unfold answer in Hans.
    unfold bind at 1. rewrite emit_ok.
    destruct (Fastai.find_tool o (fn_name call)) as [t'|]; [|discriminate].
    destruct (JSON_parse (fn_arguments call)) as [raw|]; [|discriminate].
    destruct (parse (parameters t') raw) as [args'|]; [|discriminate].
    destruct (execute t' args') as [result'|] eqn:Hex; [|discriminate].
    injection Hans as -> -> ->.
    unfold bind. rewrite emit_ok. simpl.
    unfold Fastai.push_message. rewrite Hl.
    erewrite push_ok by (simpl; exact Hh).
    erewrite IH by (simpl; apply lookup_insert_eq).
    rewrite !evolve_evolve. simpl.
    rewrite insert_insert_eq, <- app_assoc. reflexivity.
Qed.

(** Whatever the batch, the loop over its calls only looks tools up and
    executes them: it notifies no observer and sends no request. *)
Lemma Fastai_for_calls_events (o : Fastai.OpenAI) (g : bool) (calls : list ToolCall)
  (w : world) :
  exists h evs,
    snd (Fastai.for_calls JSON_parse o g calls w) = evolve w h evs 0 /\
    forallb of_tool_loop evs = true.
Proof.
  revert w. induction calls as [|call rest IH]; intros w.
  - exists (heap w), []. simpl. now rewrite evolve_id.
  - simpl. unfold bind at 1. rewrite emit_ok.
    destruct (Fastai.find_tool o (fn_name call)) as [t|];
      [|now exists (heap w), [EvLookup (fn_name call)]].
    destruct g; [now exists (heap w), [EvLookup (fn_name call)]|].
    destruct (JSON_parse (fn_arguments call)) as [raw|];
      [|now exists (heap w), [EvLookup (fn_name call)]].
    destruct (parse (parameters t) raw) as [args|];
      [|now exists (heap w), [EvLookup (fn_name call)]].
    unfold bind at 1. rewrite emit_ok, evolve_evolve.
    unfold bind at 1.
    destruct (execute t args) as [result|e]; simpl;
      [|now exists (heap w), [EvLookup (fn_name call); EvExecute (name t) args]].
    unfold bind at 1.
    unfold Fastai.push_message.
    destruct (Fastai.messages o) as [l|]; simpl;
      [|now exists (heap w), [EvLookup (fn_name call); EvExecute (name t) args]].
    unfold push at 1. simpl.
    destruct (heap w !! l) as [h|]; simpl;
      [|now exists (heap w), [EvLookup (fn_name call); EvExecute (name t) args]].
    match goal with |- context [Fastai.for_calls _ _ _ rest ?w'] =>
      destruct (IH w') as (h' & evs & Hsnd & Hevs); rewrite Hsnd end.
    exists h', ([EvLookup (fn_name call); EvExecute (name t) args] ++ evs).
    split; [|simpl; exact Hevs].
    unfold evolve; simpl. f_equal; [now rewrite <- app_assoc | lia].
Qed.

(** A batch with a call to an unregistered tool never runs to its end. *)
Lemma Fastai_for_calls_unknown (o : Fastai.OpenAI) (calls : list ToolCall)
  (call : ToolCall) :
  In call calls ->
  Fastai.find_tool o (fn_name call) = None ->
  forall w, exists e, fst (Fastai.for_calls JSON_parse o false calls w) = Threw e.
Proof.
  intros Hin Hnone. induction calls as [|c rest IH]; [destruct Hin|]. intros w.
  simpl. unfold bind at 1. rewrite emit_ok.
  destruct (Fastai.find_tool o (fn_name c)) as [t|] eqn:Hfind; [|eauto].
  destruct Hin as [->|Hin]; [congruence|].
  destruct (JSON_parse (fn_arguments c)) as [raw|]; [|eauto].
  destruct (parse (parameters t) raw) as [args|]; [|eauto].
  unfold bind at 1. rewrite emit_ok. unfold bind at 1.
  destruct (execute t args) as [result|e]; simpl; [|eauto].
  unfold bind at 1.
  destruct (Fastai.push_message o (tool_message result c) _) as [[[]|e|] w'] eqn:Hpush;
    simpl; eauto.
  (* the push cannot leave the call pending *)
  exfalso. unfold Fastai.push_message in Hpush.
  destruct (Fastai.messages o); [|discriminate].
  unfold push in Hpush. simpl in Hpush.
  destruct (heap w !! l); discriminate.
Qed.

(** The first unregistered tool of a batch, when every call before it is
    answered, is the one the error names. *)
Lemma Fastai_for_calls_first_unknown (o : Fastai.OpenAI) (l : loc)
  (before after : list ToolCall) (call : ToolCall) :
  Fastai.messages o = Some l ->
  Forall (fun c => is_Some (answer JSON_parse (Fastai.find_tool o) c)) before ->
  Fastai.find_tool o (fn_name call) = None ->
  forall (w : world) (h : list ChatMessage),
    heap w !! l = Some h ->
    Fastai.for_calls JSON_parse o false (before ++ call :: after) w =
      (Threw (ToolNotFoundError (fn_name call)),
       evolve w (<[l := h ++ tool_messages JSON_parse (Fastai.find_tool o) before]> (heap w))
              (tool_events JSON_parse (Fastai.find_tool o) before ++ [EvLookup (fn_name call)])
              0).
Proof.
  intros Hl Hall Hnone. induction Hall as [|c rest Hc _ IH]; intros w h Hh.
  - simpl. unfold bind at 1. rewrite emit_ok, Hnone.
    unfold throw. rewrite app_nil_r, insert_id by exact Hh. reflexivity.
  - destruct Hc as [[[t args] result] Hans].
    simpl. rewrite Hans. unfold answer in Hans.
    unfold bind at 1. rewrite emit_ok.
    destruct (Fastai.find_tool o (fn_name c)) as [t'|]; [|discriminate].
    destruct (JSON_parse (fn_arguments c)) as [raw|]; [|discriminate].
    destruct (parse (parameters t') raw) as [args'|]; [|discriminate].
    destruct (execute t' args') as [result'|] eqn:Hex; [|discriminate].
    injection Hans as -> -> ->.
    unfold bind. rewrite emit_ok. simpl.
    unfold Fastai.push_message. rewrite Hl.
    erewrite push_ok by (simpl; exact Hh).
    erewrite IH by (simpl; apply lookup_insert_eq).
    rewrite !evolve_evolve. simpl.
    rewrite insert_insert_eq, <- app_assoc. reflexivity.
Qed.

(** A call is answered exactly when it ends with no error. *)
Lemma call_error_answered (lookup : string -> option Tool) (call : ToolCall) :
  is_Some (answer JSON_parse lookup call) -> call_error JSON_parse lookup call = None.
Proof.
  unfold answer, call_error. intros [x Hx].
  destruct (lookup (fn_name call)) as [t|]; [|discriminate].
  destruct (JSON_parse (fn_arguments call)) as [raw|]; [|discriminate].
  destruct (parse (parameters t) raw) as [args|]; [|discriminate].
  now destruct (execute t args).
Qed.

Lemma first_error_answered (lookup : string -> option Tool) (calls : list ToolCall) :
  Forall (fun c => is_Some (answer JSON_parse lookup c)) calls ->
  first_error JSON_parse lookup calls = None.
Proof.
  intros Hall. induction Hall as [|c rest Hc _ IH]; [reflexivity|].
  simpl. now rewrite (call_error_answered _ _ Hc).
Qed.

(** A batch with a call to an unregistered tool ends with the error of
    its first call that is not answered: the calls are taken one after
    the other, and nothing is skipped. *)
Lemma Fastai_for_calls_first_error (o : Fastai.OpenAI) (l : loc)
  (before after : list ToolCall) (call : ToolCall) :
  Fastai.messages o = Some l ->
  Fastai.find_tool o (fn_name call) = None ->
  forall (w : world) (h : list ChatMessage),
    heap w !! l = Some h ->
    fst (Fastai.for_calls JSON_parse o false (before ++ call :: after) w) =
      Threw match first_error JSON_parse (Fastai.find_tool o) before with
            | Some e => e
            | None => ToolNotFoundError (fn_name call)
            end.
Proof.
  intros Hl Hnone. induction before as [|c before IH]; intros w h Hh.
  - simpl. unfold bind at 1. rewrite emit_ok, Hnone. reflexivity.
  - simpl. unfold call_error. unfold bind at 1. rewrite emit_ok.
    destruct (Fastai.find_tool o (fn_name c)) as [t|]; [|reflexivity].
    destruct (JSON_parse (fn_arguments c)) as [raw|]; [|reflexivity].
    destruct (parse (parameters t) raw) as [args|]; [|reflexivity].
    unfold bind at 1. rewrite emit_ok. unfold bind at 1.
    destruct (execute t args) as [result|e]; [|reflexivity].
    simpl await. unfold ret at 1. unfold bind at 1.
    unfold Fastai.push_message. rewrite Hl.
    erewrite push_ok by (simpl; exact Hh).
    eapply IH. simpl. apply lookup_insert_eq.
Qed.

End FastaiLoop.

Lemma tool_loop_silent (evs : list event) :
  forallb of_tool_loop evs = true -> fetches evs = [] /\ observed evs = [].
Proof.
  induction evs as [|e evs IH]; [now split|].
  simpl. intros H. apply andb_prop in H as [He Hevs].
  destruct (IH Hevs) as [Hf Ho]. unfold fetches, observed in *. simpl.
  destruct e; try discriminate; simpl; now rewrite ?Hf, ?Ho.
Qed.

Lemma fetches_app (t1 t2 : list event) : fetches (t1 ++ t2) = fetches t1 ++ fetches t2.
Proof. unfold fetches. apply omap_app. Qed.

Lemma observed_app (t1 t2 : list event) : observed (t1 ++ t2) = observed t1 ++ observed t2.
Proof. unfold observed. apply omap_app. Qed.

Lemma fetches_observe (cb : callback) (names : list string) :
  fetches (map (EvObserve cb) names) = [].
Proof. induction names; [reflexivity|]. exact IHnames. Qed.

Lemma observed_observe (cb : callback) (names : list string) :
  observed (map (EvObserve cb) names) = map (pair cb) names.
Proof.
  induction names as [|n names IH]; [reflexivity|].
  unfold observed in *. simpl. f_equal. exact IH.
Qed.

(** The notifications of one response. *)
Definition notifications (observer : option callback) (calls : list ToolCall) : list event :=
  match observer with
  | Some cb => map (EvObserve cb) (map fn_name calls)
  | None => []
  end.

Section FastaiRound.

Variable JSON_parse : string -> option json.
Variable fetch : transport.

(** A turn whose response has tool calls: the request, the reply pushed,
    every notification, and only then the loop over the calls. *)
Lemma Fastai_round_calls (o : Fastai.OpenAI) (g : bool) (l : loc) (w : world)
  (h : list ChatMessage) (res : ChatRespose) (reply : ChatMessage)
  (calls : list ToolCall) :
  Fastai.messages o = Some l ->
  heap w !! l = Some h ->
  fetch (requests w) (Fastai.chat_request o (Some h)) = Resolved res ->
  first_message res = Some reply ->
  tool_calls reply = Some calls ->
  calls <> [] ->
  Fastai.round JSON_parse fetch o g w =
    Fastai.for_calls JSON_parse o g calls
      (evolve w (<[l := h ++ [reply]]> (heap w))
              (EvFetch (Fastai.chat_request o (Some h))
                 :: notifications (Fastai.onToolCall o) calls) 1).
Proof.
  intros Hl Hh Hfetch Hfirst Hcalls Hne.
  unfold Fastai.round, Fastai.history_of. rewrite Hl.
  unfold bind. rewrite (read_ok _ _ _ Hh). simpl.
  rewrite (post_ok _ _ _ _ Hfetch), Hfirst.
  unfold Fastai.push_message. rewrite Hl.
  erewrite push_ok by (simpl; exact Hh).
  rewrite Hcalls. destruct calls as [|c calls]; [congruence|].
  rewrite evolve_evolve. simpl heap.
  unfold notifications.
  destruct (Fastai.onToolCall o) as [cb|].
  - rewrite notify_ok, evolve_evolve. reflexivity.
  - unfold ret. reflexivity.
Qed.

(** A turn whose response has no tool call. *)
Lemma Fastai_round_tool_free (o : Fastai.OpenAI) (g : bool) (l : loc) (w : world)
  (h : list ChatMessage) (res : ChatRespose) (reply : ChatMessage) :
  Fastai.messages o = Some l ->
  heap w !! l = Some h ->
  fetch (requests w) (Fastai.chat_request o (Some h)) = Resolved res ->
  first_message res = Some reply ->
  tool_free reply ->
  Fastai.round JSON_parse fetch o g w =
    (Returned (Some (text_of reply)),
     evolve w (<[l := h ++ [reply]]> (heap w))
            [EvFetch (Fastai.chat_request o (Some h))] 1).
Proof.
  intros Hl Hh Hfetch Hfirst Hfree.
  unfold Fastai.round, Fastai.history_of. rewrite Hl.
  unfold bind. rewrite (read_ok _ _ _ Hh). simpl.
  rewrite (post_ok _ _ _ _ Hfetch), Hfirst.
  unfold Fastai.push_message. rewrite Hl.
  erewrite push_ok by (simpl; exact Hh).
  rewrite evolve_evolve. simpl.
  unfold text_of. rewrite <- or_else_empty.
  destruct Hfree as [-> | ->]; reflexivity.
Qed.

Lemma Fastai_generateText_unfold (env : Fastai.ProcessEnv) (n : nat)
  (options : Fastai.GenerateTextOptions) (w : world) :
  Fastai.generateText JSON_parse fetch env n options w =
    Fastai.loop JSON_parse fetch n (conversation env options) false w.
Proof. reflexivity. Qed.

Lemma conversation_messages (env : Fastai.ProcessEnv) (options : Fastai.GenerateTextOptions) :
  Fastai.messages (conversation env options) = Some (Fastai.gt_messages options).
Proof. reflexivity. Qed.

(** C2.  When the first response of the transport carries an assistant
    message without tool calls (none, or an empty list), [generateText]
    issues exactly one request and returns the content of that message as
    it is; the result is a string, the empty one when the content is
    [null]. *)
Theorem generateText_tool_free (env : Fastai.ProcessEnv) (n : nat)
  (options : Fastai.GenerateTextOptions) (w : world)
  (h : list ChatMessage) (res : ChatRespose) (reply : ChatMessage) :
  heap w !! Fastai.gt_messages options = Some h ->
  fetch (requests w) (Fastai.chat_request (conversation env options) (Some h))
    = Resolved res ->
  first_message res = Some reply ->
  tool_free reply ->
  let r := Fastai.generateText JSON_parse fetch env (S n) options w in
  fst r = Returned (text_of reply) /\
  (forall s, content reply = Some s -> fst r = Returned s) /\
  fetches (trace (snd r)) =
    fetches (trace w) ++ [Fastai.chat_request (conversation env options) (Some h)] /\
  requests (snd r) = S (requests w).
Proof.
  intros Hh Hfetch Hfirst Hfree r. subst r.
  rewrite Fastai_generateText_unfold. simpl Fastai.loop. unfold bind.
  erewrite Fastai_round_tool_free by eauto using conversation_messages.
  unfold ret. simpl. repeat split.
  - intros s Hs. unfold text_of. now rewrite Hs.
  - now rewrite fetches_app.
  - lia.
Qed.

(** Turns that ran to their end only put the loop further on. *)
Lemma Fastai_loop_after_turns (o : Fastai.OpenAI) (k m : nat) (w0 w : world) :
  after_turns JSON_parse fetch o k w0 = Some w ->
  Fastai.loop JSON_parse fetch (k + m) o false w0 = Fastai.loop JSON_parse fetch m o false w.
Proof.
  revert w0. induction k as [|k IH]; intros w0 Hk.
  - simpl in Hk. now injection Hk as ->.
  - simpl in Hk |- *. unfold bind.
    destruct (Fastai.round JSON_parse fetch o false w0) as [[[text|]|e|] w1];
      try discriminate.
    now apply IH.
Qed.

(** C3, as amended.  In any turn of [generateText] (the [k] turns
    before it ran the tools of their responses to the end), when a call of
    the response names a tool that is not registered, [generateText] fails
    in that turn and issues no further request.  The error is the one of
    the first call of the batch that is not answered: the tool-not-found
    error naming that tool when every call before it is answered
    (registered tool, arguments that parse and validate, [execute]
    resolving), otherwise the error of the earlier call that failed. *)
Theorem unknown_tool_aborts (env : Fastai.ProcessEnv) (k n : nat)
  (options : Fastai.GenerateTextOptions) (w0 w : world)
  (h : list ChatMessage) (res : ChatRespose) (reply : ChatMessage)
  (before after : list ToolCall) (call : ToolCall) :
  after_turns JSON_parse fetch (conversation env options) k w0 = Some w ->
  heap w !! Fastai.gt_messages options = Some h ->
  fetch (requests w) (Fastai.chat_request (conversation env options) (Some h))
    = Resolved res ->
  first_message res = Some reply ->
  tool_calls reply = Some (before ++ call :: after) ->
  Fastai.find_tool (conversation env options) (fn_name call) = None ->
  let r := Fastai.generateText JSON_parse fetch env (k + S n) options w0 in
  fst r = Threw match first_error JSON_parse
                        (Fastai.find_tool (conversation env options)) before with
                | Some e => e
                | None => ToolNotFoundError (fn_name call)
                end /\
  fetches (trace (snd r)) =
    fetches (trace w) ++ [Fastai.chat_request (conversation env options) (Some h)] /\
  requests (snd r) = S (requests w) /\
  (Forall (fun c => is_Some (answer JSON_parse
                               (Fastai.find_tool (conversation env options)) c)) before ->
   fst r = Threw (ToolNotFoundError (fn_name call))).
Proof.
  intros Hk Hh Hfetch Hfirst Hcalls Hnone r. subst r.
  rewrite Fastai_generateText_unfold, (Fastai_loop_after_turns _ k (S n) w0 w Hk).
  simpl Fastai.loop. unfold bind.
  erewrite Fastai_round_calls;
    [|apply conversation_messages|exact Hh|exact Hfetch|exact Hfirst|exact Hcalls
     |now destruct before].
  match goal with |- context [Fastai.for_calls _ _ _ _ ?w1] => set (w' := w1) end.
  pose proof (Fastai_for_calls_first_error JSON_parse (conversation env options)
                (Fastai.gt_messages options) before after call
                (conversation_messages env options) Hnone w' (h ++ [reply])) as He.
  destruct (Fastai_for_calls_events JSON_parse (conversation env options) false
              (before ++ call :: after) w') as (h' & evs & Hsnd & Hevs).
  destruct (Fastai.for_calls JSON_parse (conversation env options) false
              (before ++ call :: after) w') as [out w''] eqn:Hrun.
  simpl in He, Hsnd. subst w''.
  rewrite He by (subst w'; simpl; apply lookup_insert_eq).
  apply tool_loop_silent in Hevs as [Hf _].
  simpl. split; [reflexivity|]. split; [|split].
  - subst w'. rewrite !fetches_app, Hf. simpl fetches at 2.
    unfold notifications. destruct (Fastai.onToolCall _).
    + unfold fetches at 2. simpl. fold (fetches (map (EvObserve c) (map fn_name (before ++ call :: after)))).
      now rewrite fetches_observe, app_nil_r.
    + now rewrite app_nil_r.
  - subst w'. simpl. lia.
  - intros Hall. now rewrite (first_error_answered JSON_parse _ _ Hall).
Qed.

End FastaiRound.

Section FastaiObserver.

Variable JSON_parse : string -> option json.
Variable fetch : transport.

(** A turn whose calls are all answered: the request, then one
    notification per call, then the tools looked up and executed, with one
    tool-role message per call pushed after the reply, all in the order of
    the calls. *)
Lemma Fastai_round_answered (o : Fastai.OpenAI) (l : loc) (w : world)
  (h : list ChatMessage) (res : ChatRespose) (reply : ChatMessage)
  (calls : list ToolCall) :
  Fastai.messages o = Some l ->
  heap w !! l = Some h ->
  fetch (requests w) (Fastai.chat_request o (Some h)) = Resolved res ->
  first_message res = Some reply ->
  tool_calls reply = Some calls ->
  calls <> [] ->
  Forall (fun c => is_Some (answer JSON_parse (Fastai.find_tool o) c)) calls ->
  Fastai.round JSON_parse fetch o false w =
    (Returned None,
     evolve w
       (<[l := h ++ reply :: tool_messages JSON_parse (Fastai.find_tool o) calls]> (heap w))
       (EvFetch (Fastai.chat_request o (Some h))
          :: notifications (Fastai.onToolCall o) calls
          ++ tool_events JSON_parse (Fastai.find_tool o) calls) 1).
Proof.
  intros Hl Hh Hfetch Hfirst Hcalls Hne Hall.
  erewrite Fastai_round_calls by eassumption.
  erewrite Fastai_for_calls_answered;
    [|exact Hl|exact Hall|simpl; apply lookup_insert_eq].
  rewrite evolve_evolve. simpl heap.
  rewrite insert_insert_eq, <- app_assoc. reflexivity.
Qed.

(** C10.  In a turn of the loop that has an observer, the observer is
    notified of the name of every call of the response, in order, right
    after the request and before anything that the loop over the calls
    does: what follows the notifications in the trace is made of registry
    lookups and tool executions only.  In particular, when the batch has a
    call to an unregistered tool, every call before it being answered, the
    turn fails with the tool-not-found error for that tool, and the
    observer has been notified of that name first. *)
Theorem observer_before_lookup (o : Fastai.OpenAI) (g : bool) (cb : callback)
  (l : loc) (w : world) (h : list ChatMessage) (res : ChatRespose)
  (reply : ChatMessage) (calls : list ToolCall) :
  Fastai.messages o = Some l ->
  Fastai.onToolCall o = Some cb ->
  heap w !! l = Some h ->
  fetch (requests w) (Fastai.chat_request o (Some h)) = Resolved res ->
  first_message res = Some reply ->
  tool_calls reply = Some calls ->
  calls <> [] ->
  let r := Fastai.round JSON_parse fetch o g w in
  exists evs,
    trace (snd r) =
      trace w ++ EvFetch (Fastai.chat_request o (Some h))
        :: map (EvObserve cb) (map fn_name calls) ++ evs /\
    forallb of_tool_loop evs = true /\
    observed (trace (snd r)) = observed (trace w) ++ map (pair cb) (map fn_name calls) /\
    (forall before call after,
        g = false ->
        calls = before ++ call :: after ->
        Forall (fun c => is_Some (answer JSON_parse (Fastai.find_tool o) c)) before ->
        Fastai.find_tool o (fn_name call) = None ->
        fst r = Threw (ToolNotFoundError (fn_name call)) /\
        evs = tool_events JSON_parse (Fastai.find_tool o) before
                ++ [EvLookup (fn_name call)]).
Proof.
  intros Hl Hcb Hh Hfetch Hfirst Hcalls Hne r. subst r.
  erewrite Fastai_round_calls by eassumption.
  rewrite Hcb. unfold notifications.
  match goal with |- context [Fastai.for_calls _ _ _ _ ?w1] => set (w' := w1) end.
  destruct (Fastai_for_calls_events JSON_parse o g calls w') as (h' & evs & Hsnd & Hevs).
  exists evs. rewrite Hsnd. split; [|split; [exact Hevs|split]].
  - subst w'. simpl. now rewrite <- app_assoc.
  - subst w'. simpl. rewrite !observed_app.
    destruct (tool_loop_silent evs Hevs) as [_ ->].
    unfold observed at 2. simpl.
    fold (observed (map (EvObserve cb) (map fn_name calls))).
    now rewrite observed_observe, app_nil_r.
  - intros before call after -> -> Hall Hnone.
    erewrite Fastai_for_calls_first_unknown in Hsnd |- *;
      [|exact Hl|exact Hall|exact Hnone|subst w'; simpl; apply lookup_insert_eq
       |exact Hl|exact Hall|exact Hnone|subst w'; simpl; apply lookup_insert_eq].
    split; [reflexivity|].
    apply (f_equal trace) in Hsnd. simpl in Hsnd.
    now apply app_inv_head in Hsnd.
Qed.

End FastaiObserver.

(** ** Concrete runs of [src/fastai.ts] *)

(** No variable of the environment is set. *)
Definition env_empty : Fastai.ProcessEnv :=
  {| Fastai.OPENAI_BASE_URL := None; Fastai.OPENAI_MODEL := None;
     Fastai.OPENAI_API_KEY := None |}.

(** A [JSON.parse] that knows the text of the empty object only. *)
Definition parse_braces (s : string) : option json :=
  if String.eqb s "{}" then Some (JObj []) else None.

Definition any_schema : Schema :=
  {| parse := fun j => Some j; zodToJsonSchema := JObj [("type", JStr "object")] |}.

(** A schema that accepts nothing. *)
Definition no_schema : Schema :=
  {| parse := fun _ => None; zodToJsonSchema := JObj [("not", JObj [])] |}.

Definition echo : Tool :=
  {| name := "echo"; description := Some "Answers pong."; parameters := any_schema;
     execute := fun _ => Resolved "pong" |}.

Definition strict : Tool :=
  {| name := "strict"; description := None; parameters := no_schema;
     execute := fun _ => Resolved "never" |}.

Definition call_to (id toolName : string) : ToolCall :=
  {| tc_index := 0; tc_id := id; tc_type := "function"; fn_name := toolName;
     fn_arguments := "{}" |}.

Definition says (text : string) : ChatMessage :=
  {| role := assistant; content := Some text; tool_calls := None; tool_call_id := None |}.

Definition asks (calls : list ToolCall) : ChatMessage :=
  {| role := assistant; content := None; tool_calls := Some calls; tool_call_id := None |}.

Definition respond (m : ChatMessage) : promise ChatRespose :=
  Resolved {| choices := Some [Some m] |}.

(** A transport that answers the first request with [first] and every
    later one with [later]. *)
Definition scripted (first later : ChatMessage) : transport :=
  fun n _ => match n with 0 => respond first | _ => respond later end.

(** The caller's array holds one user message. *)
Definition world_hi : world :=
  {| heap := {[ 1%positive := [user_message "hi"] ]}; trace := []; requests := 0 |}.

Definition options_hi (ts : option (list Tool)) (observer : option callback)
  : Fastai.GenerateTextOptions :=
  {| Fastai.gt_openai := None; Fastai.gt_messages := 1%positive;
     Fastai.gt_tools := ts; Fastai.gt_onToolCall := observer |}.

(** [generateText] never reads [options.onToolCall]. *)
Lemma Fastai_generateText_observer_unused (JSON_parse : string -> option json)
  (fetch : transport) (env : Fastai.ProcessEnv) (n : nat)
  (given : option Fastai.OpenAI) (m : loc) (ts : option (list Tool))
  (cb1 cb2 : option callback) :
  Fastai.generateText JSON_parse fetch env n
    {| Fastai.gt_openai := given; Fastai.gt_messages := m; Fastai.gt_tools := ts;
       Fastai.gt_onToolCall := cb1 |} =
  Fastai.generateText JSON_parse fetch env n
    {| Fastai.gt_openai := given; Fastai.gt_messages := m; Fastai.gt_tools := ts;
       Fastai.gt_onToolCall := cb2 |}.
Proof. reflexivity. Qed.

(** C1, at the input where [src/fastai.ts] departs from it.  The response
    has one call, to a registered tool with valid arguments, and the caller
    passes an observer in the options of [generateText]: the tool is
    executed and its result is pushed before the second request, but the
    observer is never notified. *)
Theorem generateText_option_observer_not_notified :
  let r := Fastai.generateText parse_braces
             (scripted (asks [call_to "c1" "echo"]) (says "done"))
             env_empty 2 (options_hi (Some [echo]) (Some 7)) world_hi in
  fst r = Returned "done" /\
  observed (trace (snd r)) = [] /\
  map (fun e => match e with
                | EvFetch _ => "request"
                | EvExecute n _ => n
                | EvLookup n => "lookup"
                | _ => "other"
                end) (trace (snd r)) = ["request"; "lookup"; "echo"; "request"] /\
  heap (snd r) !! 1%positive =
    Some [user_message "hi"; asks [call_to "c1" "echo"];
          tool_message "pong" (call_to "c1" "echo"); says "done"].
Proof. vm_compute. repeat split. Qed.

Lemma generateText_tool_free_witness :
  let r := Fastai.generateText parse_braces (scripted (says "hello") (says "again"))
             env_empty 1 (options_hi None None) world_hi in
  fst r = Returned "hello" /\
  (forall s, content (says "hello") = Some s -> fst r = Returned s) /\
  fetches (trace (snd r)) =
    fetches (trace world_hi)
      ++ [Fastai.chat_request (conversation env_empty (options_hi None None))
            (Some [user_message "hi"])] /\
  requests (snd r) = S (requests world_hi).
Proof.
  apply (generateText_tool_free parse_braces (scripted (says "hello") (says "again"))
           env_empty 0 (options_hi None None) world_hi [user_message "hi"]
           {| choices := Some [Some (says "hello")] |} (says "hello")).
  - reflexivity.
  - reflexivity.
  - reflexivity.
  - left. reflexivity.
Defined.

(** C3 as stated fails: the second call names an unregistered tool, but
    the first call's arguments do not validate, and that is the error the
    caller gets. *)
Lemma unknown_tool_counterexample :
  let calls := [call_to "c1" "strict"; call_to "c2" "ghost"] in
  let options := options_hi (Some [strict]) None in
  let r := Fastai.generateText parse_braces (scripted (asks calls) (says "done"))
             env_empty 3 options world_hi in
  In (call_to "c2" "ghost") calls /\
  Fastai.find_tool (conversation env_empty options) "ghost" = None /\
  fst r = Threw ZodError /\
  fst r <> Threw (ToolNotFoundError "ghost").
Proof.
  vm_compute. repeat split; [right; left; reflexivity | discriminate].
Qed.

Lemma unknown_tool_aborts_witness :
  let first := asks [call_to "c1" "echo"] in
  let second := asks [call_to "c2" "strict"; call_to "c3" "ghost"] in
  let options := options_hi (Some [echo; strict]) None in
  let o := conversation env_empty options in
  let w := snd (Fastai.round parse_braces (scripted first second) o false world_hi) in
  let h := [user_message "hi"; first; tool_message "pong" (call_to "c1" "echo")] in
  let r := Fastai.generateText parse_braces (scripted first second)
             env_empty (1 + 2) options world_hi in
  fst r = Threw ZodError /\
  fetches (trace (snd r)) = fetches (trace w) ++ [Fastai.chat_request o (Some h)] /\
  requests (snd r) = S (requests w) /\
  (Forall (fun c => is_Some (answer parse_braces (Fastai.find_tool o) c))
          [call_to "c2" "strict"] ->
   fst r = Threw (ToolNotFoundError (fn_name (call_to "c3" "ghost")))).
Proof.
  apply (unknown_tool_aborts parse_braces
           (scripted (asks [call_to "c1" "echo"])
                     (asks [call_to "c2" "strict"; call_to "c3" "ghost"]))
           env_empty 1 1 (options_hi (Some [echo; strict]) None) world_hi
           (snd (Fastai.round parse_braces
                   (scripted (asks [call_to "c1" "echo"])
                             (asks [call_to "c2" "strict"; call_to "c3" "ghost"]))
                   (conversation env_empty (options_hi (Some [echo; strict]) None))
                   false world_hi))
           [user_message "hi"; asks [call_to "c1" "echo"];
            tool_message "pong" (call_to "c1" "echo")]
           {| choices := Some [Some (asks [call_to "c2" "strict"; call_to "c3" "ghost"])] |}
           (asks [call_to "c2" "strict"; call_to "c3" "ghost"])
           [call_to "c2" "strict"] [] (call_to "c3" "ghost")).
  - reflexivity.
  - reflexivity.
  - reflexivity.
  - reflexivity.
  - reflexivity.
  - reflexivity.
Defined.

(** The client of the three runs above, with an observer installed. *)
Definition observing (ts : list Tool) (cb : callback) : Fastai.OpenAI :=
  {| Fastai._baseURL := "https://api.openai.com/v1"; Fastai.apiKey := "key";
     Fastai.endpoint := "https://api.openai.com/v1/chat/completions";
     Fastai.model := "m"; Fastai.messages := Some 1%positive;
     Fastai.tools := Some ts; Fastai.onToolCall := Some cb |}.

Lemma observer_before_lookup_witness :
  let calls := [call_to "c1" "echo"; call_to "c2" "ghost"] in
  let o := observing [echo] 7 in
  let r := Fastai.round parse_braces (scripted (asks calls) (says "done")) o false
             world_hi in
  exists evs,
    trace (snd r) =
      trace world_hi ++ EvFetch (Fastai.chat_request o (Some [user_message "hi"]))
        :: map (EvObserve 7) (map fn_name calls) ++ evs /\
    forallb of_tool_loop evs = true /\
    observed (trace (snd r)) = observed (trace world_hi) ++ map (pair 7) (map fn_name calls) /\
    (forall before call after,
        false = false ->
        calls = before ++ call :: after ->
        Forall (fun c => is_Some (answer parse_braces (Fastai.find_tool o) c)) before ->
        Fastai.find_tool o (fn_name call) = None ->
        fst r = Threw (ToolNotFoundError (fn_name call)) /\
        evs = tool_events parse_braces (Fastai.find_tool o) before
                ++ [EvLookup (fn_name call)]).
Proof.
  apply (observer_before_lookup parse_braces
           (scripted (asks [call_to "c1" "echo"; call_to "c2" "ghost"]) (says "done"))
           (observing [echo] 7) false 7 1%positive world_hi [user_message "hi"]
           {| choices := Some [Some (asks [call_to "c1" "echo"; call_to "c2" "ghost"])] |}
           (asks [call_to "c1" "echo"; call_to "c2" "ghost"])
           [call_to "c1" "echo"; call_to "c2" "ghost"]).
  - reflexivity.
  - reflexivity.
  - reflexivity.
  - reflexivity.
  - reflexivity.
  - reflexivity.
  - discriminate.
Defined.

(** C5, at the input where [src/fastai.ts] departs from it.  The loop's
    history is the caller's array itself: after a call with one tool-free
    response the caller's array, which held one message, holds two. *)
Theorem generateText_extends_caller_array :
  let r := Fastai.generateText parse_braces (scripted (says "hello") (says "again"))
             env_empty 1 (options_hi None None) world_hi in
  Fastai.messages (conversation env_empty (options_hi None None))
    = Some (Fastai.gt_messages (options_hi None None)) /\
  heap world_hi !! 1%positive = Some [user_message "hi"] /\
  fst r = Returned "hello" /\
  heap (snd r) !! 1%positive = Some [user_message "hi"; says "hello"].
Proof. vm_compute. repeat split. Qed.

(** Whenever the first response is tool-free, the caller's array has grown
    by the reply when [generateText] returns. *)
Lemma Fastai_generateText_aliases (JSON_parse : string -> option json)
  (fetch : transport) (env : Fastai.ProcessEnv) (n : nat)
  (options : Fastai.GenerateTextOptions) (w : world)
  (h : list ChatMessage) (res : ChatRespose) (reply : ChatMessage) :
  heap w !! Fastai.gt_messages options = Some h ->
  fetch (requests w) (Fastai.chat_request (conversation env options) (Some h))
    = Resolved res ->
  first_message res = Some reply ->
  tool_free reply ->
  heap (snd (Fastai.generateText JSON_parse fetch env (S n) options w))
    !! Fastai.gt_messages options = Some (h ++ [reply]).
Proof.
  intros Hh Hfetch Hfirst Hfree.
  rewrite Fastai_generateText_unfold. simpl Fastai.loop. unfold bind.
  erewrite Fastai_round_tool_free by eauto using conversation_messages.
  simpl. apply lookup_insert_eq.
Qed.

(** The [tools] field of a request of [chat] is always there, and it is
    the empty list when the client has no tools. *)
Lemma Fastai_chat_body_tools (o : Fastai.OpenAI) (history : option (list ChatMessage)) :
  In "tools" (keys (Fastai.chat_body o history)) /\
  (Fastai.tools o = None \/ Fastai.tools o = Some [] ->
   exists fields, Fastai.chat_body o history = JObj fields /\
                  field "tools" fields = Some (JArr [])).
Proof.
  unfold Fastai.chat_body, JSON_stringify. split.
  - destruct history; simpl; auto.
  - intros [-> | ->]; destruct history; simpl; eexists; split; reflexivity.
Qed.

(** C6, at the input where [src/fastai.ts] departs from it.  With no
    tools supplied, the body of the request has a [tools] field, and its
    value is the empty list. *)
Theorem generateText_sends_empty_tools :
  let r := Fastai.generateText parse_braces (scripted (says "hello") (says "again"))
             env_empty 1 (options_hi None None) world_hi in
  map (fun q => keys (body q)) (fetches (trace (snd r))) = [["model"; "messages"; "tools"]] /\
  map (fun q => match body q with
                | JObj fields => field "tools" fields
                | _ => None
                end) (fetches (trace (snd r))) = [Some (JArr [])].
Proof. vm_compute. split; reflexivity. Qed.

(** C7, at the input where [src/fastai.ts] departs from it.  With no key
    in the options and none in the environment, [createOpenAI] returns a
    client, and its key is the empty string. *)
Theorem createOpenAI_without_key :
  Fastai.apiKey (Fastai.createOpenAI env_empty Fastai.no_options) = "" /\
  Fastai.endpoint (Fastai.createOpenAI env_empty Fastai.no_options)
    = "https://api.openai.com/v1/chat/completions".
Proof. vm_compute. split; reflexivity. Qed.

(** The key of the client is the option's, else the variable's, else
    empty: [createOpenAI] has no failing path. *)
Lemma Fastai_createOpenAI_key (env : Fastai.ProcessEnv) (options : Fastai.CreateOpenAIOptions) :
  Fastai.apiKey (Fastai.createOpenAI env options) =
    Js.or_else (Js.or_opt (Fastai.opt_apiKey options) (Fastai.OPENAI_API_KEY env)) "".
Proof.
  unfold Fastai.createOpenAI.
  destruct (Fastai.set_baseURL _) as [b e]. reflexivity.
Qed.

Definition options_object (schema : Schema) : Fastai.GenerateObjectOptions :=
  {| Fastai.go_openai := None; Fastai.go_messages := 1%positive;
     Fastai.go_schema := schema |}.

(** The messages of the body of a request, as the transport reads them. *)
Definition sent_messages (q : Request) : option json :=
  match body q with
  | JObj fields => field "messages" fields
  | _ => None
  end.

(** C4, at the input where [src/fastai.ts] departs from it.  The caller's
    messages are one user prompt and no system message: the history that
    is sent has the user prompt first and the preamble after it, and the
    preamble has been pushed onto the caller's array. *)
Theorem generateObject_appends_preamble :
  let r := Fastai.generateObject parse_braces
             (scripted (asks [call_to "c1" "submit_object"]) (says "unused"))
             env_empty 1 (options_object any_schema) world_hi in
  fst r = Returned (JObj []) /\
  map sent_messages (fetches (trace (snd r))) =
    [Some (JArr [ChatMessage_json (user_message "hi");
                 ChatMessage_json (system_message Fastai.system_preamble)])] /\
  heap (snd r) !! 1%positive =
    Some [user_message "hi"; system_message Fastai.system_preamble;
          asks [call_to "c1" "submit_object"]].
Proof. vm_compute. repeat split. Qed.

(** *** Computations only add to the trace *)

(** [m] keeps what the trace holds and adds to it. *)
Definition grows {A : Type} (m : M A) : Prop :=
  forall w, exists evs, trace (snd (m w)) = trace w ++ evs.

(** [m] keeps what the trace holds and adds [first], maybe followed by
    more. *)
Definition grows_from {A : Type} (first : event) (m : M A) (w : world) : Prop :=
  exists evs, trace (snd (m w)) = trace w ++ first :: evs.

Lemma grows_still {A : Type} (m : M A) :
  (forall w, trace (snd (m w)) = trace w) -> grows m.
Proof. intros H w. exists []. now rewrite app_nil_r. Qed.

Lemma grows_ret {A : Type} (a : A) : grows (ret a).
Proof. now apply grows_still. Qed.

Lemma grows_throw {A : Type} (e : exn) : grows (@throw A e).
Proof. now apply grows_still. Qed.

Lemma grows_pending {A : Type} : grows (@pending A).
Proof. now apply grows_still. Qed.

Lemma grows_await {A : Type} (p : promise A) : grows (await p).
Proof. destruct p; [apply grows_ret | apply grows_throw]. Qed.

Lemma grows_emit (e : event) : grows (emit e).
Proof. intros w. now exists [e]. Qed.

Lemma grows_read (l : loc) : grows (read l).
Proof. apply grows_still. intros w. unfold read. now destruct (heap w !! l). Qed.

Lemma grows_push (l : loc) (m : ChatMessage) : grows (push l m).
Proof. apply grows_still. intros w. unfold push. now destruct (heap w !! l). Qed.

Lemma grows_post (fetch : transport) (r : Request) : grows (post fetch r).
Proof.
  intros w. exists [EvFetch r]. unfold post.
  now destruct (fetch (requests w) r).
Qed.

Lemma grows_bind {A B : Type} (m : M A) (k : A -> M B) :
  grows m -> (forall a, grows (k a)) -> grows (bind m k).
Proof.
  intros Hm Hk w. unfold bind. destruct (Hm w) as [e1 H1].
  destruct (m w) as [[a|e|] w1]; simpl in H1.
  - destruct (Hk a w1) as [e2 H2]. exists (e1 ++ e2).
    now rewrite H2, H1, app_assoc.
  - now exists e1.
  - now exists e1.
Qed.

Lemma grows_notify (cb : callback) (names : list string) : grows (notify cb names).
Proof.
  induction names; simpl; [apply grows_ret|].
  apply grows_bind; [apply grows_emit | intros _; exact IHnames].
Qed.

Lemma grows_from_bind {A B : Type} (first : event) (m : M A) (k : A -> M B) (w : world) :
  grows_from first m w -> (forall a, grows (k a)) -> grows_from first (bind m k) w.
Proof.
  intros [e1 H1] Hk. unfold grows_from, bind.
  destruct (m w) as [[a|e|] w1]; simpl in H1.
  - destruct (Hk a w1) as [e2 H2]. exists (e1 ++ e2).
    now rewrite H2, H1, <- app_assoc.
  - now exists e1.
  - now exists e1.
Qed.

Lemma grows_push_message (o : Fastai.OpenAI) (m : ChatMessage) :
  grows (Fastai.push_message o m).
Proof.
  unfold Fastai.push_message.
  destruct (Fastai.messages o); [apply grows_push | apply grows_throw].
Qed.

Lemma grows_for_calls (JSON_parse : string -> option json) (o : Fastai.OpenAI)
  (g : bool) (calls : list ToolCall) :
  grows (Fastai.for_calls JSON_parse o g calls).
Proof.
  intros w.
  destruct (Fastai_for_calls_events JSON_parse o g calls w) as (h & evs & H & _).
  exists evs. now rewrite H.
Qed.

Lemma grows_round_rest (JSON_parse : string -> option json) (o : Fastai.OpenAI)
  (g : bool) (res : ChatRespose) :
  grows (match first_message res with
         | None => throw (Error "No assistant message returned")
         | Some reply =>
             Fastai.push_message o reply ;;
             match tool_calls reply with
             | None | Some [] => ret (Some (Js.or_else (content reply) ""))
             | Some calls =>
                 match Fastai.onToolCall o with
                 | Some cb => notify cb (map fn_name calls)
                 | None => ret tt
                 end ;;
                 Fastai.for_calls JSON_parse o g calls
             end
         end).
Proof.
  destruct (first_message res) as [reply|]; [|apply grows_throw].
  apply grows_bind; [apply grows_push_message|intros _].
  destruct (tool_calls reply) as [[|c calls]|]; try apply grows_ret.
  apply grows_bind; [|intros _; apply grows_for_calls].
  destruct (Fastai.onToolCall o); [apply grows_notify | apply grows_ret].
Qed.

Lemma grows_round (JSON_parse : string -> option json) (fetch : transport)
  (o : Fastai.OpenAI) (g : bool) :
  grows (Fastai.round JSON_parse fetch o g).
Proof.
  unfold Fastai.round. apply grows_bind.
  - unfold Fastai.history_of. destruct (Fastai.messages o); [|apply grows_ret].
    apply grows_bind; [apply grows_read | intros; apply grows_ret].
  - intros history. apply grows_bind; [apply grows_post|].
    intros res. apply grows_round_rest.
Qed.

Lemma grows_loop (JSON_parse : string -> option json) (fetch : transport)
  (n : nat) (o : Fastai.OpenAI) (g : bool) :
  grows (Fastai.loop JSON_parse fetch n o g).
Proof.
  induction n as [|n IH]; simpl; [apply grows_pending|].
  apply grows_bind; [apply grows_round|].
  intros [text|]; [apply grows_ret | exact IH].
Qed.

(** A turn starts with the request that carries the history as it is. *)
Lemma Fastai_round_first_request (JSON_parse : string -> option json)
  (fetch : transport) (o : Fastai.OpenAI) (g : bool) (l : loc) (w : world)
  (h : list ChatMessage) :
  Fastai.messages o = Some l ->
  heap w !! l = Some h ->
  grows_from (EvFetch (Fastai.chat_request o (Some h)))
             (Fastai.round JSON_parse fetch o g) w.
Proof.
  intros Hl Hh. unfold Fastai.round, Fastai.history_of. rewrite Hl.
  unfold grows_from. unfold bind at 1. unfold bind at 1. rewrite (read_ok _ _ _ Hh).
  unfold ret at 1.
  apply (grows_from_bind _ (post fetch _) _ w); [|intros res; apply grows_round_rest].
  exists []. unfold post. now destruct (fetch (requests w) _).
Qed.

Lemma Fastai_loop_first_request (JSON_parse : string -> option json)
  (fetch : transport) (n : nat) (o : Fastai.OpenAI) (g : bool) (l : loc) (w : world)
  (h : list ChatMessage) :
  Fastai.messages o = Some l ->
  heap w !! l = Some h ->
  grows_from (EvFetch (Fastai.chat_request o (Some h)))
             (Fastai.loop JSON_parse fetch (S n) o g) w.
Proof.
  intros Hl Hh. simpl. apply grows_from_bind.
  - now apply Fastai_round_first_request with (l := l).
  - intros [text|]; [apply grows_ret | apply grows_loop].
Qed.

(** Whatever the caller's messages, when none is a system message the
    preamble goes after them in the history that is sent. *)
Lemma Fastai_generateObject_history (JSON_parse : string -> option json)
  (fetch : transport) (env : Fastai.ProcessEnv) (n : nat)
  (options : Fastai.GenerateObjectOptions) (w : world) (h : list ChatMessage) :
  heap w !! Fastai.go_messages options = Some h ->
  find (fun m => Role_eqb (role m) system) h = None ->
  exists o,
    grows_from (EvFetch (Fastai.chat_request o
                           (Some (h ++ [system_message Fastai.system_preamble]))))
               (Fastai.generateObject JSON_parse fetch env (S n) options) w.
Proof.
  intros Hh Hnone.
  unfold Fastai.generateObject.
  set (o := Fastai.assign _ _ _). exists o.
  unfold grows_from. unfold bind at 1.
  rewrite (read_ok _ _ _ Hh), Hnone.
  unfold bind at 1. erewrite push_ok by exact Hh.
  match goal with |- context [bind ?m ?k (evolve w ?hp [] 0)] =>
    assert (Hgo : grows_from (EvFetch (Fastai.chat_request o
                     (Some (h ++ [system_message Fastai.system_preamble]))))
                    (bind m k) (evolve w hp [] 0))
  end.
  { apply grows_from_bind.
    - unfold Fastai.chat. unfold grows_from, bind at 1. unfold ret at 1.
      apply Fastai_loop_first_request with (l := Fastai.go_messages options);
        [reflexivity | simpl; apply lookup_insert_eq].
    - intros [|c res]; [apply grows_throw|].
      destruct (JSON_parse (String c res)) as [obj|].
      + destruct (parse _ obj); [apply grows_ret|].
        apply grows_bind; [apply grows_emit | intros; apply grows_throw].
      + apply grows_bind; [apply grows_emit | intros; apply grows_throw]. }
  destruct Hgo as [evs Hgo]. exists evs. rewrite Hgo. simpl.
  now rewrite app_nil_r.
Qed.

(** X11.  When every call of the first response is answered, the tool results
    are in the history that the second request carries, after the reply and
    in the order of the calls; the notifications and the executions all
    come between the two requests. *)
Lemma Fastai_results_before_next_request (JSON_parse : string -> option json)
  (fetch : transport) (n : nat) (o : Fastai.OpenAI) (l : loc) (w : world)
  (h : list ChatMessage) (res : ChatRespose) (reply : ChatMessage)
  (calls : list ToolCall) :
  Fastai.messages o = Some l ->
  heap w !! l = Some h ->
  fetch (requests w) (Fastai.chat_request o (Some h)) = Resolved res ->
  first_message res = Some reply ->
  tool_calls reply = Some calls ->
  calls <> [] ->
  Forall (fun c => is_Some (answer JSON_parse (Fastai.find_tool o) c)) calls ->
  length (tool_messages JSON_parse (Fastai.find_tool o) calls) = length calls /\
  map tool_call_id (tool_messages JSON_parse (Fastai.find_tool o) calls)
    = map (fun c => Some (tc_id c)) calls /\
  exists evs,
    trace (snd (Fastai.loop JSON_parse fetch (S (S n)) o false w)) =
      trace w
        ++ EvFetch (Fastai.chat_request o (Some h))
        :: notifications (Fastai.onToolCall o) calls
        ++ tool_events JSON_parse (Fastai.find_tool o) calls
        ++ EvFetch (Fastai.chat_request o
                      (Some (h ++ reply :: tool_messages JSON_parse (Fastai.find_tool o) calls)))
        :: evs.
Proof.
  intros Hl Hh Hfetch Hfirst Hcalls Hne Hall. split; [|split].
  - clear Hcalls Hne. induction Hall as [|c rest [[[t a] r] Hc] _ IH]; [reflexivity|].
    simpl. rewrite Hc. simpl. now rewrite IH.
  - clear Hcalls Hne. induction Hall as [|c rest [[[t a] r] Hc] _ IH]; [reflexivity|].
    simpl. rewrite Hc. simpl. now rewrite IH.
  - change (Fastai.loop JSON_parse fetch (S (S n)) o false w)
      with (bind (Fastai.round JSON_parse fetch o false)
                 (fun r => match r with
                           | Some text => ret text
                           | None => Fastai.loop JSON_parse fetch (S n) o false
                           end) w).
    unfold bind at 1.
    erewrite Fastai_round_answered by eassumption.
    match goal with |- context [Fastai.loop _ _ _ _ _ ?w1] => set (w' := w1) end.
    destruct (Fastai_loop_first_request JSON_parse fetch n o false l w'
                (h ++ reply :: tool_messages JSON_parse (Fastai.find_tool o) calls) Hl)
      as [evs Hevs]; [subst w'; simpl; apply lookup_insert_eq|].
    exists evs. rewrite Hevs. subst w'. simpl.
    rewrite <- !app_assoc. simpl. now rewrite <- app_assoc.
Qed.

(** ** The function-style build *)

(** [m] leaves the array at [l] as it is. *)
Definition keeps {A : Type} (l : loc) (m : M A) : Prop :=
  forall w, heap (snd (m w)) !! l = heap w !! l.

Lemma keeps_ret {A : Type} (l : loc) (a : A) : keeps l (ret a).
Proof. now intros w. Qed.

Lemma keeps_throw {A : Type} (l : loc) (e : exn) : keeps l (@throw A e).
Proof. now intros w. Qed.

Lemma keeps_pending {A : Type} (l : loc) : keeps l (@pending A).
Proof. now intros w. Qed.

Lemma keeps_emit (l : loc) (e : event) : keeps l (emit e).
Proof. now intros w. Qed.

Lemma keeps_await {A : Type} (l : loc) (p : promise A) : keeps l (await p).
Proof. destruct p; [apply keeps_ret | apply keeps_throw]. Qed.

Lemma keeps_read (l l' : loc) : keeps l (read l').
Proof. intros w. unfold read. now destruct (heap w !! l'). Qed.

Lemma keeps_post (l : loc) (fetch : transport) (r : Request) : keeps l (post fetch r).
Proof. intros w. unfold post. now destruct (fetch (requests w) r). Qed.

Lemma keeps_push (l l' : loc) (m : ChatMessage) : l' <> l -> keeps l (push l' m).
Proof.
  intros Hne w. unfold push. destruct (heap w !! l'); [|reflexivity].
  simpl. now apply lookup_insert_ne.
Qed.

Lemma keeps_bind {A B : Type} (l : loc) (m : M A) (k : A -> M B) :
  keeps l m -> (forall a, keeps l (k a)) -> keeps l (bind m k).
Proof.
  intros Hm Hk w. unfold bind. specialize (Hm w).
  destruct (m w) as [[a|e|] w1]; simpl in Hm; try exact Hm.
  now rewrite Hk.
Qed.

Lemma keeps_notify (l : loc) (cb : callback) (names : list string) :
  keeps l (notify cb names).
Proof.
  induction names; simpl; [apply keeps_ret|].
  apply keeps_bind; [apply keeps_emit | intros _; exact IHnames].
Qed.

Section ClientLoop.

Variable JSON_parse : string -> option json.
Variable fetch : transport.

Lemma keeps_for_calls (l : loc) (toolMap : list (string * Tool)) (messageHistory : loc)
  (calls : list ToolCall) :
  messageHistory <> l ->
  keeps l (FastaiClient.for_calls JSON_parse toolMap messageHistory calls).
Proof.
  intros Hne. induction calls as [|call rest IH]; simpl; [apply keeps_ret|].
  apply keeps_bind; [apply keeps_emit|intros _].
  destruct (FastaiClient.map_get _ _) as [t|]; [|apply keeps_throw].
  destruct (JSON_parse _) as [raw|]; [|apply keeps_throw].
  destruct (parse _ raw) as [args|]; [|apply keeps_throw].
  apply keeps_bind; [apply keeps_emit|intros _].
  apply keeps_bind; [apply keeps_await|intros result].
  apply keeps_bind; [now apply keeps_push|intros _; exact IH].
Qed.

Lemma keeps_round (l : loc) (options : FastaiClient.GenerateTextOptions)
  (toolMap : list (string * Tool)) (messageHistory : loc) :
  messageHistory <> l ->
  keeps l (FastaiClient.round JSON_parse fetch options toolMap messageHistory).
Proof.
  intros Hne. unfold FastaiClient.round.
  apply keeps_bind; [apply keeps_read|intros history].
  apply keeps_bind; [apply keeps_post|intros res].
  destruct (first_message res) as [reply|]; [|apply keeps_throw].
  apply keeps_bind; [now apply keeps_push|intros _].
  destruct (tool_calls reply) as [[|c calls]|]; try apply keeps_ret.
  apply keeps_bind.
  - destruct (FastaiClient.gt_onToolCall options); [apply keeps_notify | apply keeps_ret].
  - intros _. apply keeps_bind; [now apply keeps_for_calls | intros; apply keeps_ret].
Qed.

Lemma keeps_loop (l : loc) (n : nat) (options : FastaiClient.GenerateTextOptions)
  (toolMap : list (string * Tool)) (messageHistory : loc) :
  messageHistory <> l ->
  keeps l (FastaiClient.loop JSON_parse fetch n options toolMap messageHistory).
Proof.
  intros Hne. induction n as [|n IH]; simpl; [apply keeps_pending|].
  apply keeps_bind; [now apply keeps_round|].
  intros [text|]; [apply keeps_ret | exact IH].
Qed.

(** X14.  The history of this [generateText] is a copy: whatever the transport
    and the tools do, and however the call ends, the caller's array holds
    after the call what it held before. *)
Lemma FastaiClient_generateText_keeps_messages (n : nat)
  (options : FastaiClient.GenerateTextOptions) :
  keeps (FastaiClient.gt_messages options)
        (FastaiClient.generateText JSON_parse fetch n options).
Proof.
  intros w. unfold FastaiClient.generateText.
  unfold bind at 1. unfold read.
  destruct (heap w !! FastaiClient.gt_messages options) as [h|] eqn:Hh;
    [|simpl; exact Hh].
  unfold bind at 1. unfold alloc.
  set (l' := fresh (dom (heap w))).
  assert (Hne : l' <> FastaiClient.gt_messages options).
  { intros Heq. apply (is_fresh (dom (heap w))). fold l'. rewrite Heq.
    apply elem_of_dom. now exists h. }
  rewrite keeps_loop by exact Hne.
  simpl. rewrite lookup_insert_ne by exact Hne. exact Hh.
Qed.

(** The loop works on that copy: a batch of answered calls leaves its
    results there, in order, after the reply. *)
Lemma FastaiClient_for_calls_answered (toolMap : list (string * Tool)) (l : loc)
  (calls : list ToolCall) :
  Forall (fun c => is_Some (answer JSON_parse (fun k => FastaiClient.map_get k toolMap) c))
         calls ->
  forall (w : world) (h : list ChatMessage),
    heap w !! l = Some h ->
    FastaiClient.for_calls JSON_parse toolMap l calls w =
      (Returned tt,
       evolve w
         (<[l := h ++ tool_messages JSON_parse (fun k => FastaiClient.map_get k toolMap) calls]>
            (heap w))
         (tool_events JSON_parse (fun k => FastaiClient.map_get k toolMap) calls) 0).
Proof.
  intros Hall. induction Hall as [|call rest Hcall _ IH]; intros w h Hh.
  - simpl. unfold ret. rewrite app_nil_r, insert_id by exact Hh.
    now rewrite evolve_id.
  - destruct Hcall as [[[t args] result] Hans].
    simpl. rewrite Hans. unfold answer in Hans.
    unfold bind at 1. rewrite emit_ok.
    destruct (FastaiClient.map_get (fn_name call) toolMap) as [t'|]; [|discriminate].
    destruct (JSON_parse (fn_arguments call)) as [raw|]; [|discriminate].
    destruct (parse (parameters t') raw) as [args'|]; [|discriminate].
    destruct (execute t' args') as [result'|] eqn:Hex; [|discriminate].
    injection Hans as -> -> ->.
    unfold bind. rewrite emit_ok. simpl.
    erewrite push_ok by (simpl; exact Hh).
    erewrite IH by (simpl; apply lookup_insert_eq).
    rewrite !evolve_evolve. simpl.
    rewrite insert_insert_eq, <- app_assoc. reflexivity.
Qed.

(** X12.  One turn with answered calls: the request, one notification per call
    for the observer of the options, the executions, and the results in
    the history. *)
Lemma FastaiClient_round_answered (options : FastaiClient.GenerateTextOptions)
  (toolMap : list (string * Tool)) (l : loc) (w : world)
  (h : list ChatMessage) (res : ChatRespose) (reply : ChatMessage)
  (calls : list ToolCall) :
  heap w !! l = Some h ->
  fetch (requests w)
        (FastaiClient.request_of (FastaiClient.gt_target options) h
           (FastaiClient.toolsJsonSchema_of toolMap)) = Resolved res ->
  first_message res = Some reply ->
  tool_calls reply = Some calls ->
  calls <> [] ->
  Forall (fun c => is_Some (answer JSON_parse (fun k => FastaiClient.map_get k toolMap) c))
         calls ->
  FastaiClient.round JSON_parse fetch options toolMap l w =
    (Returned None,
     evolve w
       (<[l := h ++ reply
                 :: tool_messages JSON_parse (fun k => FastaiClient.map_get k toolMap) calls]>
          (heap w))
       (EvFetch (FastaiClient.request_of (FastaiClient.gt_target options) h
                   (FastaiClient.toolsJsonSchema_of toolMap))
          :: notifications (FastaiClient.gt_onToolCall options) calls
          ++ tool_events JSON_parse (fun k => FastaiClient.map_get k toolMap) calls) 1).
Proof.
  intros Hh Hfetch Hfirst Hcalls Hne Hall.
  unfold FastaiClient.round.
  unfold bind at 1. rewrite (read_ok _ _ _ Hh).
  unfold bind at 1. rewrite (post_ok _ _ _ _ Hfetch), Hfirst.
  unfold bind at 1. erewrite push_ok by (simpl; exact Hh).
  rewrite Hcalls. destruct calls as [|c calls]; [congruence|].
  rewrite evolve_evolve. simpl heap.
  unfold bind at 1. unfold notifications.
  destruct (FastaiClient.gt_onToolCall options) as [cb|].
  - rewrite notify_ok, evolve_evolve. unfold bind.
    erewrite FastaiClient_for_calls_answered;
      [|exact Hall|simpl; apply lookup_insert_eq].
    rewrite evolve_evolve. simpl heap. unfold ret.
    rewrite insert_insert_eq, <- !app_assoc. reflexivity.
  - unfold ret at 1. unfold bind.
    erewrite FastaiClient_for_calls_answered;
      [|exact Hall|simpl; apply lookup_insert_eq].
    rewrite evolve_evolve. simpl heap. unfold ret.
    rewrite insert_insert_eq, <- !app_assoc. reflexivity.
Qed.

(** Whatever the batch, the loop over its calls only looks tools up and
    executes them. *)
Lemma FastaiClient_for_calls_events (toolMap : list (string * Tool)) (l : loc)
  (calls : list ToolCall) (w : world) :
  exists h evs,
    snd (FastaiClient.for_calls JSON_parse toolMap l calls w) = evolve w h evs 0 /\
    forallb of_tool_loop evs = true.
Proof.
  revert w. induction calls as [|call rest IH]; intros w.
  - exists (heap w), []. simpl. now rewrite evolve_id.
  - simpl. unfold bind at 1. rewrite emit_ok.
    destruct (FastaiClient.map_get (fn_name call) toolMap) as [t|];
      [|now exists (heap w), [EvLookup (fn_name call)]].
    destruct (JSON_parse (fn_arguments call)) as [raw|];
      [|now exists (heap w), [EvLookup (fn_name call)]].
    destruct (parse (parameters t) raw) as [args|];
      [|now exists (heap w), [EvLookup (fn_name call)]].
    unfold bind at 1. rewrite emit_ok, evolve_evolve.
    unfold bind at 1.
    destruct (execute t args) as [result|e]; simpl;
      [|now exists (heap w), [EvLookup (fn_name call); EvExecute (name t) args]].
    unfold bind at 1. unfold push at 1. simpl.
    destruct (heap w !! l) as [h|]; simpl;
      [|now exists (heap w), [EvLookup (fn_name call); EvExecute (name t) args]].
    match goal with |- context [FastaiClient.for_calls _ _ _ rest ?w'] =>
      destruct (IH w') as (h' & evs & Hsnd & Hevs); rewrite Hsnd end.
    exists h', ([EvLookup (fn_name call); EvExecute (name t) args] ++ evs).
    split; [|simpl; exact Hevs].
    unfold evolve; simpl. f_equal; [now rewrite <- app_assoc | lia].
Qed.

(** The first unregistered tool of a batch, when every call before it is
    answered, is the one the error names. *)
Lemma FastaiClient_for_calls_first_unknown (toolMap : list (string * Tool)) (l : loc)
  (before after : list ToolCall) (call : ToolCall) :
  Forall (fun c => is_Some (answer JSON_parse (fun k => FastaiClient.map_get k toolMap) c))
         before ->
  FastaiClient.map_get (fn_name call) toolMap = None ->
  forall (w : world) (h : list ChatMessage),
    heap w !! l = Some h ->
    FastaiClient.for_calls JSON_parse toolMap l (before ++ call :: after) w =
      (Threw (ToolNotFoundError (fn_name call)),
       evolve w
         (<[l := h ++ tool_messages JSON_parse (fun k => FastaiClient.map_get k toolMap) before]>
            (heap w))
         (tool_events JSON_parse (fun k => FastaiClient.map_get k toolMap) before
            ++ [EvLookup (fn_name call)]) 0).
Proof.
  intros Hall Hnone. induction Hall as [|c rest Hc _ IH]; intros w h Hh.
  - simpl. unfold bind at 1. rewrite emit_ok, Hnone.
    unfold throw. rewrite app_nil_r, insert_id by exact Hh. reflexivity.
  - destruct Hc as [[[t args] result] Hans].
    simpl. rewrite Hans. unfold answer in Hans.
    unfold bind at 1. rewrite emit_ok.
    destruct (FastaiClient.map_get (fn_name c) toolMap) as [t'|]; [|discriminate].
    destruct (JSON_parse (fn_arguments c)) as [raw|]; [|discriminate].
    destruct (parse (parameters t') raw) as [args'|]; [|discriminate].
    destruct (execute t' args') as [result'|] eqn:Hex; [|discriminate].
    injection Hans as -> -> ->.
    unfold bind. rewrite emit_ok. simpl.
    erewrite push_ok by (simpl; exact Hh).
    erewrite IH by (simpl; apply lookup_insert_eq).
    rewrite !evolve_evolve. simpl.
    rewrite insert_insert_eq, <- app_assoc. reflexivity.
Qed.

(** A turn of this loop whose response has tool calls: the request, the
    reply pushed, every notification, and only then the loop over the
    calls. *)
Lemma FastaiClient_round_calls (options : FastaiClient.GenerateTextOptions)
  (toolMap : list (string * Tool)) (l : loc) (w : world)
  (h : list ChatMessage) (res : ChatRespose) (reply : ChatMessage)
  (calls : list ToolCall) :
  heap w !! l = Some h ->
  fetch (requests w)
        (FastaiClient.request_of (FastaiClient.gt_target options) h
           (FastaiClient.toolsJsonSchema_of toolMap)) = Resolved res ->
  first_message res = Some reply ->
  tool_calls reply = Some calls ->
  calls <> [] ->
  FastaiClient.round JSON_parse fetch options toolMap l w =
    (FastaiClient.for_calls JSON_parse toolMap l calls ;; ret None)
      (evolve w (<[l := h ++ [reply]]> (heap w))
              (EvFetch (FastaiClient.request_of (FastaiClient.gt_target options) h
                          (FastaiClient.toolsJsonSchema_of toolMap))
                 :: notifications (FastaiClient.gt_onToolCall options) calls) 1).
Proof.
  intros Hh Hfetch Hfirst Hcalls Hne.
  unfold FastaiClient.round.
  unfold bind at 1. rewrite (read_ok _ _ _ Hh).
  unfold bind at 1. rewrite (post_ok _ _ _ _ Hfetch), Hfirst.
  unfold bind at 1. erewrite push_ok by (simpl; exact Hh).
  rewrite Hcalls. destruct calls as [|c0 calls0]; [congruence|].
  rewrite evolve_evolve. simpl heap.
  unfold bind at 1. unfold notifications.
  destruct (FastaiClient.gt_onToolCall options) as [cb|].
  - now rewrite notify_ok, evolve_evolve.
  - reflexivity.
Qed.

(** One turn of this loop with tool calls: as in [src/fastai.ts], every
    notification of the observer of the options comes right after the
    request, and the lookups and executions after them; a batch whose
    first unanswered call names an unregistered tool ends the turn with the
    tool-not-found error for it. *)
Lemma FastaiClient_round_observer (options : FastaiClient.GenerateTextOptions)
  (toolMap : list (string * Tool)) (l : loc) (w : world)
  (h : list ChatMessage) (res : ChatRespose) (reply : ChatMessage)
  (calls : list ToolCall) :
  heap w !! l = Some h ->
  fetch (requests w)
        (FastaiClient.request_of (FastaiClient.gt_target options) h
           (FastaiClient.toolsJsonSchema_of toolMap)) = Resolved res ->
  first_message res = Some reply ->
  tool_calls reply = Some calls ->
  calls <> [] ->
  let r := FastaiClient.round JSON_parse fetch options toolMap l w in
  exists evs,
    trace (snd r) =
      trace w ++ EvFetch (FastaiClient.request_of (FastaiClient.gt_target options) h
                            (FastaiClient.toolsJsonSchema_of toolMap))
        :: notifications (FastaiClient.gt_onToolCall options) calls ++ evs /\
    forallb of_tool_loop evs = true /\
    requests (snd r) = S (requests w) /\
    (forall before call after,
        calls = before ++ call :: after ->
        Forall (fun c => is_Some (answer JSON_parse
                                    (fun k => FastaiClient.map_get k toolMap) c)) before ->
        FastaiClient.map_get (fn_name call) toolMap = None ->
        fst r = Threw (ToolNotFoundError (fn_name call))).
Proof.
  intros Hh Hfetch Hfirst Hcalls Hne r. subst r.
  rewrite (FastaiClient_round_calls options toolMap l w h res reply calls)
    by assumption.
  match goal with |- context [evolve w ?hp ?ev 1] => set (w' := evolve w hp ev 1) end.
  destruct (FastaiClient_for_calls_events toolMap l calls w') as (h' & evs & Hsnd & Hevs).
  exists evs. unfold bind.
  destruct (FastaiClient.for_calls JSON_parse toolMap l calls w') as [out w''] eqn:Hrun.
  simpl in Hsnd. subst w''.
  assert (Hshape : forall A (o : outcome A),
             trace (snd (o, evolve w' h' evs 0)) =
               trace w ++ EvFetch (FastaiClient.request_of (FastaiClient.gt_target options) h
                                     (FastaiClient.toolsJsonSchema_of toolMap))
                 :: notifications (FastaiClient.gt_onToolCall options) calls ++ evs /\
             requests (snd (o, evolve w' h' evs 0)) = S (requests w)).
  { intros A o. subst w'. simpl. split; [now rewrite <- app_assoc | lia]. }
  assert (Hunknown : forall before call after,
             calls = before ++ call :: after ->
             Forall (fun c => is_Some (answer JSON_parse
                                         (fun k => FastaiClient.map_get k toolMap) c)) before ->
             FastaiClient.map_get (fn_name call) toolMap = None ->
             out = Threw (ToolNotFoundError (fn_name call))).
  { intros before call after Hsplit Hall Hnone. rewrite Hsplit in Hrun.
    erewrite FastaiClient_for_calls_first_unknown in Hrun;
      [|exact Hall|exact Hnone|subst w'; simpl; apply lookup_insert_eq].
    congruence. }
  destruct out as [[]|e|]; unfold ret;
    (split; [apply Hshape|split; [exact Hevs|split; [apply Hshape|]]]);
    intros before call after Hsplit Hall Hnone;
    specialize (Hunknown before call after Hsplit Hall Hnone);
    simpl; congruence.
Qed.

(** X13.  A tool-free first response ends this [generateText] after one
    request, with the content as the service sent it. *)
Lemma FastaiClient_generateText_tool_free (n : nat)
  (options : FastaiClient.GenerateTextOptions) (w : world)
  (h : list ChatMessage) (res : ChatRespose) (reply : ChatMessage) :
  heap w !! FastaiClient.gt_messages options = Some h ->
  fetch (requests w)
        (FastaiClient.request_of (FastaiClient.gt_target options) h
           (FastaiClient.toolsJsonSchema_of
              (FastaiClient.toolMap_of (FastaiClient.gt_tools options)))) = Resolved res ->
  first_message res = Some reply ->
  tool_free reply ->
  let r := FastaiClient.generateText JSON_parse fetch (S n) options w in
  fst r = Returned (content reply) /\
  fetches (trace (snd r)) =
    fetches (trace w)
      ++ [FastaiClient.request_of (FastaiClient.gt_target options) h
            (FastaiClient.toolsJsonSchema_of
               (FastaiClient.toolMap_of (FastaiClient.gt_tools options)))] /\
  requests (snd r) = S (requests w).
Proof.
  intros Hh Hfetch Hfirst Hfree r. subst r.
  assert (Hrun : exists hp,
             FastaiClient.generateText JSON_parse fetch (S n) options w =
               (Returned (content reply),
                evolve w hp
                  [EvFetch (FastaiClient.request_of (FastaiClient.gt_target options) h
                              (FastaiClient.toolsJsonSchema_of
                                 (FastaiClient.toolMap_of (FastaiClient.gt_tools options))))]
                  1)).
  { unfold FastaiClient.generateText.
    unfold bind at 1. rewrite (read_ok _ _ _ Hh).
    unfold bind at 1. unfold alloc.
    set (l' := fresh (dom (heap w))).
    simpl FastaiClient.loop. unfold bind at 1. unfold FastaiClient.round.
    unfold bind at 1. erewrite read_ok by (simpl; apply lookup_insert_eq).
    unfold bind at 1. erewrite post_ok by (simpl; exact Hfetch).
    rewrite Hfirst. unfold bind at 1.
    erewrite push_ok by (simpl; apply lookup_insert_eq).
    rewrite evolve_evolve. simpl heap.
    eexists. destruct Hfree as [-> | ->]; unfold ret, evolve; simpl; reflexivity. }
  destruct Hrun as [hp ->]. simpl.
  split; [reflexivity|split; [now rewrite fetches_app|lia]].
Qed.

(** X29.  [generateObject] sends one request, whatever comes back, and its
    history is the preamble followed by the prompt. *)
Lemma FastaiClient_generateObject_history (options : FastaiClient.GenerateObjectOptions)
  (w : world) :
  fetches (trace (snd (FastaiClient.generateObject JSON_parse fetch options w))) =
    fetches (trace w) ++ [FastaiClient.object_request options] /\
  sent_messages (FastaiClient.object_request options) =
    Some (JArr [ChatMessage_json
                  (system_message (Js.nullish (FastaiClient.go_system options)
                                              FastaiClient.default_preamble));
                ChatMessage_json (user_message (FastaiClient.go_prompt options))]).
Proof.
  split; [|reflexivity].
  unfold FastaiClient.generateObject, bind, post.
  destruct (fetch (requests w) _) as [res|e]; simpl;
    [|now rewrite fetches_app].
  destruct (first_message res) as [reply|];
    [|unfold throw; simpl; now rewrite fetches_app].
  destruct (find _ _) as [submitCall|].
  - destruct (JSON_parse _) as [parsed|];
      [|unfold throw; simpl; now rewrite fetches_app].
    destruct (parse _ parsed); unfold throw, ret; simpl; now rewrite fetches_app.
  - destruct (content reply) as [[|c s]|];
      try (unfold throw; simpl; now rewrite fetches_app).
    destruct (JSON_parse _) as [fallback|];
      [|unfold throw; simpl; now rewrite fetches_app].
    destruct (parse _ fallback); unfold throw, ret; simpl; now rewrite fetches_app.
Qed.

End ClientLoop.

(** With no tool, the body of a request of this [generateText] has no
    [tools] field. *)
Lemma FastaiClient_no_tools_omitted (t : FastaiClient.Target) (history : list ChatMessage)
  (toolsInput : option FastaiClient.ToolsInput) :
  toolsInput = None \/ toolsInput = Some (FastaiClient.ToolsArray [])
    \/ toolsInput = Some (FastaiClient.ToolsRecord []) ->
  keys (body (FastaiClient.request_of t history
                (FastaiClient.toolsJsonSchema_of (FastaiClient.toolMap_of toolsInput))))
    = ["model"; "messages"].
Proof. intros [-> | [-> | ->]]; reflexivity. Qed.

(** This [createOpenAI] fails at once without a key, and otherwise keeps
    the key it is given. *)
Lemma FastaiClient_createOpenAI_key (options : FastaiClient.CreateOpenAIOptions) :
  match FastaiClient.opt_apiKey options with
  | None | Some EmptyString => FastaiClient.createOpenAI options = Raise ConfigError
  | Some k => exists c, FastaiClient.createOpenAI options = Ok c /\ FastaiClient.apiKey c = k
  end.
Proof.
  unfold FastaiClient.createOpenAI.
  destruct (FastaiClient.opt_apiKey options) as [[|c k]|]; try reflexivity.
  eexists. split; reflexivity.
Qed.

(** The [null] that the class with [stream] sends for no tools. *)
Lemma FastaiStream_no_tools_null (o : Fastai.OpenAI) (history : option (list ChatMessage)) :
  Fastai.tools o = None \/ Fastai.tools o = Some [] ->
  exists fields, FastaiStream.stream_body o history = JObj fields /\
                 field "tools" fields = Some JNull.
Proof.
  unfold FastaiStream.stream_body, JSON_stringify.
  intros [-> | ->]; destruct history; simpl; eexists; split; reflexivity.
Qed.

(** [Fastai.createTool] hands its argument back: the [execute] of the
    tool is the caller's, which its type makes a promise already. *)
Lemma Fastai_createTool_same (t : Tool) : Fastai.createTool t = t.
Proof. reflexivity. Qed.

(** C8.  The tool that [createTool] makes has the name, description and
    schema it was given, and its [execute] is asynchronous: when the given
    [execute] returns a string, and when it returns a promise of a string,
    the tool's [execute] returns a promise that resolves to that string. *)
Theorem createTool_execute_async (options : FastaiClient.CreateToolOptions)
  (args : json) (s : string) :
  FastaiClient.ct_execute options args = Sync s \/
  FastaiClient.ct_execute options args = Async (Resolved s) ->
  let t := FastaiClient.createTool options in
  name t = FastaiClient.ct_name options /\
  description t = FastaiClient.ct_description options /\
  parameters t = FastaiClient.ct_parameters options /\
  execute t args = Resolved s.
Proof.
  intros H t. subst t. repeat split.
  simpl. unfold FastaiClient.wrappedExecute.
  destruct H as [-> | ->]; reflexivity.
Qed.

(** A tool whose [execute] is a plain function. *)
Definition shout : FastaiClient.CreateToolOptions :=
  {| FastaiClient.ct_name := "shout"; FastaiClient.ct_description := None;
     FastaiClient.ct_parameters := any_schema;
     FastaiClient.ct_execute := fun _ => Sync "HEY" |}.

Lemma createTool_execute_async_witness :
  let t := FastaiClient.createTool shout in
  name t = FastaiClient.ct_name shout /\
  description t = FastaiClient.ct_description shout /\
  parameters t = FastaiClient.ct_parameters shout /\
  execute t JNull = Resolved "HEY".
Proof.
  apply (createTool_execute_async shout JNull "HEY").
  left. reflexivity.
Defined.

(** A rejection or an exception of the given [execute] becomes a
    rejection of the tool's. *)
Lemma createTool_execute_failure (options : FastaiClient.CreateToolOptions)
  (args : json) (e : exn) :
  FastaiClient.ct_execute options args = Thrown e \/
  FastaiClient.ct_execute options args = Async (Rejected e) ->
  execute (FastaiClient.createTool options) args = Rejected e.
Proof.
  simpl. unfold FastaiClient.wrappedExecute.
  intros [-> | ->]; reflexivity.
Qed.

(** Awaiting the tool's [execute] comes to what awaiting the given
    [execute] comes to, as the loop does with [await tool.execute(args)]. *)
Lemma createTool_await_same (options : FastaiClient.CreateToolOptions) (args : json) :
  await (execute (FastaiClient.createTool options) args) =
    await_value (FastaiClient.ct_execute options args).
Proof.
  simpl. unfold FastaiClient.wrappedExecute.
  now destruct (FastaiClient.ct_execute options args).
Qed.

(** ** Lines of a stream *)

Definition nl : string := String "010"%char EmptyString.

Fixpoint no_newline (s : string) : bool :=
  match s with
  | EmptyString => true
  | String c s' => negb (Ascii.eqb c "010"%char) && no_newline s'
  end.

(** The lines that are complete in a buffer, and what follows them. *)
Definition lines_of (s : string) : list string := List.removelast (Js.split_nl s).
Definition rest_of (s : string) : string := List.last (Js.split_nl s) "".

Lemma split_nl_nonempty (s : string) : Js.split_nl s <> [].
Proof.
  destruct s as [|c s]; simpl; [discriminate|].
  destruct (Ascii.eqb c "010"); [discriminate|].
  destruct (Js.split_nl s); discriminate.
Qed.


Lemma lines_rest_cons (l : string) (ls : list string) :
  ls <> [] ->
  List.removelast (l :: ls) = l :: List.removelast ls /\
  List.last (l :: ls) "" = List.last ls "".
Proof. destruct ls; [congruence|]. now split. Qed.

Lemma split_nl_newline (s : string) :
  lines_of (String "010" s) = "" :: lines_of s /\ rest_of (String "010" s) = rest_of s.
Proof.
  unfold lines_of, rest_of. simpl Js.split_nl.
  apply lines_rest_cons, split_nl_nonempty.
Qed.

Lemma split_nl_other (c : ascii) (s : string) :
  Ascii.eqb c "010" = false ->
  match lines_of s with
  | [] => lines_of (String c s) = [] /\ rest_of (String c s) = String c (rest_of s)
  | l :: ls => lines_of (String c s) = String c l :: ls /\ rest_of (String c s) = rest_of s
  end.
Proof.
  intros Hc. unfold lines_of, rest_of. simpl Js.split_nl. rewrite Hc.
  destruct (Js.split_nl s) as [|l ls] eqn:Hs; [now apply split_nl_nonempty in Hs|].
  destruct ls as [|l' ls]; [now split|].
  change (List.removelast (l :: l' :: ls)) with (l :: List.removelast (l' :: ls)).
  now split.
Qed.

(** Splitting is the same whether the text comes whole or in two parts:
    the complete lines of the first part, then the split of what was left
    of it followed by the second part. *)
Lemma split_nl_app (a b : string) :
  Js.split_nl (a +:+ b) = lines_of a ++ Js.split_nl (rest_of a +:+ b).
Proof.
  induction a as [|c a IH]; [reflexivity|].
  destruct (Ascii.eqb c "010") eqn:Hc.
  - apply Ascii.eqb_eq in Hc. subst c.
    destruct (split_nl_newline a) as [-> ->].
    change (Js.split_nl (String "010" a +:+ b)) with ("" :: Js.split_nl (a +:+ b)).
    now rewrite IH.
  - pose proof (split_nl_other c a Hc) as H.
    change (Js.split_nl (String c a +:+ b))
      with (if Ascii.eqb c "010" then "" :: Js.split_nl (a +:+ b)
            else match Js.split_nl (a +:+ b) with
                 | [] => [String c ""]
                 | l :: ls => String c l :: ls
                 end).
    rewrite Hc, IH.
    destruct (lines_of a) as [|l ls].
    + destruct H as [-> ->]. simpl.
      change (Js.split_nl (String c (rest_of a +:+ b)))
        with (if Ascii.eqb c "010" then "" :: Js.split_nl (rest_of a +:+ b)
              else match Js.split_nl (rest_of a +:+ b) with
                   | [] => [String c ""]
                   | l :: ls => String c l :: ls
                   end).
      now rewrite Hc.
    + destruct H as [-> ->]. reflexivity.
Qed.

Lemma split_nl_no_newline (s : string) : no_newline s = true -> Js.split_nl s = [s].
Proof.
  induction s as [|c s IH]; [reflexivity|].
  simpl. intros H. apply andb_prop in H as [Hc Hs].
  apply negb_true_iff in Hc. rewrite Hc, (IH Hs). reflexivity.
Qed.

Lemma rest_no_newline (s : string) : no_newline (rest_of s) = true.
Proof.
  induction s as [|c s IH]; [reflexivity|].
  destruct (Ascii.eqb c "010") eqn:Hc.
  - apply Ascii.eqb_eq in Hc. subst c. now destruct (split_nl_newline s) as [_ ->].
  - pose proof (split_nl_other c s Hc) as H.
    destruct (lines_of s); destruct H as [_ ->]; [|exact IH].
    simpl. now rewrite Hc, IH.
Qed.

(** A line and its newline in front of a text. *)
Lemma split_nl_line (s t : string) :
  no_newline s = true ->
  Js.split_nl (s +:+ String "010" t) = s :: Js.split_nl t.
Proof.
  induction s as [|c s IH]; [reflexivity|].
  simpl. intros H. apply andb_prop in H as [Hc Hs].
  apply negb_true_iff in Hc. rewrite Hc.
  now rewrite (IH Hs).
Qed.

Lemma string_app_assoc (a b c : string) : (a +:+ b) +:+ c = a +:+ (b +:+ c).
Proof.
  induction a as [|x a IH]; [reflexivity|].
  change (String x ((a +:+ b) +:+ c) = String x (a +:+ (b +:+ c))).
  now rewrite IH.
Qed.

Lemma string_app_nil_r (a : string) : a +:+ "" = a.
Proof.
  induction a as [|x a IH]; [reflexivity|].
  change (String x (a +:+ "") = String x a).
  now rewrite IH.
Qed.

Lemma lines_of_app (a b : string) :
  lines_of (a +:+ b) = lines_of a ++ lines_of (rest_of a +:+ b).
Proof.
  unfold lines_of at 1. rewrite split_nl_app.
  apply removelast_app, split_nl_nonempty.
Qed.

Lemma lines_of_no_newline (s : string) : no_newline s = true -> lines_of s = [].
Proof. intros H. unfold lines_of. now rewrite split_nl_no_newline. Qed.

Lemma lines_of_line (s t : string) :
  no_newline s = true -> lines_of (s +:+ String "010" t) = s :: lines_of t.
Proof.
  intros H. unfold lines_of. rewrite split_nl_line by exact H.
  apply lines_rest_cons, split_nl_nonempty.
Qed.

(** ** The stream, as the events it produces *)

(** All the text of a stream. *)
Fixpoint join (chunks : list string) : string :=
  match chunks with
  | [] => ""
  | c :: cs => c +:+ join cs
  end.

(** [data.choices?.[0]?.delta.content], when nothing throws on the way. *)
Definition delta_content (data : json) : option json :=
  match data with
  | JNull => None
  | _ =>
      match Js.optchain (Js.optchain (Js.member data "choices") Js.index0)
                        (fun first => Js.member first "delta") with
      | Some d => Js.member d "content"
      | None => None
      end
  end.

#[local] Arguments Js.slice : simpl never.
#[local] Arguments String.prefix : simpl never.
#[local] Arguments String.eqb : simpl never.

Section StreamEvents.

Variable JSON_parse : string -> option json.

(** What the handling of one [data: ] payload adds to the trace. *)
Definition data_events (onMsg : callback) (dataStr : string) : list event :=
  match JSON_parse dataStr with
  | None => [EvConsoleError]
  | Some JNull => [EvConsoleError]
  | Some data =>
      match delta_content data with
      | Some text => if Js.truthy (Some text) then [EvOnMsg onMsg text false] else []
      | None => []
      end
  end.

(** What the loop over some lines adds to the trace, and whether it met
    the sentinel. *)
Fixpoint lines_events (onMsg : callback) (lines : list string) : bool * list event :=
  match lines with
  | [] => (false, [])
  | line :: rest =>
      if negb (String.prefix "data: " line) then lines_events onMsg rest
      else if String.eqb (Js.slice 6 line) "[DONE]"
           then (true, [EvOnMsg onMsg (JStr "") true])
           else (fst (lines_events onMsg rest),
                 data_events onMsg (Js.slice 6 line) ++ snd (lines_events onMsg rest))
  end.

(** What reading the chunks adds to the trace. *)
Fixpoint chunks_events (onMsg : callback) (chunks : list string) (buffer : string)
  : list event :=
  EvRead ::
  match chunks with
  | [] =>
      match Js.trim buffer with
      | EmptyString => []
      | rest => [EvOnMsg onMsg (JStr rest) true]
      end
  | chunk :: later =>
      snd (lines_events onMsg (lines_of (buffer +:+ chunk)))
        ++ if fst (lines_events onMsg (lines_of (buffer +:+ chunk))) then []
           else chunks_events onMsg later (rest_of (buffer +:+ chunk))
  end.

Lemma member_truthy (d : json) (k : string) (v : json) :
  Js.member d k = Some v -> Js.truthy (Some d) = true.
Proof. destruct d; simpl; congruence. Qed.

Lemma on_data_events (fetch : Request -> promise FastaiStream.Response)
  (onMsg : callback) (dataStr : string) (w : world) :
  FastaiStream.on_data JSON_parse onMsg dataStr w =
    (Returned tt, evolve w (heap w) (data_events onMsg dataStr) 0).
Proof.
  unfold FastaiStream.on_data, data_events, catch.
  destruct (JSON_parse dataStr) as [data|]; [|unfold throw; now rewrite emit_ok].
  assert (Hnull : forall x : option json,
             match x with
             | Some d =>
                 if Js.truthy (Some d) && Js.truthy (Js.member d "content")
                 then match Js.member d "content" with
                      | Some text => emit (EvOnMsg onMsg text false)
                      | None => ret tt
                      end
                 else ret tt
             | None => ret tt
             end w =
             (Returned tt,
              evolve w (heap w)
                match match x with Some d => Js.member d "content" | None => None end with
                | Some text =>
                    if Js.truthy (Some text) then [EvOnMsg onMsg text false] else []
                | None => []
                end 0)).
  { intros [d|]; [|unfold ret; now rewrite evolve_id].
    destruct (Js.member d "content") as [text|] eqn:Hm.
    - rewrite (member_truthy _ _ _ Hm). simpl andb.
      destruct (Js.truthy (Some text)); [apply emit_ok|].
      unfold ret; now rewrite evolve_id.
    - rewrite andb_false_r. unfold ret; now rewrite evolve_id. }
  destruct data; unfold FastaiStream.delta_of, delta_content, bind;
    try (unfold ret at 1; rewrite Hnull; reflexivity).
  unfold throw. now rewrite emit_ok.
Qed.

Lemma for_lines_events (onMsg : callback) (lines : list string) (w : world) :
  FastaiStream.for_lines JSON_parse onMsg lines w =
    (Returned (fst (lines_events onMsg lines)),
     evolve w (heap w) (snd (lines_events onMsg lines)) 0).
Proof.
  revert w. induction lines as [|line rest IH]; intros w; simpl.
  - unfold ret. now rewrite evolve_id.
  - destruct (negb (String.prefix "data: " line)); [apply IH|].
    destruct (String.eqb (Js.slice 6 line) "[DONE]").
    + unfold bind. now rewrite emit_ok.
    + unfold bind. rewrite (on_data_events (fun _ => Rejected TypeError)), IH.
      now rewrite evolve_evolve.
Qed.

Lemma read_loop_events (onMsg : callback) (chunks : list string) (buffer : string)
  (w : world) :
  FastaiStream.read_loop JSON_parse onMsg chunks buffer w =
    (Returned tt, evolve w (heap w) (chunks_events onMsg chunks buffer) 0).
Proof.
  revert buffer w. induction chunks as [|chunk later IH]; intros buffer w.
  - simpl. unfold bind. rewrite emit_ok.
    destruct (Js.trim buffer).
    + unfold ret. reflexivity.
    + now rewrite emit_ok, evolve_evolve.
  - simpl. unfold bind. rewrite emit_ok, for_lines_events.
    fold (lines_of (buffer +:+ chunk)). fold (rest_of (buffer +:+ chunk)).
    rewrite evolve_evolve. simpl heap.
    destruct (fst (lines_events onMsg (lines_of (buffer +:+ chunk)))).
    + unfold ret. now rewrite app_nil_r.
    + rewrite IH, evolve_evolve. reflexivity.
Qed.

Lemma lines_events_app (onMsg : callback) (l1 l2 : list string) :
  lines_events onMsg (l1 ++ l2) =
    if fst (lines_events onMsg l1) then lines_events onMsg l1
    else (fst (lines_events onMsg l2),
          snd (lines_events onMsg l1) ++ snd (lines_events onMsg l2)).
Proof.
  induction l1 as [|line l1 IH]; simpl; [now destruct (lines_events onMsg l2)|].
  destruct (negb (String.prefix "data: " line)); [exact IH|].
  destruct (String.eqb (Js.slice 6 line) "[DONE]"); [reflexivity|].
  rewrite IH. destruct (lines_events onMsg l1) as [stop evs]. simpl.
  destruct stop; [reflexivity|].
  simpl. now rewrite app_assoc.
Qed.

Lemma delivered_app (t1 t2 : list event) :
  delivered (t1 ++ t2) = delivered t1 ++ delivered t2.
Proof. unfold delivered. apply omap_app. Qed.

(** However the text is cut into chunks, when its complete lines hold the
    sentinel the callbacks are those of the lines up to it. *)
Lemma chunks_delivered (onMsg : callback) (chunks : list string) (buffer : string) :
  no_newline buffer = true ->
  fst (lines_events onMsg (lines_of (buffer +:+ join chunks))) = true ->
  delivered (chunks_events onMsg chunks buffer) =
    delivered (snd (lines_events onMsg (lines_of (buffer +:+ join chunks)))).
Proof.
  revert buffer. induction chunks as [|chunk later IH]; intros buffer Hb Hstop.
  - simpl in Hstop. rewrite string_app_nil_r, lines_of_no_newline in Hstop by exact Hb.
    discriminate.
  - simpl join in *. rewrite <- string_app_assoc, lines_of_app, lines_events_app in *.
    simpl chunks_events. change (delivered (EvRead :: ?t)) with (delivered t).
    rewrite delivered_app.
    destruct (fst (lines_events onMsg (lines_of (buffer +:+ chunk)))).
    + now rewrite app_nil_r.
    + simpl in Hstop |- *. rewrite delivered_app. f_equal.
      apply IH; [apply rest_no_newline | exact Hstop].
Qed.

End StreamEvents.

Section StreamClaim.

Variable JSON_parse : string -> option json.
Variable fetch : Request -> promise FastaiStream.Response.

Lemma data_events_hi (onMsg : callback) (payload : string) (data : json) :
  JSON_parse payload = Some data ->
  delta_content data = Some (JStr "Hi") ->
  data_events JSON_parse onMsg payload = [EvOnMsg onMsg (JStr "Hi") false].
Proof.
  intros Hparse Hdelta. unfold data_events. rewrite Hparse.
  destruct data; try (rewrite Hdelta; reflexivity).
  discriminate.
Qed.

(** The lines of a delta frame followed by the sentinel, whatever comes
    after: the delta is handled, the empty line is skipped, the sentinel
    ends the loop. *)
Lemma lines_events_frame_done (onMsg : callback) (payload : string) (more : list string) :
  payload <> "[DONE]" ->
  lines_events JSON_parse onMsg (("data: " +:+ payload) :: "" :: "data: [DONE]" :: more) =
    (true, data_events JSON_parse onMsg payload ++ [EvOnMsg onMsg (JStr "") true]).
Proof.
  intros Hp. apply String.eqb_neq in Hp.
  assert (Hpre : String.prefix "data: " ("data: " +:+ payload) = true)
    by (destruct payload; reflexivity).
  change (lines_events JSON_parse onMsg (("data: " +:+ payload) :: "" :: "data: [DONE]" :: more))
    with (if negb (String.prefix "data: " ("data: " +:+ payload))
          then lines_events JSON_parse onMsg ("" :: "data: [DONE]" :: more)
          else if String.eqb payload "[DONE]"
               then (true, [EvOnMsg onMsg (JStr "") true])
               else (true, data_events JSON_parse onMsg payload
                             ++ [EvOnMsg onMsg (JStr "") true])).
  now rewrite Hpre, Hp.
Qed.

Lemma lines_of_frame_done (payload rest : string) :
  no_newline payload = true ->
  lines_of ("data: " +:+ payload +:+ nl +:+ nl +:+ "data: [DONE]" +:+ nl +:+ rest) =
    ("data: " +:+ payload) :: "" :: "data: [DONE]" :: lines_of rest.
Proof.
  intros Hp.
  change ("data: " +:+ payload +:+ nl +:+ nl +:+ "data: [DONE]" +:+ nl +:+ rest)
    with ("data: " +:+ (payload +:+ String "010" (String "010"
            ("data: [DONE]" +:+ String "010" rest)))).
  rewrite <- string_app_assoc.
  rewrite lines_of_line by exact Hp.
  destruct (split_nl_newline ("data: [DONE]" +:+ String "010" rest)) as [-> _].
  now rewrite lines_of_line.
Qed.

(** A stream that is answered with a body runs to its end: the request,
    the events of the chunks, the release of the lock. *)
Lemma stream_events (o : Fastai.OpenAI) (l : loc) (prompt : string)
  (onMsg : callback) (w : world) (h : list ChatMessage)
  (response : FastaiStream.Response) (chunks : list string) :
  Fastai.messages o = Some l ->
  heap w !! l = Some h ->
  fetch (FastaiStream.stream_request o (Some (h ++ [user_message prompt])))
    = Resolved response ->
  FastaiStream.ok response = true ->
  FastaiStream.response_body response = Some chunks ->
  FastaiStream.stream JSON_parse fetch o prompt onMsg w =
    (Returned tt,
     evolve w (<[l := h ++ [user_message prompt]]> (heap w))
       (EvFetch (FastaiStream.stream_request o (Some (h ++ [user_message prompt])))
          :: chunks_events JSON_parse onMsg chunks "" ++ [EvReleaseLock]) 0).
Proof.
  intros Hl Hh Hfetch Hok Hbody.
  unfold FastaiStream.stream, Fastai.push_message, Fastai.history_of. rewrite Hl.
  unfold bind at 1. erewrite push_ok by exact Hh.
  unfold bind at 1. unfold bind at 1.
  erewrite read_ok by (simpl; apply lookup_insert_eq).
  unfold ret at 1. unfold bind at 1. rewrite emit_ok.
  unfold bind at 1. rewrite Hfetch. simpl await. unfold ret at 1.
  rewrite Hok, Hbody. change (negb true) with false. cbv beta iota.
  unfold finally. rewrite read_loop_events, emit_ok, !evolve_evolve.
  reflexivity.
Qed.

(** C9.  The stream is a content-delta frame carrying "Hi" followed by
    the sentinel frame, cut into chunks in any way, with any bytes after
    the sentinel line: [stream] calls [onMsg("Hi", false)], then
    [onMsg('', true)], and returns; nothing that follows the sentinel
    reaches the callback, and the reader's lock is released last. *)
Theorem stream_delta_then_done (o : Fastai.OpenAI) (l : loc) (prompt : string)
  (onMsg : callback) (w : world) (h : list ChatMessage)
  (response : FastaiStream.Response) (chunks : list string)
  (payload : string) (data : json) (rest : string) :
  Fastai.messages o = Some l ->
  heap w !! l = Some h ->
  fetch (FastaiStream.stream_request o (Some (h ++ [user_message prompt])))
    = Resolved response ->
  FastaiStream.ok response = true ->
  FastaiStream.response_body response = Some chunks ->
  join chunks = "data: " +:+ payload +:+ nl +:+ nl +:+ "data: [DONE]" +:+ nl +:+ rest ->
  no_newline payload = true ->
  payload <> "[DONE]" ->
  JSON_parse payload = Some data ->
  delta_content data = Some (JStr "Hi") ->
  let r := FastaiStream.stream JSON_parse fetch o prompt onMsg w in
  fst r = Returned tt /\
  delivered (trace (snd r)) =
    delivered (trace w) ++ [(onMsg, JStr "Hi", false); (onMsg, JStr "", true)] /\
  exists evs, trace (snd r) = trace w ++ evs ++ [EvReleaseLock].
Proof.
  intros Hl Hh Hfetch Hok Hbody Htext Hnl Hp Hparse Hdelta r. subst r.
  rewrite (stream_events o l prompt onMsg w h response chunks Hl Hh Hfetch Hok Hbody).
  simpl fst. simpl snd. split; [reflexivity|]. split.
  - simpl trace. rewrite delivered_app.
    change (delivered (EvFetch ?q :: ?t)) with (delivered t).
    rewrite delivered_app.
    assert (Hlines : lines_events JSON_parse onMsg (lines_of ("" +:+ join chunks)) =
                       (true, [EvOnMsg onMsg (JStr "Hi") false; EvOnMsg onMsg (JStr "") true])).
    { change ("" +:+ join chunks) with (join chunks).
      rewrite Htext, lines_of_frame_done, lines_events_frame_done by assumption.
      now rewrite (data_events_hi _ _ _ Hparse Hdelta). }
    rewrite chunks_delivered; [|reflexivity|now rewrite Hlines].
    rewrite Hlines. reflexivity.
  - simpl trace. eexists.
    change (EvFetch ?q :: ?t ++ [EvReleaseLock]) with ((EvFetch q :: t) ++ [EvReleaseLock]).
    reflexivity.
Qed.

End StreamClaim.

(** The double quote. *)
Definition dq : string := String "034"%char EmptyString.

(** The text of the payload of a delta frame that carries "Hi". *)
Definition hi_payload : string :=
  "{" +:+ dq +:+ "choices" +:+ dq +:+ ":[{" +:+ dq +:+ "delta" +:+ dq +:+ ":{"
      +:+ dq +:+ "content" +:+ dq +:+ ":" +:+ dq +:+ "Hi" +:+ dq +:+ "}}]}".

Definition hi_data : json :=
  JObj [("choices", JArr [JObj [("delta", JObj [("content", JStr "Hi")])]])].

(** A [JSON.parse] that knows that payload, and the empty object. *)
Definition parse_frames (s : string) : option json :=
  if String.eqb s hi_payload then Some hi_data else parse_braces s.

(** The body of the stream, cut inside the first frame and inside the
    sentinel; a third frame follows the sentinel. *)
Definition hi_chunks : list string :=
  ["data: " +:+ "{" +:+ dq +:+ "choi";
   "ces" +:+ dq +:+ ":[{" +:+ dq +:+ "delta" +:+ dq +:+ ":{"
      +:+ dq +:+ "content" +:+ dq +:+ ":" +:+ dq +:+ "Hi" +:+ dq +:+ "}}]}"
      +:+ nl +:+ nl +:+ "data: [DO";
   "NE]" +:+ nl +:+ nl +:+ "data: " +:+ hi_payload +:+ nl +:+ nl].

Definition streaming (chunks : list string) : Request -> promise FastaiStream.Response :=
  fun _ => Resolved {| FastaiStream.ok := true; FastaiStream.status := 200;
                       FastaiStream.response_body := Some chunks |}.

Lemma stream_delta_then_done_witness :
  let r := FastaiStream.stream parse_frames (streaming hi_chunks) (observing [] 7)
             "Say hi" 9 world_hi in
  fst r = Returned tt /\
  delivered (trace (snd r)) =
    delivered (trace world_hi) ++ [(9, JStr "Hi", false); (9, JStr "", true)] /\
  exists evs, trace (snd r) = trace world_hi ++ evs ++ [EvReleaseLock].
Proof.
  apply (stream_delta_then_done parse_frames (streaming hi_chunks) (observing [] 7)
           1%positive "Say hi" 9 world_hi [user_message "hi"]
           {| FastaiStream.ok := true; FastaiStream.status := 200;
              FastaiStream.response_body := Some hi_chunks |}
           hi_chunks hi_payload hi_data
           (nl +:+ "data: " +:+ hi_payload +:+ nl +:+ nl)).
  - reflexivity.
  - reflexivity.
  - reflexivity.
  - reflexivity.
  - reflexivity.
  - reflexivity.
  - reflexivity.
  - discriminate.
  - reflexivity.
  - reflexivity.
Defined.

(** The same run, evaluated: the reads, the two callbacks, the release. *)
Example stream_hi_run :
  trace (snd (FastaiStream.stream parse_frames (streaming hi_chunks) (observing [] 7)
                "Say hi" 9 world_hi)) =
    [EvFetch (FastaiStream.stream_request (observing [] 7)
                (Some [user_message "hi"; user_message "Say hi"]));
     EvRead; EvRead; EvOnMsg 9 (JStr "Hi") false; EvRead; EvOnMsg 9 (JStr "") true;
     EvReleaseLock].
Proof. vm_compute. reflexivity. Qed.

(** Without the newline that ends the sentinel line, the sentinel is not
    seen as such: the buffer is handed to the callback as the last
    message. *)
Example stream_unterminated_sentinel :
  delivered (trace (snd (FastaiStream.stream parse_frames (streaming ["data: [DONE]"])
                           (observing [] 7) "Say hi" 9 world_hi))) =
    [(9, JStr "data: [DONE]", true)].
Proof. vm_compute. reflexivity. Qed.

(** * Further properties *)

(** ** Endpoints *)

Lemma string_length_app (a b : string) :
  String.length (a +:+ b) = String.length a + String.length b.
Proof.
  induction a as [|x a IH]; [reflexivity|].
  change (S (String.length (a +:+ b)) = S (String.length a + String.length b)).
  now rewrite IH.
Qed.

Lemma slice_app (a b : string) : Js.slice (String.length a) (a +:+ b) = b.
Proof. induction a as [|x a IH]; [now destruct b|]. exact IH. Qed.

Lemma substring_app (a b : string) : String.substring 0 (String.length a) (a +:+ b) = a.
Proof.
  induction a as [|x a IH]; [now destruct b|].
  change (String x (String.substring 0 (String.length a) (a +:+ b)) = String x a).
  now rewrite IH.
Qed.

(** Removing a suffix that was just added gives the text back. *)
Lemma strip_suffix_app (suffix a : string) : Js.strip_suffix suffix (a +:+ suffix) = a.
Proof.
  unfold Js.strip_suffix, Js.endsWith. rewrite string_length_app.
  replace (String.length suffix <=? String.length a + String.length suffix)%nat
    with true by (symmetry; apply Nat.leb_le; lia).
  replace (String.length a + String.length suffix - String.length suffix)
    with (String.length a) by lia.
  rewrite slice_app, String.eqb_refl. apply substring_app.
Qed.

Lemma strip_suffix_none (suffix a : string) :
  Js.endsWith suffix a = false -> Js.strip_suffix suffix a = a.
Proof. intros H. unfold Js.strip_suffix. now rewrite H. Qed.

(** X1.  A base URL with one slash at its end and the same URL without
    it give [createOpenAI] of [src/fastai.ts] the same endpoint, the URL
    followed by [/chat/completions]. *)
Theorem createOpenAI_trailing_slash (env : Fastai.ProcessEnv) (base : string)
  (key model : option string) :
  base <> "" ->
  Js.endsWith "/" base = false ->
  let with_slash :=
    Fastai.createOpenAI env {| Fastai.opt_baseURL := Some (base +:+ "/");
                               Fastai.opt_apiKey := key; Fastai.opt_model := model |} in
  let without :=
    Fastai.createOpenAI env {| Fastai.opt_baseURL := Some base;
                               Fastai.opt_apiKey := key; Fastai.opt_model := model |} in
  Fastai.endpoint with_slash = base +:+ "/chat/completions" /\
  Fastai.endpoint without = base +:+ "/chat/completions" /\
  with_slash = without.
Proof.
  intros Hne Hslash.
  assert (Hor : forall s fallback, s <> "" ->
             Js.or_else (Js.or_opt (Some s) fallback) "https://api.openai.com/v1" = s).
  { intros s fallback Hs. apply String.eqb_neq in Hs.
    unfold Js.or_opt. rewrite Hs. unfold Js.or_else. now rewrite Hs. }
  assert (Hne' : base +:+ "/" <> "") by (destruct base; discriminate).
  assert (H1 := Hor (base +:+ "/") (Fastai.OPENAI_BASE_URL env) Hne').
  assert (H2 := Hor base (Fastai.OPENAI_BASE_URL env) Hne).
  clear Hor.
  cbv beta zeta iota delta [Fastai.createOpenAI Fastai.opt_baseURL Fastai.opt_apiKey
                            Fastai.opt_model].
  rewrite H1, H2.
  unfold Fastai.set_baseURL. rewrite strip_suffix_app, strip_suffix_none by exact Hslash.
  repeat split.
Qed.

Lemma createOpenAI_trailing_slash_witness :
  let with_slash :=
    Fastai.createOpenAI env_empty {| Fastai.opt_baseURL := Some ("http://host/v1" +:+ "/");
                                     Fastai.opt_apiKey := Some "k";
                                     Fastai.opt_model := None |} in
  let without :=
    Fastai.createOpenAI env_empty {| Fastai.opt_baseURL := Some "http://host/v1";
                                     Fastai.opt_apiKey := Some "k";
                                     Fastai.opt_model := None |} in
  Fastai.endpoint with_slash = "http://host/v1" +:+ "/chat/completions" /\
  Fastai.endpoint without = "http://host/v1" +:+ "/chat/completions" /\
  with_slash = without.
Proof.
  apply (createOpenAI_trailing_slash env_empty "http://host/v1" (Some "k") None).
  - discriminate.
  - reflexivity.
Defined.

(** The two calling conventions of the function-style build name the same
    endpoint, key and model. *)
Lemma FastaiClient_request_of_conventions (c : FastaiClient.OpenAIClient)
  (modelName : string) (history : list ChatMessage) (tools : option json) :
  FastaiClient.request_of (FastaiClient.ByModelRef (FastaiClient.model_ref c modelName))
                          history tools =
  FastaiClient.request_of (FastaiClient.ByClient c modelName) history tools.
Proof.
  unfold FastaiClient.request_of, FastaiClient.endpoint_of. simpl.
  now rewrite strip_suffix_app.
Qed.

Section Conventions.

Variable JSON_parse : string -> option json.
Variable fetch : transport.

Lemma FastaiClient_round_conventions (c : FastaiClient.OpenAIClient)
  (modelName : string) (messages : loc) (tools : option FastaiClient.ToolsInput)
  (observer : option callback) (toolMap : list (string * Tool)) (l : loc) (w : world) :
  FastaiClient.round JSON_parse fetch
    {| FastaiClient.gt_target := FastaiClient.ByModelRef (FastaiClient.model_ref c modelName);
       FastaiClient.gt_messages := messages; FastaiClient.gt_tools := tools;
       FastaiClient.gt_onToolCall := observer |} toolMap l w =
  FastaiClient.round JSON_parse fetch
    {| FastaiClient.gt_target := FastaiClient.ByClient c modelName;
       FastaiClient.gt_messages := messages; FastaiClient.gt_tools := tools;
       FastaiClient.gt_onToolCall := observer |} toolMap l w.
Proof.
  unfold FastaiClient.round, bind.
  destruct (read l w) as [[history|e|] w1]; try reflexivity.
  simpl FastaiClient.gt_target. now rewrite FastaiClient_request_of_conventions.
Qed.

Lemma FastaiClient_loop_conventions (n : nat) (c : FastaiClient.OpenAIClient)
  (modelName : string) (messages : loc) (tools : option FastaiClient.ToolsInput)
  (observer : option callback) (toolMap : list (string * Tool)) (l : loc) (w : world) :
  FastaiClient.loop JSON_parse fetch n
    {| FastaiClient.gt_target := FastaiClient.ByModelRef (FastaiClient.model_ref c modelName);
       FastaiClient.gt_messages := messages; FastaiClient.gt_tools := tools;
       FastaiClient.gt_onToolCall := observer |} toolMap l w =
  FastaiClient.loop JSON_parse fetch n
    {| FastaiClient.gt_target := FastaiClient.ByClient c modelName;
       FastaiClient.gt_messages := messages; FastaiClient.gt_tools := tools;
       FastaiClient.gt_onToolCall := observer |} toolMap l w.
Proof.
  revert w. induction n as [|n IH]; intros w; [reflexivity|].
  simpl. unfold bind. rewrite FastaiClient_round_conventions.
  destruct (FastaiClient.round _ _ _ _ _ _) as [[[text|]|e|] w2]; try reflexivity.
  apply IH.
Qed.

(** X2.  In the function-style build, [generateText] called with a client
    and a model name and [generateText] called with the model reference
    that the client builds for that name do the same thing: same requests,
    same result, same effects. *)
Theorem generateText_conventions_agree (n : nat) (c : FastaiClient.OpenAIClient)
  (modelName : string) (messages : loc) (tools : option FastaiClient.ToolsInput)
  (observer : option callback) (w : world) :
  FastaiClient.generateText JSON_parse fetch n
    {| FastaiClient.gt_target := FastaiClient.ByModelRef (FastaiClient.model_ref c modelName);
       FastaiClient.gt_messages := messages; FastaiClient.gt_tools := tools;
       FastaiClient.gt_onToolCall := observer |} w =
  FastaiClient.generateText JSON_parse fetch n
    {| FastaiClient.gt_target := FastaiClient.ByClient c modelName;
       FastaiClient.gt_messages := messages; FastaiClient.gt_tools := tools;
       FastaiClient.gt_onToolCall := observer |} w.
Proof.
  unfold FastaiClient.generateText. simpl FastaiClient.gt_messages.
  simpl FastaiClient.gt_tools. unfold bind.
  destruct (read messages w) as [[h|e|] w1]; try reflexivity.
  destruct (alloc h w1) as [[l|e|] w2]; try reflexivity.
  apply FastaiClient_loop_conventions.
Qed.

End Conventions.

(** ** The tool map of the function-style build *)

Lemma map_get_set_eq (k : string) (t : Tool) (m : list (string * Tool)) :
  FastaiClient.map_get k (FastaiClient.map_set k t m) = Some t.
Proof.
  induction m as [|[k' t'] m IH]; simpl.
  - now rewrite String.eqb_refl.
  - destruct (String.eqb k' k) eqn:E; simpl.
    + now rewrite String.eqb_refl.
    + now rewrite E.
Qed.

Lemma map_get_set_ne (k k' : string) (t : Tool) (m : list (string * Tool)) :
  k' <> k ->
  FastaiClient.map_get k' (FastaiClient.map_set k t m) = FastaiClient.map_get k' m.
Proof.
  intros Hne. induction m as [|[k0 t0] m IH]; simpl.
  - destruct (String.eqb_spec k k'); [congruence|reflexivity].
  - destruct (String.eqb_spec k0 k) as [->|E]; simpl.
    + destruct (String.eqb_spec k k'); [congruence|reflexivity].
    + now rewrite IH.
Qed.

Lemma map_set_keys (k : string) (t : Tool) (m : list (string * Tool)) :
  map fst (FastaiClient.map_set k t m) =
    if existsb (String.eqb k) (map fst m) then map fst m else map fst m ++ [k].
Proof.
  induction m as [|[k0 t0] m IH]; [reflexivity|]. simpl.
  rewrite (String.eqb_sym k k0).
  destruct (String.eqb_spec k0 k) as [->|E]; simpl; [reflexivity|].
  rewrite IH. now destruct (existsb _ _).
Qed.

Lemma map_set_NoDup (k : string) (t : Tool) (m : list (string * Tool)) :
  NoDup (map fst m) -> NoDup (map fst (FastaiClient.map_set k t m)).
Proof.
  intros H. rewrite map_set_keys.
  destruct (existsb (String.eqb k) (map fst m)) eqn:E; [exact H|].
  apply NoDup_app. split; [exact H|]. split; [|apply NoDup_singleton].
  intros x Hx Hk. apply list_elem_of_singleton in Hk. subst x.
  assert (existsb (String.eqb k) (map fst m) = true); [|congruence].
  apply existsb_exists. exists k. split; [|apply String.eqb_refl].
  now apply list_elem_of_In.
Qed.

Lemma fold_left_snoc {A B : Type} (f : A -> B -> A) (l : list B) (x : B) (a : A) :
  fold_left f (l ++ [x]) a = f (fold_left f l a) x.
Proof. now rewrite fold_left_app. Qed.

(** X3.  From an array of tools the map keeps one entry per name, and a
    name given to several tools belongs to the last of them: that one is
    looked up, the others are unreachable. *)
Theorem toolMap_last_wins (ts : list Tool) (k : string) :
  FastaiClient.map_get k (FastaiClient.toolMap_of (Some (FastaiClient.ToolsArray ts))) =
    find (fun t => String.eqb (name t) k) (rev ts) /\
  NoDup (map fst (FastaiClient.toolMap_of (Some (FastaiClient.ToolsArray ts)))) /\
  (forall key t, In (key, t) (FastaiClient.toolMap_of (Some (FastaiClient.ToolsArray ts))) ->
                 name t = key /\ In t ts).
Proof.
  unfold FastaiClient.toolMap_of.
  induction ts as [|t ts IH] using rev_ind.
  - repeat split; [constructor | destruct H | destruct H].
  - destruct IH as (Hget & Hnd & Hin).
    rewrite fold_left_snoc, rev_app_distr. simpl rev. simpl app.
    split; [|split].
    + simpl find. destruct (String.eqb_spec (name t) k) as [->|E].
      * apply map_get_set_eq.
      * rewrite map_get_set_ne by congruence. exact Hget.
    + now apply map_set_NoDup.
    + intros key t0 H.
      assert (Hcases : forall m, In (key, t0) (FastaiClient.map_set (name t) t m) ->
                                 (key, t0) = (name t, t) \/ In (key, t0) m).
      { induction m as [|[k1 t1] m IHm]; simpl.
        - intros [E|[]]; left; now rewrite E.
        - destruct (String.eqb k1 (name t)).
          + intros [E|H']; [left; now rewrite E | right; now right].
          + intros [E|H']; [right; now left|].
            destruct (IHm H') as [E|H'']; [now left | right; now right]. }
      destruct (Hcases _ H) as [E|H'].
      * injection E as -> ->. split; [reflexivity|]. apply in_or_app. right. now left.
      * destruct (Hin _ _ H') as [Hn Ht]. split; [exact Hn|].
        apply in_or_app. now left.
Qed.

Lemma map_get_none (k : string) (m : list (string * Tool)) :
  ~ In k (map fst m) -> FastaiClient.map_get k m = None.
Proof.
  induction m as [|[k0 t0] m IH]; [reflexivity|]. simpl. intros H.
  destruct (String.eqb_spec k0 k) as [->|E]; [tauto|]. apply IH. tauto.
Qed.

Lemma toolMap_of_record (entries : list (string * Tool)) :
  NoDup (map fst entries) ->
  FastaiClient.toolMap_of (Some (FastaiClient.ToolsRecord entries)) = entries.
Proof.
  unfold FastaiClient.toolMap_of.
  induction entries as [|[k t] es IH] using rev_ind; [reflexivity|].
  rewrite map_app in *. intros Hnd. apply NoDup_app in Hnd as (Hes & Hk & _).
  rewrite fold_left_snoc, IH by exact Hes. simpl.
  assert (Hnot : ~ In k (map fst es)).
  { intros Hin. apply (Hk k); [now apply list_elem_of_In | now left]. }
  clear IH Hes Hk. induction es as [|[k0 t0] es IH]; [reflexivity|].
  simpl in *. destruct (String.eqb_spec k0 k) as [->|E]; [tauto|].
  rewrite IH by tauto. reflexivity.
Qed.

Section RecordTools.

Variable JSON_parse : string -> option json.
Variable fetch : transport.

(** X4.  With tools given as an object, the key is what a call is looked
    up by, and the tool's own [name] is what the service is told.  A tool
    filed under a key that is not its name is advertised and cannot be
    called: a call by its name ends [generateText] with the tool-not-found
    error. *)
Theorem record_key_is_the_lookup_name (n : nat)
  (options : FastaiClient.GenerateTextOptions) (w : world) (h : list ChatMessage)
  (res : ChatRespose) (reply : ChatMessage) (call : ToolCall) (rest : list ToolCall)
  (entries : list (string * Tool)) (key : string) (t : Tool) :
  FastaiClient.gt_tools options = Some (FastaiClient.ToolsRecord entries) ->
  NoDup (map fst entries) ->
  In (key, t) entries ->
  fn_name call = name t ->
  ~ In (name t) (map fst entries) ->
  heap w !! FastaiClient.gt_messages options = Some h ->
  fetch (requests w)
        (FastaiClient.request_of (FastaiClient.gt_target options) h
           (FastaiClient.toolsJsonSchema_of entries)) = Resolved res ->
  first_message res = Some reply ->
  tool_calls reply = Some (call :: rest) ->
  FastaiClient.toolsJsonSchema_of entries
    = Some (JArr (map (fun e => tool_descriptor (snd e)) entries)) /\
  In (tool_descriptor t) (map (fun e => tool_descriptor (snd e)) entries) /\
  fst (FastaiClient.generateText JSON_parse fetch (S n) options w)
    = Threw (ToolNotFoundError (name t)).
Proof.
  intros Htools Hnd Hin Hname Hnot Hh Hfetch Hfirst Hcalls.
  split; [|split].
  - destruct entries; [destruct Hin | reflexivity].
  - apply in_map_iff. exists (key, t). now split.
  - unfold FastaiClient.generateText. rewrite Htools, toolMap_of_record by exact Hnd.
    unfold bind at 1. rewrite (read_ok _ _ _ Hh).
    unfold bind at 1. unfold alloc.
    set (l := fresh (dom (heap w))).
    set (w1 := {| heap := <[l:=h]> (heap w); trace := trace w; requests := requests w |}).
    destruct (FastaiClient_round_observer JSON_parse fetch options entries l w1 h res reply
                (call :: rest)) as (evs & _ & _ & _ & Hunknown);
      [apply lookup_insert_eq | exact Hfetch | exact Hfirst | exact Hcalls | discriminate |].
    specialize (Hunknown [] call rest eq_refl ltac:(constructor)).
    rewrite Hname in Hunknown. specialize (Hunknown (map_get_none _ _ Hnot)).
    simpl FastaiClient.loop. unfold bind.
    destruct (FastaiClient.round JSON_parse fetch options entries l w1) as [out w2].
    simpl in Hunknown. now rewrite Hunknown.
Qed.

End RecordTools.

(** A tool named [get_weather], filed under the key [weather]. *)
Definition get_weather : Tool :=
  {| name := "get_weather"; description := None; parameters := any_schema;
     execute := fun _ => Resolved "sunny" |}.

Definition client_key : FastaiClient.OpenAIClient :=
  {| FastaiClient.baseURL := "http://host/v1"; FastaiClient.apiKey := "k" |}.

Definition options_record (entries : list (string * Tool))
  : FastaiClient.GenerateTextOptions :=
  {| FastaiClient.gt_target := FastaiClient.ByClient client_key "m";
     FastaiClient.gt_messages := 1%positive;
     FastaiClient.gt_tools := Some (FastaiClient.ToolsRecord entries);
     FastaiClient.gt_onToolCall := None |}.

Lemma record_key_is_the_lookup_name_witness :
  FastaiClient.toolsJsonSchema_of [("weather", get_weather)]
    = Some (JArr (map (fun e => tool_descriptor (snd e)) [("weather", get_weather)])) /\
  In (tool_descriptor get_weather)
     (map (fun e => tool_descriptor (snd e)) [("weather", get_weather)]) /\
  fst (FastaiClient.generateText parse_braces
         (scripted (asks [call_to "c1" "get_weather"]) (says "done")) 2
         (options_record [("weather", get_weather)]) world_hi)
    = Threw (ToolNotFoundError (name get_weather)).
Proof.
  apply (record_key_is_the_lookup_name parse_braces
           (scripted (asks [call_to "c1" "get_weather"]) (says "done")) 1
           (options_record [("weather", get_weather)]) world_hi [user_message "hi"]
           {| choices := Some [Some (asks [call_to "c1" "get_weather"])] |}
           (asks [call_to "c1" "get_weather"]) (call_to "c1" "get_weather") []
           [("weather", get_weather)] "weather" get_weather).
  - reflexivity.
  - apply NoDup_singleton.
  - left. reflexivity.
  - reflexivity.
  - intros [H|[]]. discriminate H.
  - reflexivity.
  - reflexivity.
  - reflexivity.
  - reflexivity.
Defined.

(** ** The loop of [src/fastai.ts], further *)

Lemma tool_messages_length (JSON_parse : string -> option json)
  (lookup : string -> option Tool) (calls : list ToolCall) :
  Forall (fun c => is_Some (answer JSON_parse lookup c)) calls ->
  length (tool_messages JSON_parse lookup calls) = length calls.
Proof.
  induction 1 as [|c rest [[[t a] r] Hc] _ IH]; [reflexivity|].
  simpl. rewrite Hc. simpl. now rewrite IH.
Qed.

(** [m] changes no array except by adding at its end. *)
Definition only_appends {A : Type} (m : M A) : Prop :=
  forall l w h, heap w !! l = Some h ->
                exists more, heap (snd (m w)) !! l = Some (h ++ more).

Lemma only_appends_still {A : Type} (m : M A) :
  (forall w, heap (snd (m w)) = heap w) -> only_appends m.
Proof. intros H l w h Hh. exists []. now rewrite H, app_nil_r. Qed.

Lemma only_appends_ret {A : Type} (a : A) : only_appends (ret a).
Proof. now apply only_appends_still. Qed.

Lemma only_appends_throw {A : Type} (e : exn) : only_appends (@throw A e).
Proof. now apply only_appends_still. Qed.

Lemma only_appends_pending {A : Type} : only_appends (@pending A).
Proof. now apply only_appends_still. Qed.

Lemma only_appends_emit (e : event) : only_appends (emit e).
Proof. now apply only_appends_still. Qed.

Lemma only_appends_await {A : Type} (p : promise A) : only_appends (await p).
Proof. destruct p; [apply only_appends_ret | apply only_appends_throw]. Qed.

Lemma only_appends_read (l : loc) : only_appends (read l).
Proof.
  apply only_appends_still. intros w. unfold read. now destruct (heap w !! l).
Qed.

Lemma only_appends_post (fetch : transport) (r : Request) : only_appends (post fetch r).
Proof.
  apply only_appends_still. intros w. unfold post.
  now destruct (fetch (requests w) r).
Qed.

Lemma only_appends_push (l : loc) (m : ChatMessage) : only_appends (push l m).
Proof.
  intros l' w h Hh. unfold push.
  destruct (heap w !! l) as [a|] eqn:Ha; simpl.
  - destruct (decide (l = l')) as [->|Hne].
    + exists [m]. rewrite lookup_insert_eq. congruence.
    + exists []. rewrite lookup_insert_ne, app_nil_r by exact Hne. exact Hh.
  - exists []. now rewrite app_nil_r.
Qed.

Lemma only_appends_bind {A B : Type} (m : M A) (k : A -> M B) :
  only_appends m -> (forall a, only_appends (k a)) -> only_appends (bind m k).
Proof.
  intros Hm Hk l w h Hh. unfold bind. destruct (Hm l w h Hh) as [m1 H1].
  destruct (m w) as [[a|e|] w1]; simpl in H1; try (now exists m1).
  destruct (Hk a l w1 _ H1) as [m2 H2]. exists (m1 ++ m2).
  now rewrite H2, app_assoc.
Qed.

Lemma only_appends_notify (cb : callback) (names : list string) :
  only_appends (notify cb names).
Proof.
  induction names; simpl; [apply only_appends_ret|].
  apply only_appends_bind; [apply only_appends_emit | intros _; exact IHnames].
Qed.

Lemma only_appends_push_message (o : Fastai.OpenAI) (m : ChatMessage) :
  only_appends (Fastai.push_message o m).
Proof.
  unfold Fastai.push_message.
  destruct (Fastai.messages o); [apply only_appends_push | apply only_appends_throw].
Qed.

Section FastaiFurther.

Variable JSON_parse : string -> option json.
Variable fetch : transport.

Lemma only_appends_for_calls (o : Fastai.OpenAI) (g : bool) (calls : list ToolCall) :
  only_appends (Fastai.for_calls JSON_parse o g calls).
Proof.
  induction calls as [|call rest IH]; simpl; [apply only_appends_ret|].
  apply only_appends_bind; [apply only_appends_emit|intros _].
  destruct (Fastai.find_tool o (fn_name call)) as [t|]; [|apply only_appends_throw].
  destruct g; [apply only_appends_ret|].
  destruct (JSON_parse _) as [raw|]; [|apply only_appends_throw].
  destruct (parse _ raw) as [args|]; [|apply only_appends_throw].
  apply only_appends_bind; [apply only_appends_emit|intros _].
  apply only_appends_bind; [apply only_appends_await|intros result].
  apply only_appends_bind; [apply only_appends_push_message|intros _; exact IH].
Qed.

Lemma only_appends_round (o : Fastai.OpenAI) (g : bool) :
  only_appends (Fastai.round JSON_parse fetch o g).
Proof.
  unfold Fastai.round. apply only_appends_bind.
  - unfold Fastai.history_of. destruct (Fastai.messages o); [|apply only_appends_ret].
    apply only_appends_bind; [apply only_appends_read | intros; apply only_appends_ret].
  - intros history. apply only_appends_bind; [apply only_appends_post|].
    intros res. destruct (first_message res) as [reply|]; [|apply only_appends_throw].
    apply only_appends_bind; [apply only_appends_push_message|intros _].
    destruct (tool_calls reply) as [[|c calls]|]; try apply only_appends_ret.
    apply only_appends_bind; [|intros _; apply only_appends_for_calls].
    destruct (Fastai.onToolCall o); [apply only_appends_notify | apply only_appends_ret].
Qed.

Lemma only_appends_loop (n : nat) (o : Fastai.OpenAI) (g : bool) :
  only_appends (Fastai.loop JSON_parse fetch n o g).
Proof.
  induction n as [|n IH]; simpl; [apply only_appends_pending|].
  apply only_appends_bind; [apply only_appends_round|].
  intros [text|]; [apply only_appends_ret | exact IH].
Qed.

Lemma only_appends_chat (n : nat) (o : Fastai.OpenAI) (msg : option string) (g : bool) :
  only_appends (Fastai.chat JSON_parse fetch n o msg g).
Proof.
  unfold Fastai.chat. apply only_appends_bind; [|intros _; apply only_appends_loop].
  destruct msg as [[|c s]|]; try apply only_appends_ret.
  apply only_appends_push_message.
Qed.

(** X6.  Whatever the transport answers and the tools do, and however
    the call ends, [generateText] and [generateObject] of [src/fastai.ts]
    never remove or rewrite a message: every array holds afterwards what
    it held before, followed by what was pushed. *)
Theorem history_is_append_only (env : Fastai.ProcessEnv) (n : nat)
  (text_options : Fastai.GenerateTextOptions)
  (object_options : Fastai.GenerateObjectOptions)
  (l : loc) (w : world) (h : list ChatMessage) :
  heap w !! l = Some h ->
  (exists more,
      heap (snd (Fastai.generateText JSON_parse fetch env n text_options w)) !! l
        = Some (h ++ more)) /\
  (exists more,
      heap (snd (Fastai.generateObject JSON_parse fetch env n object_options w)) !! l
        = Some (h ++ more)).
Proof.
  intros Hh. split.
  - now apply (only_appends_chat n _ None false l w h).
  - revert l w h Hh. change (only_appends
      (Fastai.generateObject JSON_parse fetch env n object_options)).
    unfold Fastai.generateObject.
    apply only_appends_bind; [apply only_appends_read|intros current].
    apply only_appends_bind.
    { destruct (find _ current); [apply only_appends_ret | apply only_appends_push]. }
    intros _. apply only_appends_bind; [apply only_appends_chat|].
    intros [|c res]; [apply only_appends_throw|].
    destruct (JSON_parse _) as [obj|].
    + destruct (parse _ obj); [apply only_appends_ret|].
      apply only_appends_bind; [apply only_appends_emit | intros; apply only_appends_throw].
    + apply only_appends_bind; [apply only_appends_emit | intros; apply only_appends_throw].
Qed.

(** X5.  The loop has no cap on its turns.  With a transport that
    answers every request with the same batch of answered tool calls,
    [generateText] is still looping after any number of turns: it has sent
    one request per turn, and its history has grown by the reply and one
    result per call each turn. *)
Theorem loop_has_no_cap (env : Fastai.ProcessEnv) (n : nat)
  (options : Fastai.GenerateTextOptions) (res : ChatRespose) (reply : ChatMessage)
  (calls : list ToolCall) (w : world) (h : list ChatMessage) :
  (forall k q, fetch k q = Resolved res) ->
  first_message res = Some reply ->
  tool_calls reply = Some calls ->
  calls <> [] ->
  Forall (fun c => is_Some (answer JSON_parse
                              (Fastai.find_tool (conversation env options)) c)) calls ->
  heap w !! Fastai.gt_messages options = Some h ->
  let r := Fastai.generateText JSON_parse fetch env n options w in
  fst r = Pending /\
  requests (snd r) = requests w + n /\
  exists h', heap (snd r) !! Fastai.gt_messages options = Some h' /\
             length h' = length h + n * S (length calls).
Proof.
  intros Hfetch Hfirst Hcalls Hne Hall Hh r. subst r.
  rewrite Fastai_generateText_unfold.
  revert w h Hh. induction n as [|n IH]; intros w h Hh.
  - simpl. split; [reflexivity|]. split; [lia|]. exists h. split; [exact Hh|lia].
  - simpl Fastai.loop. unfold bind.
    erewrite Fastai_round_answered;
      [|apply conversation_messages|exact Hh|apply Hfetch|exact Hfirst|exact Hcalls
       |exact Hne|exact Hall].
    match goal with |- context [Fastai.loop _ _ _ _ _ ?w1] => set (w' := w1) end.
    destruct (IH w' (h ++ reply :: tool_messages JSON_parse
                (Fastai.find_tool (conversation env options)) calls))
      as (Hp & Hr & h' & Hh' & Hlen); [subst w'; simpl; apply lookup_insert_eq|].
    split; [exact Hp|]. split; [rewrite Hr; subst w'; simpl; lia|].
    exists h'. split; [exact Hh'|].
    rewrite Hlen, length_app. simpl. rewrite tool_messages_length by exact Hall. lia.
Qed.

(** X7.  When the first response carries no message (no [choices], an
    empty list, or a first choice without [message]), [generateText] fails
    with "No assistant message returned" after its one request, and
    nothing has been pushed. *)
Theorem missing_message_is_fatal (env : Fastai.ProcessEnv) (n : nat)
  (options : Fastai.GenerateTextOptions) (w : world) (h : list ChatMessage)
  (res : ChatRespose) :
  heap w !! Fastai.gt_messages options = Some h ->
  fetch (requests w) (Fastai.chat_request (conversation env options) (Some h))
    = Resolved res ->
  first_message res = None ->
  Fastai.generateText JSON_parse fetch env (S n) options w =
    (Threw (Error "No assistant message returned"),
     evolve w (heap w)
            [EvFetch (Fastai.chat_request (conversation env options) (Some h))] 1).
Proof.
  intros Hh Hfetch Hfirst.
  rewrite Fastai_generateText_unfold. simpl Fastai.loop.
  unfold bind at 1. unfold Fastai.round, Fastai.history_of.
  rewrite conversation_messages.
  unfold bind at 1. unfold bind at 1. rewrite (read_ok _ _ _ Hh).
  unfold ret at 1. unfold bind at 1. rewrite (post_ok _ _ _ _ Hfetch), Hfirst.
  reflexivity.
Qed.

(** X8.  When a call names an unregistered tool and the calls before it
    are answered, those earlier tools have been executed and their results
    pushed by the time [generateText] fails; the calls after it are
    neither looked up nor executed. *)
Theorem unknown_tool_leaves_earlier_results (env : Fastai.ProcessEnv) (n : nat)
  (options : Fastai.GenerateTextOptions) (w : world)
  (h : list ChatMessage) (res : ChatRespose) (reply : ChatMessage)
  (before after : list ToolCall) (call : ToolCall) :
  heap w !! Fastai.gt_messages options = Some h ->
  fetch (requests w) (Fastai.chat_request (conversation env options) (Some h))
    = Resolved res ->
  first_message res = Some reply ->
  tool_calls reply = Some (before ++ call :: after) ->
  Forall (fun c => is_Some (answer JSON_parse
                              (Fastai.find_tool (conversation env options)) c)) before ->
  Fastai.find_tool (conversation env options) (fn_name call) = None ->
  let lookup := Fastai.find_tool (conversation env options) in
  snd (Fastai.generateText JSON_parse fetch env (S n) options w) =
    evolve w
      (<[Fastai.gt_messages options :=
           h ++ reply :: tool_messages JSON_parse lookup before]> (heap w))
      (EvFetch (Fastai.chat_request (conversation env options) (Some h))
         :: notifications (Fastai.onToolCall (conversation env options))
                          (before ++ call :: after)
         ++ tool_events JSON_parse lookup before ++ [EvLookup (fn_name call)]) 1.
Proof.
  intros Hh Hfetch Hfirst Hcalls Hall Hnone lookup. subst lookup.
  rewrite Fastai_generateText_unfold. simpl Fastai.loop. unfold bind.
  erewrite Fastai_round_calls;
    [|apply conversation_messages|exact Hh|exact Hfetch|exact Hfirst|exact Hcalls
     |now destruct before].
  erewrite Fastai_for_calls_first_unknown;
    [|apply conversation_messages|exact Hall|exact Hnone|simpl; apply lookup_insert_eq].
  simpl snd. rewrite evolve_evolve. simpl heap.
  rewrite insert_insert_eq, <- !app_assoc. reflexivity.
Qed.

End FastaiFurther.

Section FastaiChat.

Variable JSON_parse : string -> option json.
Variable fetch : transport.

(** X9.  [chat(msg)] puts [msg] at the end of the history as a user
    message before its first request, unless [msg] is missing or empty:
    then the first request carries the history as it is. *)
Theorem chat_pushes_message_first (n : nat) (o : Fastai.OpenAI) (msg : option string)
  (g : bool) (l : loc) (w : world) (h : list ChatMessage) :
  Fastai.messages o = Some l ->
  heap w !! l = Some h ->
  let pushed :=
    match msg with
    | Some (String c s) => [user_message (String c s)]
    | _ => []
    end in
  exists evs,
    trace (snd (Fastai.chat JSON_parse fetch (S n) o msg g w)) =
      trace w ++ EvFetch (Fastai.chat_request o (Some (h ++ pushed))) :: evs.
Proof.
  intros Hl Hh pushed. unfold Fastai.chat, bind at 1.
  destruct msg as [[|c s]|]; subst pushed.
  - unfold ret at 1. rewrite app_nil_r.
    now apply Fastai_loop_first_request with (l := l).
  - unfold Fastai.push_message. rewrite Hl. erewrite push_ok by exact Hh.
    destruct (Fastai_loop_first_request JSON_parse fetch n o g l
                (evolve w (<[l:=h ++ [user_message (String c s)]]> (heap w)) [] 0)
                (h ++ [user_message (String c s)]) Hl) as [evs Hevs];
      [simpl; apply lookup_insert_eq|].
    exists evs. rewrite Hevs. simpl. now rewrite app_nil_r.
  - unfold ret at 1. rewrite app_nil_r.
    now apply Fastai_loop_first_request with (l := l).
Qed.

(** X10.  On a client whose [messages] was never assigned, as
    [createOpenAI] returns it, [chat] fails with a TypeError: at once and
    without any request when a message is passed; after its first request,
    whose body has no [messages] field, when none is passed and the
    service answers with a message. *)
Theorem chat_without_messages (n : nat) (o : Fastai.OpenAI) (g : bool) (w : world) :
  Fastai.messages o = None ->
  (forall c s,
      Fastai.chat JSON_parse fetch (S n) o (Some (String c s)) g w = (Threw TypeError, w)) /\
  (forall res reply,
      fetch (requests w) (Fastai.chat_request o None) = Resolved res ->
      first_message res = Some reply ->
      Fastai.chat JSON_parse fetch (S n) o None g w =
        (Threw TypeError, evolve w (heap w) [EvFetch (Fastai.chat_request o None)] 1)) /\
  keys (body (Fastai.chat_request o None)) = ["model"; "tools"].
Proof.
  intros Hl. split; [|split].
  - intros c s. unfold Fastai.chat, bind, Fastai.push_message. now rewrite Hl.
  - intros res reply Hfetch Hfirst.
    unfold Fastai.chat. unfold bind at 1. unfold ret at 1.
    simpl Fastai.loop. unfold bind at 1. unfold Fastai.round, Fastai.history_of.
    rewrite Hl. unfold bind at 1. unfold ret at 1.
    unfold bind at 1. rewrite (post_ok _ _ _ _ Hfetch), Hfirst.
    unfold bind at 1. unfold Fastai.push_message. rewrite Hl. reflexivity.
  - reflexivity.
Qed.

End FastaiChat.

(** A transport that gives the same answer to every request. *)
Definition always (m : ChatMessage) : transport := fun _ _ => respond m.

Lemma echo_answered (o : Fastai.OpenAI) :
  Fastai.find_tool o "echo" = Some echo ->
  is_Some (answer parse_braces (Fastai.find_tool o) (call_to "c1" "echo")).
Proof. intros H. unfold answer. simpl. rewrite H. now eexists. Qed.

Lemma loop_has_no_cap_witness :
  let options := options_hi (Some [echo]) None in
  let r := Fastai.generateText parse_braces (always (asks [call_to "c1" "echo"]))
             env_empty 3 options world_hi in
  fst r = Pending /\
  requests (snd r) = requests world_hi + 3 /\
  exists h', heap (snd r) !! Fastai.gt_messages options = Some h' /\
             length h' = length [user_message "hi"] + 3 * S (length [call_to "c1" "echo"]).
Proof.
  apply (loop_has_no_cap parse_braces (always (asks [call_to "c1" "echo"])) env_empty 3
           (options_hi (Some [echo]) None)
           {| choices := Some [Some (asks [call_to "c1" "echo"])] |}
           (asks [call_to "c1" "echo"]) [call_to "c1" "echo"] world_hi
           [user_message "hi"]).
  - reflexivity.
  - reflexivity.
  - reflexivity.
  - discriminate.
  - apply List.Forall_cons; [|apply List.Forall_nil]. now apply echo_answered.
  - reflexivity.
Defined.

Lemma history_is_append_only_witness :
  (exists more,
      heap (snd (Fastai.generateText parse_braces
                   (scripted (asks [call_to "c1" "echo"]) (says "done")) env_empty 2
                   (options_hi (Some [echo]) None) world_hi)) !! 1%positive
        = Some ([user_message "hi"] ++ more)) /\
  (exists more,
      heap (snd (Fastai.generateObject parse_braces
                   (scripted (asks [call_to "c1" "echo"]) (says "done")) env_empty 2
                   (options_object any_schema) world_hi)) !! 1%positive
        = Some ([user_message "hi"] ++ more)).
Proof.
  apply (history_is_append_only parse_braces
           (scripted (asks [call_to "c1" "echo"]) (says "done")) env_empty 2
           (options_hi (Some [echo]) None) (options_object any_schema)
           1%positive world_hi [user_message "hi"]).
  reflexivity.
Defined.

Lemma missing_message_is_fatal_witness :
  Fastai.generateText parse_braces (fun _ _ => Resolved {| choices := Some [] |})
    env_empty 1 (options_hi None None) world_hi =
    (Threw (Error "No assistant message returned"),
     evolve world_hi (heap world_hi)
            [EvFetch (Fastai.chat_request (conversation env_empty (options_hi None None))
                        (Some [user_message "hi"]))] 1).
Proof.
  apply (missing_message_is_fatal parse_braces
           (fun _ _ => Resolved {| choices := Some [] |}) env_empty 0
           (options_hi None None) world_hi [user_message "hi"] {| choices := Some [] |}).
  - reflexivity.
  - reflexivity.
  - reflexivity.
Defined.

Lemma unknown_tool_leaves_earlier_results_witness :
  let calls := [call_to "c1" "echo"; call_to "c2" "ghost"; call_to "c3" "echo"] in
  let options := options_hi (Some [echo]) None in
  let lookup := Fastai.find_tool (conversation env_empty options) in
  snd (Fastai.generateText parse_braces (scripted (asks calls) (says "done"))
         env_empty 2 options world_hi) =
    evolve world_hi
      (<[Fastai.gt_messages options :=
           [user_message "hi"] ++ asks calls
             :: tool_messages parse_braces lookup [call_to "c1" "echo"]]> (heap world_hi))
      (EvFetch (Fastai.chat_request (conversation env_empty options)
                  (Some [user_message "hi"]))
         :: notifications (Fastai.onToolCall (conversation env_empty options))
                          ([call_to "c1" "echo"] ++ call_to "c2" "ghost"
                             :: [call_to "c3" "echo"])
         ++ tool_events parse_braces lookup [call_to "c1" "echo"]
         ++ [EvLookup (fn_name (call_to "c2" "ghost"))]) 1.
Proof.
  apply (unknown_tool_leaves_earlier_results parse_braces
           (scripted (asks [call_to "c1" "echo"; call_to "c2" "ghost"; call_to "c3" "echo"])
                     (says "done"))
           env_empty 1 (options_hi (Some [echo]) None) world_hi [user_message "hi"]
           {| choices := Some [Some (asks [call_to "c1" "echo"; call_to "c2" "ghost";
                                           call_to "c3" "echo"])] |}
           (asks [call_to "c1" "echo"; call_to "c2" "ghost"; call_to "c3" "echo"])
           [call_to "c1" "echo"] [call_to "c3" "echo"] (call_to "c2" "ghost")).
  - reflexivity.
  - reflexivity.
  - reflexivity.
  - reflexivity.
  - apply List.Forall_cons; [|apply List.Forall_nil]. now apply echo_answered.
  - reflexivity.
Defined.

Lemma chat_pushes_message_first_witness :
  exists evs,
    trace (snd (Fastai.chat parse_braces (always (says "hello")) 1 (observing [] 7)
                  (Some "more") false world_hi)) =
      trace world_hi
        ++ EvFetch (Fastai.chat_request (observing [] 7)
                      (Some ([user_message "hi"] ++ [user_message "more"]))) :: evs.
Proof.
  apply (chat_pushes_message_first parse_braces (always (says "hello")) 0
           (observing [] 7) (Some "more") false 1%positive world_hi [user_message "hi"]).
  - reflexivity.
  - reflexivity.
Defined.

Lemma chat_without_messages_witness :
  let o := Fastai.createOpenAI env_empty Fastai.no_options in
  (forall c s,
      Fastai.chat parse_braces (always (says "hello")) 1 o (Some (String c s)) false world_hi
        = (Threw TypeError, world_hi)) /\
  (forall res reply,
      always (says "hello") (requests world_hi) (Fastai.chat_request o None) = Resolved res ->
      first_message res = Some reply ->
      Fastai.chat parse_braces (always (says "hello")) 1 o None false world_hi =
        (Threw TypeError,
         evolve world_hi (heap world_hi) [EvFetch (Fastai.chat_request o None)] 1)) /\
  keys (body (Fastai.chat_request o None)) = ["model"; "tools"].
Proof.
  apply (chat_without_messages parse_braces (always (says "hello")) 0
           (Fastai.createOpenAI env_empty Fastai.no_options) false world_hi).
  reflexivity.
Defined.

Lemma Fastai_results_before_next_request_witness :
  let calls := [call_to "c1" "echo"; call_to "c2" "echo"] in
  let o := observing [echo] 7 in
  length (tool_messages parse_braces (Fastai.find_tool o) calls) = length calls /\
  map tool_call_id (tool_messages parse_braces (Fastai.find_tool o) calls)
    = map (fun c => Some (tc_id c)) calls /\
  exists evs,
    trace (snd (Fastai.loop parse_braces (scripted (asks calls) (says "done")) 2 o false
                  world_hi)) =
      trace world_hi
        ++ EvFetch (Fastai.chat_request o (Some [user_message "hi"]))
        :: notifications (Fastai.onToolCall o) calls
        ++ tool_events parse_braces (Fastai.find_tool o) calls
        ++ EvFetch (Fastai.chat_request o
                      (Some ([user_message "hi"] ++ asks calls
                               :: tool_messages parse_braces (Fastai.find_tool o) calls)))
        :: evs.
Proof.
  apply (Fastai_results_before_next_request parse_braces
           (scripted (asks [call_to "c1" "echo"; call_to "c2" "echo"]) (says "done")) 0
           (observing [echo] 7) 1%positive world_hi [user_message "hi"]
           {| choices := Some [Some (asks [call_to "c1" "echo"; call_to "c2" "echo"])] |}
           (asks [call_to "c1" "echo"; call_to "c2" "echo"])
           [call_to "c1" "echo"; call_to "c2" "echo"]).
  - reflexivity.
  - reflexivity.
  - reflexivity.
  - reflexivity.
  - reflexivity.
  - discriminate.
  - apply List.Forall_cons; [eexists; reflexivity|].
    apply List.Forall_cons; [eexists; reflexivity|apply List.Forall_nil].
Defined.

Definition options_client (ts : list Tool) (observer : option callback)
  : FastaiClient.GenerateTextOptions :=
  {| FastaiClient.gt_target := FastaiClient.ByClient client_key "m";
     FastaiClient.gt_messages := 1%positive;
     FastaiClient.gt_tools := Some (FastaiClient.ToolsArray ts);
     FastaiClient.gt_onToolCall := observer |}.

Lemma FastaiClient_round_answered_witness :
  let calls := [call_to "c1" "echo"; call_to "c2" "echo"] in
  let options := options_client [echo] (Some 7) in
  let toolMap := [("echo", echo)] in
  let q := FastaiClient.request_of (FastaiClient.gt_target options) [user_message "hi"]
             (FastaiClient.toolsJsonSchema_of toolMap) in
  FastaiClient.round parse_braces (scripted (asks calls) (says "done")) options toolMap
                     1%positive world_hi =
    (Returned None,
     evolve world_hi
       (<[1%positive := [user_message "hi"] ++ asks calls
            :: tool_messages parse_braces (fun k => FastaiClient.map_get k toolMap) calls]>
          (heap world_hi))
       (EvFetch q
          :: notifications (FastaiClient.gt_onToolCall options) calls
          ++ tool_events parse_braces (fun k => FastaiClient.map_get k toolMap) calls) 1).
Proof.
  apply (FastaiClient_round_answered parse_braces
           (scripted (asks [call_to "c1" "echo"; call_to "c2" "echo"]) (says "done"))
           (options_client [echo] (Some 7)) [("echo", echo)] 1%positive world_hi
           [user_message "hi"]
           {| choices := Some [Some (asks [call_to "c1" "echo"; call_to "c2" "echo"])] |}
           (asks [call_to "c1" "echo"; call_to "c2" "echo"])
           [call_to "c1" "echo"; call_to "c2" "echo"]).
  - reflexivity.
  - reflexivity.
  - reflexivity.
  - reflexivity.
  - discriminate.
  - apply List.Forall_cons; [eexists; reflexivity|].
    apply List.Forall_cons; [eexists; reflexivity|apply List.Forall_nil].
Defined.

Lemma FastaiClient_generateText_tool_free_witness :
  let options := options_client [] None in
  let q := FastaiClient.request_of (FastaiClient.gt_target options) [user_message "hi"]
             (FastaiClient.toolsJsonSchema_of
                (FastaiClient.toolMap_of (FastaiClient.gt_tools options))) in
  let r := FastaiClient.generateText parse_braces (always (says "hello")) 1 options
             world_hi in
  fst r = Returned (content (says "hello")) /\
  fetches (trace (snd r)) = fetches (trace world_hi) ++ [q] /\
  requests (snd r) = S (requests world_hi).
Proof.
  apply (FastaiClient_generateText_tool_free parse_braces (always (says "hello")) 0
           (options_client [] None) world_hi [user_message "hi"]
           {| choices := Some [Some (says "hello")] |} (says "hello")).
  - reflexivity.
  - reflexivity.
  - reflexivity.
  - left. reflexivity.
Defined.

(** ** [generateObject] of [src/fastai.ts] *)

(** The tool executions recorded in a trace. *)
Definition executed (t : list event) : list (string * json) :=
  omap (fun e => match e with EvExecute n a => Some (n, a) | _ => None end) t.

Lemma executed_app (t1 t2 : list event) : executed (t1 ++ t2) = executed t1 ++ executed t2.
Proof. unfold executed. apply omap_app. Qed.

Lemma executed_observe (cb : callback) (names : list string) :
  executed (map (EvObserve cb) names) = [].
Proof. induction names; [reflexivity|]. exact IHnames. Qed.

(** The history [generateObject] sends: the caller's messages, followed by
    the preamble when none of them is a system message. *)
Definition with_preamble (h : list ChatMessage) : list ChatMessage :=
  match find (fun m => Role_eqb (role m) system) h with
  | Some _ => h
  | None => h ++ [system_message Fastai.system_preamble]
  end.

(** The client [Fastai.generateObject] runs [chat] on. *)
Definition object_conversation (env : Fastai.ProcessEnv)
  (options : Fastai.GenerateObjectOptions) : Fastai.OpenAI :=
  Fastai.assign (Fastai.client_or_default env (Fastai.go_openai options))
                (Fastai.go_messages options)
                [Fastai.submit_object (Fastai.go_schema options)].

(** The world in which that [chat] starts. *)
Definition object_start (options : Fastai.GenerateObjectOptions) (w : world)
  (h : list ChatMessage) : world :=
  {| heap := <[Fastai.go_messages options := with_preamble h]> (heap w);
     trace := trace w; requests := requests w |}.

Section FastaiObject.

Variable JSON_parse : string -> option json.
Variable fetch : transport.

(** What [generateObject] does with the text that [chat] returns. *)
Definition object_of_text (schema : Schema) (res : string) : M json :=
  match res with
  | String _ _ =>
      match JSON_parse res with
      | None =>
          emit EvConsoleError ;;
          throw (Error ("Failed to parse generated object: " +:+ exn_text SyntaxError))
      | Some obj =>
          match parse schema obj with
          | None =>
              emit EvConsoleError ;;
              throw (Error ("Failed to parse generated object: " +:+ exn_text ZodError))
          | Some parsed => ret parsed
          end
      end
  | EmptyString =>
      throw (Error "Model did not return a structured object. Ensure the model supports tool calling.")
  end.

Lemma Fastai_generateObject_start (env : Fastai.ProcessEnv) (n : nat)
  (options : Fastai.GenerateObjectOptions) (w : world) (h : list ChatMessage) :
  heap w !! Fastai.go_messages options = Some h ->
  Fastai.generateObject JSON_parse fetch env n options w =
    bind (Fastai.loop JSON_parse fetch n (object_conversation env options) true)
         (object_of_text (Fastai.go_schema options))
         (object_start options w h).
Proof.
  intros Hh. unfold Fastai.generateObject. unfold bind at 1.
  rewrite (read_ok _ _ _ Hh). unfold bind at 1.
  unfold object_start, with_preamble.
  destruct (find _ h).
  - unfold ret at 1. rewrite insert_id by exact Hh. now destruct w.
  - unfold push. rewrite Hh. reflexivity.
Qed.

(** With the flag of [generateObject], the loop over the calls looks at
    the first call only. *)
Lemma Fastai_for_calls_flag (o : Fastai.OpenAI) (call : ToolCall) (rest : list ToolCall)
  (w : world) :
  Fastai.for_calls JSON_parse o true (call :: rest) w =
    (match Fastai.find_tool o (fn_name call) with
     | Some _ => Returned (Some (fn_arguments call))
     | None => Threw (ToolNotFoundError (fn_name call))
     end,
     evolve w (heap w) [EvLookup (fn_name call)] 0).
Proof.
  simpl. unfold bind. rewrite emit_ok.
  now destruct (Fastai.find_tool o (fn_name call)).
Qed.

(** One turn with the flag always ends the loop: it returns a text or it
    fails, after one request and without executing any tool. *)
Lemma Fastai_round_flag (o : Fastai.OpenAI) (l : loc) (w : world) (h : list ChatMessage) :
  Fastai.messages o = Some l ->
  heap w !! l = Some h ->
  exists out hp evs,
    Fastai.round JSON_parse fetch o true w =
      (out, evolve w hp (EvFetch (Fastai.chat_request o (Some h)) :: evs) 1) /\
    match out with
    | Returned (Some _) | Threw _ => True
    | _ => False
    end /\
    fetches evs = [] /\ executed evs = [].
Proof.
  intros Hl Hh. unfold Fastai.round, Fastai.history_of. rewrite Hl.
  unfold bind at 1. unfold bind at 1. rewrite (read_ok _ _ _ Hh). unfold ret at 1.
  unfold bind at 1. unfold post.
  destruct (fetch (requests w) (Fastai.chat_request o (Some h))) as [res|e]; simpl.
  2:{ exists (Threw e), (heap w), []. unfold evolve. rewrite Nat.add_1_r. now repeat split. }
  destruct (first_message res) as [reply|].
  2:{ exists (Threw (Error "No assistant message returned")), (heap w), [].
      unfold throw, evolve. rewrite Nat.add_1_r. now repeat split. }
  unfold bind at 1. unfold Fastai.push_message. rewrite Hl.
  unfold push at 1. simpl heap. rewrite Hh.
  assert (Hfree : forall w1 : world,
             w1 = evolve w (<[l:=h ++ [reply]]> (heap w))
                         [EvFetch (Fastai.chat_request o (Some h))] 1 ->
             exists out hp evs,
               ret (Some (Js.or_else (content reply) "")) w1 =
                 (out, evolve w hp (EvFetch (Fastai.chat_request o (Some h)) :: evs) 1) /\
               match out with
               | Returned (Some _) | Threw _ => True
               | _ => False
               end /\ fetches evs = [] /\ executed evs = []).
  { intros w1 ->. eexists _, _, []. unfold ret. now repeat split. }
  assert (Hw : {| heap := <[l:=h ++ [reply]]> (heap w);
                  trace := trace w ++ [EvFetch (Fastai.chat_request o (Some h))];
                  requests := S (requests w) |} =
               evolve w (<[l:=h ++ [reply]]> (heap w))
                      [EvFetch (Fastai.chat_request o (Some h))] 1).
  { unfold evolve. now rewrite Nat.add_1_r. }
  simpl trace. simpl requests. rewrite Hw.
  destruct (tool_calls reply) as [[|call rest]|]; try (now apply Hfree).
  unfold bind at 1.
  destruct (Fastai.onToolCall o) as [cb|].
  - rewrite notify_ok, evolve_evolve, Fastai_for_calls_flag, evolve_evolve. simpl heap.
    eexists _, _, _. split; [reflexivity|]. split; [now destruct (Fastai.find_tool _ _)|].
    rewrite fetches_app, executed_app, fetches_observe, executed_observe.
    now split.
  - unfold ret at 1. rewrite Fastai_for_calls_flag, evolve_evolve. simpl heap.
    eexists _, _, _. split; [reflexivity|]. split; [now destruct (Fastai.find_tool _ _)|].
    now split.
Qed.

(** X15.  [generateObject] does not loop and runs no tool: whatever the
    service answers, it sends exactly one request, whose history is the
    caller's messages with the preamble after them when they have no
    system message, executes nothing, and ends with a result or an
    error. *)
Theorem generateObject_asks_once (env : Fastai.ProcessEnv) (n : nat)
  (options : Fastai.GenerateObjectOptions) (w : world) (h : list ChatMessage) :
  heap w !! Fastai.go_messages options = Some h ->
  let r := Fastai.generateObject JSON_parse fetch env (S n) options w in
  fst r <> Pending /\
  fetches (trace (snd r)) =
    fetches (trace w)
      ++ [Fastai.chat_request (object_conversation env options) (Some (with_preamble h))] /\
  executed (trace (snd r)) = executed (trace w).
Proof.
  intros Hh r. subst r. rewrite (Fastai_generateObject_start env (S n) options w h Hh).
  simpl Fastai.loop. unfold bind.
  destruct (Fastai_round_flag (object_conversation env options) (Fastai.go_messages options)
              (object_start options w h) (with_preamble h) eq_refl)
    as (out & hp & evs & Hrun & Hout & Hf & He); [apply lookup_insert_eq|].
  rewrite Hrun.
  assert (Hbase : fetches (trace (evolve (object_start options w h) hp
                    (EvFetch (Fastai.chat_request (object_conversation env options)
                                (Some (with_preamble h))) :: evs) 1)) =
                  fetches (trace w)
                    ++ [Fastai.chat_request (object_conversation env options)
                          (Some (with_preamble h))] /\
                  executed (trace (evolve (object_start options w h) hp
                    (EvFetch (Fastai.chat_request (object_conversation env options)
                                (Some (with_preamble h))) :: evs) 1)) = executed (trace w)).
  { simpl trace. rewrite fetches_app, executed_app.
    change (fetches (EvFetch ?q :: evs)) with (q :: fetches evs).
    change (executed (EvFetch ?q :: evs)) with (executed evs).
    now rewrite Hf, He, app_nil_r. }
  destruct out as [[text|]|e|]; try (destruct Hout); [|split; [discriminate|exact Hbase]].
  unfold object_of_text, ret.
  destruct text as [|c text]; [split; [discriminate|exact Hbase]|].
  destruct (JSON_parse (String c text)) as [obj|].
  - destruct (parse (Fastai.go_schema options) obj);
      [split; [discriminate|exact Hbase]|].
    unfold bind. rewrite emit_ok. unfold throw. simpl.
    split; [discriminate|]. rewrite fetches_app, executed_app, !app_nil_r.
    exact Hbase.
  - unfold bind. rewrite emit_ok. unfold throw. simpl.
    split; [discriminate|]. rewrite fetches_app, executed_app, !app_nil_r.
    exact Hbase.
Qed.

End FastaiObject.

Section FastaiObjectResult.

Variable JSON_parse : string -> option json.
Variable fetch : transport.

Lemma object_conversation_find (env : Fastai.ProcessEnv)
  (options : Fastai.GenerateObjectOptions) (k : string) :
  Fastai.find_tool (object_conversation env options) k =
    if String.eqb "submit_object" k
    then Some (Fastai.submit_object (Fastai.go_schema options)) else None.
Proof. reflexivity. Qed.

(** [generateObject] when the reply has tool calls: the first call alone
    decides. *)
Lemma Fastai_generateObject_calls (env : Fastai.ProcessEnv) (n : nat)
  (options : Fastai.GenerateObjectOptions) (w : world) (h : list ChatMessage)
  (res : ChatRespose) (reply : ChatMessage) (call : ToolCall) (rest : list ToolCall) :
  heap w !! Fastai.go_messages options = Some h ->
  fetch (requests w)
        (Fastai.chat_request (object_conversation env options) (Some (with_preamble h)))
    = Resolved res ->
  first_message res = Some reply ->
  tool_calls reply = Some (call :: rest) ->
  exists w2,
    heap w2 !! Fastai.go_messages options = Some (with_preamble h ++ [reply]) /\
    Fastai.generateObject JSON_parse fetch env (S n) options w =
      if String.eqb "submit_object" (fn_name call)
      then object_of_text JSON_parse (Fastai.go_schema options) (fn_arguments call) w2
      else (Threw (ToolNotFoundError (fn_name call)), w2).
Proof.
  intros Hh Hfetch Hfirst Hcalls.
  rewrite (Fastai_generateObject_start JSON_parse fetch env (S n) options w h Hh).
  simpl Fastai.loop. unfold bind.
  erewrite Fastai_round_calls;
    [|reflexivity|apply lookup_insert_eq|exact Hfetch|exact Hfirst|exact Hcalls|discriminate].
  rewrite Fastai_for_calls_flag, object_conversation_find, evolve_evolve.
  eexists. split; [|destruct (String.eqb "submit_object" (fn_name call)); reflexivity].
  simpl. apply lookup_insert_eq.
Qed.

(** [generateObject] when the reply has no tool call: the content is the
    text. *)
Lemma Fastai_generateObject_content (env : Fastai.ProcessEnv) (n : nat)
  (options : Fastai.GenerateObjectOptions) (w : world) (h : list ChatMessage)
  (res : ChatRespose) (reply : ChatMessage) :
  heap w !! Fastai.go_messages options = Some h ->
  fetch (requests w)
        (Fastai.chat_request (object_conversation env options) (Some (with_preamble h)))
    = Resolved res ->
  first_message res = Some reply ->
  tool_free reply ->
  exists w2,
    heap w2 !! Fastai.go_messages options = Some (with_preamble h ++ [reply]) /\
    Fastai.generateObject JSON_parse fetch env (S n) options w =
      object_of_text JSON_parse (Fastai.go_schema options) (text_of reply) w2.
Proof.
  intros Hh Hfetch Hfirst Hfree.
  rewrite (Fastai_generateObject_start JSON_parse fetch env (S n) options w h Hh).
  simpl Fastai.loop. unfold bind.
  erewrite Fastai_round_tool_free;
    [|reflexivity|apply lookup_insert_eq|exact Hfetch|exact Hfirst|exact Hfree].
  eexists. split; [|reflexivity]. simpl. apply lookup_insert_eq.
Qed.

(** X16.  When the first tool call of the reply is [submit_object] and
    its arguments parse and validate, [generateObject] returns the
    validated value; the other calls of the batch are not looked at, and
    the reply is in the caller's array. *)
Theorem generateObject_returns_submitted (env : Fastai.ProcessEnv) (n : nat)
  (options : Fastai.GenerateObjectOptions) (w : world) (h : list ChatMessage)
  (res : ChatRespose) (reply : ChatMessage) (call : ToolCall) (rest : list ToolCall)
  (c : ascii) (a : string) (parsed validated : json) :
  heap w !! Fastai.go_messages options = Some h ->
  fetch (requests w)
        (Fastai.chat_request (object_conversation env options) (Some (with_preamble h)))
    = Resolved res ->
  first_message res = Some reply ->
  tool_calls reply = Some (call :: rest) ->
  fn_name call = "submit_object" ->
  fn_arguments call = String c a ->
  JSON_parse (String c a) = Some parsed ->
  parse (Fastai.go_schema options) parsed = Some validated ->
  let r := Fastai.generateObject JSON_parse fetch env (S n) options w in
  fst r = Returned validated /\
  heap (snd r) !! Fastai.go_messages options = Some (with_preamble h ++ [reply]).
Proof.
  intros Hh Hfetch Hfirst Hcalls Hname Hargs Hparse Hvalid r. subst r.
  destruct (Fastai_generateObject_calls env n options w h res reply call rest
              Hh Hfetch Hfirst Hcalls) as (w2 & Hw2 & ->).
  rewrite Hname, Hargs. change (String.eqb "submit_object" "submit_object") with true.
  cbv iota. unfold object_of_text. rewrite Hparse, Hvalid. now split.
Qed.

(** X17.  When the first tool call of the reply names anything else
    than [submit_object], [generateObject] fails with the tool-not-found
    error for that name, even when a [submit_object] call follows in the
    batch. *)
Theorem generateObject_first_call_decides (env : Fastai.ProcessEnv) (n : nat)
  (options : Fastai.GenerateObjectOptions) (w : world) (h : list ChatMessage)
  (res : ChatRespose) (reply : ChatMessage) (call : ToolCall) (rest : list ToolCall) :
  heap w !! Fastai.go_messages options = Some h ->
  fetch (requests w)
        (Fastai.chat_request (object_conversation env options) (Some (with_preamble h)))
    = Resolved res ->
  first_message res = Some reply ->
  tool_calls reply = Some (call :: rest) ->
  fn_name call <> "submit_object" ->
  fst (Fastai.generateObject JSON_parse fetch env (S n) options w)
    = Threw (ToolNotFoundError (fn_name call)).
Proof.
  intros Hh Hfetch Hfirst Hcalls Hname.
  destruct (Fastai_generateObject_calls env n options w h res reply call rest
              Hh Hfetch Hfirst Hcalls) as (w2 & Hw2 & ->).
  assert (E : String.eqb "submit_object" (fn_name call) = false)
    by (apply String.eqb_neq; congruence).
  now rewrite E.
Qed.

(** X18.  When the reply has no tool call, its content is taken as the
    object: a content that parses and validates is returned. *)
Theorem generateObject_reads_content (env : Fastai.ProcessEnv) (n : nat)
  (options : Fastai.GenerateObjectOptions) (w : world) (h : list ChatMessage)
  (res : ChatRespose) (reply : ChatMessage)
  (c : ascii) (s : string) (parsed validated : json) :
  heap w !! Fastai.go_messages options = Some h ->
  fetch (requests w)
        (Fastai.chat_request (object_conversation env options) (Some (with_preamble h)))
    = Resolved res ->
  first_message res = Some reply ->
  tool_free reply ->
  content reply = Some (String c s) ->
  JSON_parse (String c s) = Some parsed ->
  parse (Fastai.go_schema options) parsed = Some validated ->
  fst (Fastai.generateObject JSON_parse fetch env (S n) options w) = Returned validated.
Proof.
  intros Hh Hfetch Hfirst Hfree Hcontent Hparse Hvalid.
  destruct (Fastai_generateObject_content env n options w h res reply
              Hh Hfetch Hfirst Hfree) as (w2 & Hw2 & ->).
  unfold text_of. rewrite Hcontent. unfold object_of_text. now rewrite Hparse, Hvalid.
Qed.

(** X19.  An empty text is no object: when the reply has no tool call
    and no content, and also when the model did call [submit_object] but
    with an empty arguments string, [generateObject] fails with "Model did
    not return a structured object". *)
Theorem generateObject_empty_text (env : Fastai.ProcessEnv) (n : nat)
  (options : Fastai.GenerateObjectOptions) (w : world) (h : list ChatMessage)
  (res : ChatRespose) (reply : ChatMessage) :
  heap w !! Fastai.go_messages options = Some h ->
  fetch (requests w)
        (Fastai.chat_request (object_conversation env options) (Some (with_preamble h)))
    = Resolved res ->
  first_message res = Some reply ->
  (tool_free reply /\ text_of reply = "") \/
  (exists call rest, tool_calls reply = Some (call :: rest) /\
                     fn_name call = "submit_object" /\ fn_arguments call = "") ->
  fst (Fastai.generateObject JSON_parse fetch env (S n) options w) =
    Threw (Error "Model did not return a structured object. Ensure the model supports tool calling.").
Proof.
  intros Hh Hfetch Hfirst [[Hfree Htext] | (call & rest & Hcalls & Hname & Hargs)].
  - destruct (Fastai_generateObject_content env n options w h res reply
                Hh Hfetch Hfirst Hfree) as (w2 & Hw2 & ->).
    now rewrite Htext.
  - destruct (Fastai_generateObject_calls env n options w h res reply call rest
                Hh Hfetch Hfirst Hcalls) as (w2 & Hw2 & ->).
    rewrite Hname, Hargs. reflexivity.
Qed.

(** X20.  A text that does not parse, or whose value the schema
    rejects, is logged with [console.error] and reported as a plain
    [Error], not as the parser's or the schema's own exception. *)
Theorem generateObject_wraps_failures (env : Fastai.ProcessEnv) (n : nat)
  (options : Fastai.GenerateObjectOptions) (w : world) (h : list ChatMessage)
  (res : ChatRespose) (reply : ChatMessage) (call : ToolCall) (rest : list ToolCall)
  (c : ascii) (a : string) :
  heap w !! Fastai.go_messages options = Some h ->
  fetch (requests w)
        (Fastai.chat_request (object_conversation env options) (Some (with_preamble h)))
    = Resolved res ->
  first_message res = Some reply ->
  tool_calls reply = Some (call :: rest) ->
  fn_name call = "submit_object" ->
  fn_arguments call = String c a ->
  match JSON_parse (String c a) with
  | None => True
  | Some parsed => parse (Fastai.go_schema options) parsed = None
  end ->
  let r := Fastai.generateObject JSON_parse fetch env (S n) options w in
  (exists message, fst r = Threw (Error message)) /\
  List.last (trace (snd r)) EvRead = EvConsoleError.
Proof.
  intros Hh Hfetch Hfirst Hcalls Hname Hargs Hbad r. subst r.
  destruct (Fastai_generateObject_calls env n options w h res reply call rest
              Hh Hfetch Hfirst Hcalls) as (w2 & Hw2 & ->).
  rewrite Hname, Hargs. change (String.eqb "submit_object" "submit_object") with true.
  cbv iota. unfold object_of_text.
  destruct (JSON_parse (String c a)) as [parsed|].
  - rewrite Hbad. unfold bind. rewrite emit_ok. unfold throw. simpl.
    split; [eauto|apply last_last].
  - unfold bind. rewrite emit_ok. unfold throw. simpl.
    split; [eauto|apply last_last].
Qed.

End FastaiObjectResult.

Lemma generateObject_asks_once_witness :
  let fetch := scripted (asks [call_to "c1" "submit_object"]) (says "unused") in
  let options := options_object any_schema in
  let r := Fastai.generateObject parse_braces fetch env_empty 1 options world_hi in
  fst r <> Pending /\
  fetches (trace (snd r)) =
    fetches (trace world_hi)
      ++ [Fastai.chat_request (object_conversation env_empty options)
            (Some (with_preamble [user_message "hi"]))] /\
  executed (trace (snd r)) = executed (trace world_hi).
Proof.
  apply (generateObject_asks_once parse_braces
           (scripted (asks [call_to "c1" "submit_object"]) (says "unused"))
           env_empty 0 (options_object any_schema) world_hi [user_message "hi"]).
  reflexivity.
Defined.

Lemma generateObject_returns_submitted_witness :
  let reply := asks [call_to "c1" "submit_object"; call_to "c2" "echo"] in
  let r := Fastai.generateObject parse_braces (always reply) env_empty 1
             (options_object any_schema) world_hi in
  fst r = Returned (JObj []) /\
  heap (snd r) !! Fastai.go_messages (options_object any_schema)
    = Some (with_preamble [user_message "hi"] ++ [reply]).
Proof.
  apply (generateObject_returns_submitted parse_braces
           (always (asks [call_to "c1" "submit_object"; call_to "c2" "echo"]))
           env_empty 0 (options_object any_schema) world_hi [user_message "hi"]
           {| choices := Some [Some (asks [call_to "c1" "submit_object";
                                           call_to "c2" "echo"])] |}
           (asks [call_to "c1" "submit_object"; call_to "c2" "echo"])
           (call_to "c1" "submit_object") [call_to "c2" "echo"]
           "{"%char "}" (JObj []) (JObj [])); reflexivity.
Defined.

Lemma generateObject_first_call_decides_witness :
  fst (Fastai.generateObject parse_braces
         (always (asks [call_to "c1" "echo"; call_to "c2" "submit_object"]))
         env_empty 1 (options_object any_schema) world_hi)
    = Threw (ToolNotFoundError (fn_name (call_to "c1" "echo"))).
Proof.
  apply (generateObject_first_call_decides parse_braces
           (always (asks [call_to "c1" "echo"; call_to "c2" "submit_object"]))
           env_empty 0 (options_object any_schema) world_hi [user_message "hi"]
           {| choices := Some [Some (asks [call_to "c1" "echo";
                                           call_to "c2" "submit_object"])] |}
           (asks [call_to "c1" "echo"; call_to "c2" "submit_object"])
           (call_to "c1" "echo") [call_to "c2" "submit_object"]);
    [reflexivity|reflexivity|reflexivity|reflexivity|discriminate].
Defined.

Lemma generateObject_reads_content_witness :
  fst (Fastai.generateObject parse_braces (always (says "{}")) env_empty 1
         (options_object any_schema) world_hi) = Returned (JObj []).
Proof.
  apply (generateObject_reads_content parse_braces (always (says "{}")) env_empty 0
           (options_object any_schema) world_hi [user_message "hi"]
           {| choices := Some [Some (says "{}")] |} (says "{}")
           "{"%char "}" (JObj []) (JObj []));
    [reflexivity|reflexivity|reflexivity|left; reflexivity|reflexivity|reflexivity
    |reflexivity].
Defined.

Lemma generateObject_empty_text_witness :
  fst (Fastai.generateObject parse_braces (always (asks [])) env_empty 1
         (options_object any_schema) world_hi) =
    Threw (Error "Model did not return a structured object. Ensure the model supports tool calling.").
Proof.
  apply (generateObject_empty_text parse_braces (always (asks [])) env_empty 0
           (options_object any_schema) world_hi [user_message "hi"]
           {| choices := Some [Some (asks [])] |} (asks []));
    [reflexivity|reflexivity|reflexivity|].
  left. split; [right; reflexivity|reflexivity].
Defined.

Lemma generateObject_wraps_failures_witness :
  let r := Fastai.generateObject parse_braces
             (always (asks [call_to "c1" "submit_object"])) env_empty 1
             (options_object no_schema) world_hi in
  (exists message, fst r = Threw (Error message)) /\
  List.last (trace (snd r)) EvRead = EvConsoleError.
Proof.
  apply (generateObject_wraps_failures parse_braces
           (always (asks [call_to "c1" "submit_object"])) env_empty 0
           (options_object no_schema) world_hi [user_message "hi"]
           {| choices := Some [Some (asks [call_to "c1" "submit_object"])] |}
           (asks [call_to "c1" "submit_object"])
           (call_to "c1" "submit_object") []
           "{"%char "}"); reflexivity.
Defined.

(** ** [stream]: the callbacks are a function of the text *)




Section StreamText.

Variable JSON_parse : string -> option json.






End StreamText.



Section StreamFurther.

Variable JSON_parse : string -> option json.
Variable fetch : Request -> promise FastaiStream.Response.





(** X24.  [stream] does not keep the answer: after a stream that was
    answered with a body, whatever the body holds, the history has grown
    by the user's prompt and by nothing else, one request was sent, and
    the lock of the reader is released last. *)
Theorem stream_forgets_reply (o : Fastai.OpenAI) (l : loc) (prompt : string)
  (onMsg : callback) (w : world) (h : list ChatMessage)
  (response : FastaiStream.Response) (chunks : list string) :
  Fastai.messages o = Some l ->
  heap w !! l = Some h ->
  fetch (FastaiStream.stream_request o (Some (h ++ [user_message prompt])))
    = Resolved response ->
  FastaiStream.ok response = true ->
  FastaiStream.response_body response = Some chunks ->
  let r := FastaiStream.stream JSON_parse fetch o prompt onMsg w in
  heap (snd r) = <[l := h ++ [user_message prompt]]> (heap w) /\
  exists evs,
    trace (snd r) =
      trace w ++ EvFetch (FastaiStream.stream_request o (Some (h ++ [user_message prompt])))
              :: evs ++ [EvReleaseLock] /\
    fetches evs = [].
Proof.
  intros Hl Hh Hfetch Hok Hbody r. subst r.
  rewrite (stream_events JSON_parse fetch o l prompt onMsg w h response chunks
             Hl Hh Hfetch Hok Hbody).
  split; [reflexivity|]. eexists. split; [reflexivity|].
  assert (Hdata : forall s, fetches (data_events JSON_parse onMsg s) = []).
  { intros s. unfold data_events. destruct (JSON_parse s) as [data|]; [|reflexivity].
    destruct data; try reflexivity;
      destruct (delta_content _) as [text|]; try reflexivity;
      now destruct (Js.truthy (Some text)). }
  assert (Hlines : forall ls, fetches (snd (lines_events JSON_parse onMsg ls)) = []).
  { induction ls as [|line ls IH]; [reflexivity|]. simpl.
    destruct (negb (String.prefix "data: " line)); [exact IH|].
    destruct (String.eqb (Js.slice 6 line) "[DONE]"); [reflexivity|].
    simpl. now rewrite fetches_app, Hdata, IH. }
  generalize "" at 1. induction chunks as [|chunk later IH] in |- *; intros buffer.
  - simpl. now destruct (Js.trim buffer).
  - simpl chunks_events. change (fetches (EvRead :: ?t)) with (fetches t).
    rewrite fetches_app, Hlines.
    destruct (fst (lines_events JSON_parse onMsg (lines_of (buffer +:+ chunk))));
      [reflexivity|apply IH].
Qed.

(** X25.  A stream that fails before the body is read (the request is
    rejected, the status is not ok, or there is no body) throws, calls
    back nothing and takes no lock, but the prompt has been pushed: it
    stays in the history. *)
Theorem stream_failure_keeps_prompt (o : Fastai.OpenAI) (l : loc) (prompt : string)
  (onMsg : callback) (w : world) (h : list ChatMessage) :
  Fastai.messages o = Some l ->
  heap w !! l = Some h ->
  match fetch (FastaiStream.stream_request o (Some (h ++ [user_message prompt]))) with
  | Resolved response =>
      FastaiStream.ok response = false \/ FastaiStream.response_body response = None
  | _ => True
  end ->
  let r := FastaiStream.stream JSON_parse fetch o prompt onMsg w in
  (exists e, fst r = Threw e) /\
  heap (snd r) !! l = Some (h ++ [user_message prompt]) /\
  trace (snd r) =
    trace w ++ [EvFetch (FastaiStream.stream_request o (Some (h ++ [user_message prompt])))].
Proof.
  intros Hl Hh Hfail r. subst r.
  assert (Hrun : exists e,
             FastaiStream.stream JSON_parse fetch o prompt onMsg w =
               (Threw e,
                evolve w (<[l := h ++ [user_message prompt]]> (heap w))
                  [EvFetch (FastaiStream.stream_request o
                              (Some (h ++ [user_message prompt])))] 0)).
  { unfold FastaiStream.stream, Fastai.push_message, Fastai.history_of. rewrite Hl.
    unfold bind at 1. erewrite push_ok by exact Hh.
    unfold bind at 1. unfold bind at 1.
    erewrite read_ok by (simpl; apply lookup_insert_eq).
    unfold ret at 1. unfold bind at 1. rewrite emit_ok.
    unfold bind at 1. rewrite !evolve_evolve.
    destruct (fetch (FastaiStream.stream_request o (Some (h ++ [user_message prompt]))))
      as [response|e] eqn:Hfetch.
    - simpl await. unfold ret at 1.
      destruct (FastaiStream.ok response) eqn:Hok.
      + destruct Hfail as [Hfail | Hbody]; [discriminate|].
        rewrite Hbody. change (negb true) with false. cbv beta iota.
        eexists. reflexivity.
      + change (negb false) with true. cbv beta iota. eexists. reflexivity.
    - eexists. reflexivity. }
  destruct Hrun as [e ->]. simpl.
  split; [eauto|]. split; [apply lookup_insert_eq|reflexivity].
Qed.

End StreamFurther.






Lemma stream_forgets_reply_witness :
  let r := FastaiStream.stream parse_frames (streaming hi_chunks) (observing [] 7)
             "Say hi" 9 world_hi in
  heap (snd r) = <[1%positive := [user_message "hi"] ++ [user_message "Say hi"]]>
                   (heap world_hi) /\
  exists evs,
    trace (snd r) =
      trace world_hi
        ++ EvFetch (FastaiStream.stream_request (observing [] 7)
                      (Some ([user_message "hi"] ++ [user_message "Say hi"])))
        :: evs ++ [EvReleaseLock] /\
    fetches evs = [].
Proof.
  apply (stream_forgets_reply parse_frames (streaming hi_chunks) (observing [] 7)
           1%positive "Say hi" 9 world_hi [user_message "hi"]
           {| FastaiStream.ok := true; FastaiStream.status := 200;
              FastaiStream.response_body := Some hi_chunks |} hi_chunks);
    reflexivity.
Defined.

(** A service that answers with a status that is not ok. *)
Definition refusing : Request -> promise FastaiStream.Response :=
  fun _ => Resolved {| FastaiStream.ok := false; FastaiStream.status := 500;
                       FastaiStream.response_body := None |}.

Lemma stream_failure_keeps_prompt_witness :
  let r := FastaiStream.stream parse_frames refusing (observing [] 7)
             "Say hi" 9 world_hi in
  (exists e, fst r = Threw e) /\
  heap (snd r) !! 1%positive = Some ([user_message "hi"] ++ [user_message "Say hi"]) /\
  trace (snd r) =
    trace world_hi
      ++ [EvFetch (FastaiStream.stream_request (observing [] 7)
                     (Some ([user_message "hi"] ++ [user_message "Say hi"])))].
Proof.
  apply (stream_failure_keeps_prompt parse_frames refusing (observing [] 7)
           1%positive "Say hi" 9 world_hi [user_message "hi"]);
    [reflexivity|reflexivity|].
  left. reflexivity.
Defined.

(** ** [generateObject] of the function-style build: the two conventions *)

Lemma endsWith_app (suffix a : string) : Js.endsWith suffix (a +:+ suffix) = true.
Proof.
  unfold Js.endsWith. rewrite string_length_app.
  replace (String.length suffix <=? String.length a + String.length suffix)%nat
    with true by (symmetry; apply Nat.leb_le; lia).
  replace (String.length a + String.length suffix - String.length suffix)
    with (String.length a) by lia.
  rewrite slice_app. apply String.eqb_refl.
Qed.

Lemma FastaiClient_object_endpoint_ref (c : FastaiClient.OpenAIClient) (modelName : string) :
  FastaiClient.object_endpoint (FastaiClient.ByModelRef (FastaiClient.model_ref c modelName))
    = FastaiClient.object_endpoint (FastaiClient.ByClient c modelName).
Proof.
  unfold FastaiClient.object_endpoint, FastaiClient.model_ref.
  cbv beta iota zeta delta [FastaiClient.endpoint].
  now rewrite endsWith_app, strip_suffix_app.
Qed.

Section ObjectConventions.

Variable JSON_parse : string -> option json.
Variable fetch : transport.

(** X26.  In the function-style build, [generateObject] called with a
    client and a model name and [generateObject] called with the model
    reference that the client builds for that name do the same thing, and
    they post to the endpoint that [generateText] posts to. *)
Theorem generateObject_conventions_agree (c : FastaiClient.OpenAIClient)
  (modelName : string) (schema : Schema) (prompt : string) (sys : option string)
  (history : list ChatMessage) (tools : option json) (w : world) :
  let by_ref := FastaiClient.ByModelRef (FastaiClient.model_ref c modelName) in
  let by_client := FastaiClient.ByClient c modelName in
  let options target :=
    {| FastaiClient.go_target := target; FastaiClient.go_schema := schema;
       FastaiClient.go_prompt := prompt; FastaiClient.go_system := sys |} in
  FastaiClient.generateObject JSON_parse fetch (options by_ref) w =
    FastaiClient.generateObject JSON_parse fetch (options by_client) w /\
  url (FastaiClient.object_request (options by_ref)) =
    url (FastaiClient.request_of by_ref history tools).
Proof.
  intros by_ref by_client options. subst by_ref by_client options.
  assert (Hreq : forall t1 t2,
             FastaiClient.object_endpoint t1 = FastaiClient.object_endpoint t2 ->
             FastaiClient.apiKey_of t1 = FastaiClient.apiKey_of t2 ->
             FastaiClient.modelName_of t1 = FastaiClient.modelName_of t2 ->
             FastaiClient.object_request
               {| FastaiClient.go_target := t1; FastaiClient.go_schema := schema;
                  FastaiClient.go_prompt := prompt; FastaiClient.go_system := sys |} =
             FastaiClient.object_request
               {| FastaiClient.go_target := t2; FastaiClient.go_schema := schema;
                  FastaiClient.go_prompt := prompt; FastaiClient.go_system := sys |}).
  { intros t1 t2 He Hk Hm. unfold FastaiClient.object_request. simpl.
    now rewrite He, Hk, Hm. }
  split.
  - unfold FastaiClient.generateObject.
    rewrite (Hreq _ (FastaiClient.ByClient c modelName)
               (FastaiClient_object_endpoint_ref c modelName) eq_refl eq_refl).
    reflexivity.
  - unfold FastaiClient.object_request, FastaiClient.request_of.
    cbv beta iota zeta delta [url FastaiClient.go_target].
    rewrite FastaiClient_object_endpoint_ref.
    unfold FastaiClient.object_endpoint, FastaiClient.endpoint_of, FastaiClient.model_ref.
    cbv beta iota zeta delta [FastaiClient.endpoint].
    now rewrite strip_suffix_app.
Qed.

End ObjectConventions.

(** ** [generateObject] of the build without a class method *)

Lemma find_first (A : Type) (p : A -> bool) (before after : list A) (x : A) :
  Forall (fun y => p y = false) before ->
  p x = true ->
  find p (before ++ x :: after) = Some x.
Proof.
  intros Hb Hx. induction Hb as [|y before Hy _ IH]; simpl.
  - now rewrite Hx.
  - now rewrite Hy.
Qed.

Lemma find_none (A : Type) (p : A -> bool) (l : list A) :
  Forall (fun y => p y = false) l -> find p l = None.
Proof.
  intros Hl. induction Hl as [|y l Hy _ IH]; simpl; [reflexivity|].
  now rewrite Hy.
Qed.

Section DirectObject.

Variable JSON_parse : string -> option json.
Variable JSON_text : json -> string.
Variable fetch : transport.

(** The request of [FastaiDirect.generateObject]. *)
Definition direct_object_request (env : Fastai.ProcessEnv)
  (options : Fastai.GenerateObjectOptions) (h : list ChatMessage) : Request :=
  FastaiDirect.request_of (Fastai.client_or_default env (Fastai.go_openai options))
    (with_preamble h)
    [FastaiDirect.submit_object JSON_text (Fastai.go_schema options)].

(** [generateObject] up to the reply: the preamble is pushed when it is
    needed, one request is sent, and what follows reads the reply only. *)
Lemma FastaiDirect_generateObject_run (env : Fastai.ProcessEnv)
  (options : Fastai.GenerateObjectOptions) (w : world) (h : list ChatMessage)
  (res : ChatRespose) (reply : ChatMessage) :
  heap w !! Fastai.go_messages options = Some h ->
  fetch (requests w) (direct_object_request env options h) = Resolved res ->
  first_message res = Some reply ->
  exists w2,
    heap w2 !! Fastai.go_messages options = Some (with_preamble h) /\
    trace w2 = trace w ++ [EvFetch (direct_object_request env options h)] /\
    requests w2 = S (requests w) /\
    FastaiDirect.generateObject JSON_parse JSON_text fetch env options w =
      match find (fun c => String.eqb (fn_name c) "submit_object")
                 (match tool_calls reply with Some cs => cs | None => [] end) with
      | Some submitCall =>
          match JSON_parse (fn_arguments submitCall) with
          | None => throw SyntaxError
          | Some parsed =>
              match parse (Fastai.go_schema options) parsed with
              | None => throw ZodError
              | Some object => ret object
              end
          end
      | None =>
          throw (Error "Model did not return a structured object. Ensure the model supports tool calling.")
      end w2.
Proof.
  intros Hh Hfetch Hfirst. unfold direct_object_request, with_preamble in *.
  unfold FastaiDirect.generateObject.
  unfold bind at 1. rewrite (read_ok _ _ _ Hh).
  destruct (find (fun m => Role_eqb (role m) system) h) as [m|] eqn:Hsys.
  - unfold bind at 1. unfold ret at 1.
    unfold bind at 1. rewrite (read_ok _ _ _ Hh).
    unfold bind at 1. rewrite (post_ok _ _ _ _ Hfetch). rewrite Hfirst.
    eexists. split; [|split; [|split; [|reflexivity]]].
    + exact Hh.
    + reflexivity.
    + simpl. lia.
  - unfold bind at 1. rewrite (push_ok _ _ _ _ Hh).
    unfold bind at 1. erewrite read_ok by (simpl; apply lookup_insert_eq).
    unfold bind at 1. erewrite post_ok by (simpl; rewrite Nat.add_0_r; exact Hfetch).
    rewrite Hfirst.
    eexists. split; [|split; [|split; [|reflexivity]]].
    + simpl. apply lookup_insert_eq.
    + simpl. now rewrite app_nil_r.
    + simpl. lia.
Qed.

(** X27.  This [generateObject] looks for the [submit_object] call
    anywhere among the calls of the reply: when the first call of that
    name has arguments that parse and validate, the validated value is
    returned whatever calls come before and after it.  One request is
    sent, and the reply is not pushed onto the caller's array, which
    holds the caller's messages and the preamble only. *)
Theorem FastaiDirect_generateObject_any_position (env : Fastai.ProcessEnv)
  (options : Fastai.GenerateObjectOptions) (w : world) (h : list ChatMessage)
  (res : ChatRespose) (reply : ChatMessage)
  (before after : list ToolCall) (call : ToolCall) (parsed validated : json) :
  heap w !! Fastai.go_messages options = Some h ->
  fetch (requests w) (direct_object_request env options h) = Resolved res ->
  first_message res = Some reply ->
  tool_calls reply = Some (before ++ call :: after) ->
  Forall (fun c => fn_name c <> "submit_object") before ->
  fn_name call = "submit_object" ->
  JSON_parse (fn_arguments call) = Some parsed ->
  parse (Fastai.go_schema options) parsed = Some validated ->
  let r := FastaiDirect.generateObject JSON_parse JSON_text fetch env options w in
  fst r = Returned validated /\
  heap (snd r) !! Fastai.go_messages options = Some (with_preamble h) /\
  fetches (trace (snd r)) = fetches (trace w) ++ [direct_object_request env options h].
Proof.
  intros Hh Hfetch Hfirst Hcalls Hbefore Hname Hparse Hvalid r. subst r.
  destruct (FastaiDirect_generateObject_run env options w h res reply Hh Hfetch Hfirst)
    as (w2 & Hheap & Htrace & _ & ->).
  rewrite Hcalls, (find_first _ _ before after call).
  - rewrite Hparse, Hvalid. unfold ret. simpl.
    split; [reflexivity|]. split; [exact Hheap|].
    rewrite Htrace, fetches_app. reflexivity.
  - eapply List.Forall_impl; [|exact Hbefore].
    intros c Hc. now apply String.eqb_neq.
  - rewrite Hname. reflexivity.
Qed.

(** X28.  This [generateObject] has no fallback on the content: when no
    call of the reply is named [submit_object], it fails with "Model did
    not return a structured object", whatever the content of the reply
    is, and the preamble it pushed stays on the caller's array. *)
Theorem FastaiDirect_generateObject_no_fallback (env : Fastai.ProcessEnv)
  (options : Fastai.GenerateObjectOptions) (w : world) (h : list ChatMessage)
  (res : ChatRespose) (reply : ChatMessage) :
  heap w !! Fastai.go_messages options = Some h ->
  fetch (requests w) (direct_object_request env options h) = Resolved res ->
  first_message res = Some reply ->
  Forall (fun c => fn_name c <> "submit_object")
         (match tool_calls reply with Some cs => cs | None => [] end) ->
  let r := FastaiDirect.generateObject JSON_parse JSON_text fetch env options w in
  fst r = Threw (Error "Model did not return a structured object. Ensure the model supports tool calling.") /\
  heap (snd r) !! Fastai.go_messages options = Some (with_preamble h).
Proof.
  intros Hh Hfetch Hfirst Hnone r. subst r.
  destruct (FastaiDirect_generateObject_run env options w h res reply Hh Hfetch Hfirst)
    as (w2 & Hheap & _ & _ & ->).
  rewrite find_none.
  - unfold throw. simpl. now split.
  - eapply List.Forall_impl; [|exact Hnone].
    intros c Hc. now apply String.eqb_neq.
Qed.

End DirectObject.

Lemma FastaiDirect_generateObject_any_position_witness :
  let reply := asks [call_to "c1" "echo"; call_to "c2" "submit_object"] in
  let r := FastaiDirect.generateObject parse_braces (fun _ => "{}") (always reply)
             env_empty (options_object any_schema) world_hi in
  fst r = Returned (JObj []) /\
  heap (snd r) !! Fastai.go_messages (options_object any_schema)
    = Some (with_preamble [user_message "hi"]) /\
  fetches (trace (snd r)) =
    fetches (trace world_hi)
      ++ [direct_object_request (fun _ => "{}") env_empty (options_object any_schema)
            [user_message "hi"]].
Proof.
  apply (FastaiDirect_generateObject_any_position parse_braces (fun _ => "{}")
           (always (asks [call_to "c1" "echo"; call_to "c2" "submit_object"]))
           env_empty (options_object any_schema) world_hi [user_message "hi"]
           {| choices := Some [Some (asks [call_to "c1" "echo";
                                           call_to "c2" "submit_object"])] |}
           (asks [call_to "c1" "echo"; call_to "c2" "submit_object"])
           [call_to "c1" "echo"] [] (call_to "c2" "submit_object") (JObj []) (JObj []));
    try reflexivity.
  apply List.Forall_cons; [discriminate|apply List.Forall_nil].
Defined.

Lemma FastaiDirect_generateObject_no_fallback_witness :
  let r := FastaiDirect.generateObject parse_braces (fun _ => "{}") (always (says "{}"))
             env_empty (options_object any_schema) world_hi in
  fst r = Threw (Error "Model did not return a structured object. Ensure the model supports tool calling.") /\
  heap (snd r) !! Fastai.go_messages (options_object any_schema)
    = Some (with_preamble [user_message "hi"]).
Proof.
  apply (FastaiDirect_generateObject_no_fallback parse_braces (fun _ => "{}")
           (always (says "{}")) env_empty (options_object any_schema) world_hi
           [user_message "hi"] {| choices := Some [Some (says "{}")] |} (says "{}"));
    try reflexivity.
  apply List.Forall_nil.
Defined.
